(** * aws-cloudwatch-put-metrics: a shallow embedding of [src/cloudwatch.ts]

    The file has four parts.

    - [Js]: the part of the JavaScript runtime the program leans on: strings
      as sequences of UTF-16 code units, the values [JSON.parse] can build,
      truthiness, property reads, [ToString], [new Date],
      [String.prototype.trim], [JSON.parse] itself, and exceptions.  What an
      engine words in its own way (the text of a number, the messages of its
      own errors) is a parameter, [engine].
    - [CloudWatch]: [validateNamespace], [parseMetricData] and [putMetrics],
      written after the TypeScript source statement by statement.  A run of
      [putMetrics] yields the trace of what it logged and sent, and its
      result.
    - [Spec]: the vocabulary the properties are stated in.
    - the properties, function by function. *)

From Stdlib Require Import Ascii String DecimalString.
From Stdlib Require Import List NArith ZArith Bool Lia.
Import ListNotations.

Set Implicit Arguments.
Set Warnings "-register-all".

(* ================================================================== *)
(** * The runtime                                                      *)
(* ================================================================== *)

Module Js.

(** ** Strings *)

(** A JavaScript string is a sequence of UTF-16 code units; [length] counts
    code units and a character class of a regular expression without the
    [u] flag tests one code unit. *)
Definition code_unit := N.
Definition jsstring := list code_unit.

(** An ASCII literal of the source as a JavaScript string. *)
Definition js (s : string) : jsstring :=
  map N_of_ascii (list_ascii_of_string s).

(** The same, with every apostrophe of the literal standing for a double
    quote; used to write JSON texts down. *)
Definition json_text (s : string) : jsstring :=
  map (fun c => if N.eqb c 39 then 34%N else c) (js s).

Definition dquote : jsstring := [34%N].

Fixpoint jsstring_eqb (a b : jsstring) : bool :=
  match a, b with
  | [], [] => true
  | x :: a', y :: b' => N.eqb x y && jsstring_eqb a' b'
  | _, _ => false
  end.

(** [`${n}`] for a non-negative integer below 2^53, such as a [length]. *)
Definition nat_to_js (n : nat) : jsstring :=
  js (NilEmpty.string_of_uint (Nat.to_uint n)).

Definition between (lo hi c : N) : bool := N.leb lo c && N.leb c hi.

(** WhiteSpace and LineTerminator code points, the ones
    [String.prototype.trim] strips. *)
Definition is_trim_space (c : code_unit) : bool :=
  between 9 13 c || N.eqb c 32 || N.eqb c 160 || N.eqb c 5760
  || between 8192 8202 c || N.eqb c 8232 || N.eqb c 8233 || N.eqb c 8239
  || N.eqb c 8287 || N.eqb c 12288 || N.eqb c 65279.

Fixpoint trim_start (s : jsstring) : jsstring :=
  match s with
  | c :: s' => if is_trim_space c then trim_start s' else s
  | [] => []
  end.

Definition trim (s : jsstring) : jsstring :=
  rev (trim_start (rev (trim_start s))).

(** [/^[class]+$/.test(s)]: without the [m] flag the anchors are the two ends
    of the input, so the whole string is one or more code units of the
    class. *)
Definition test_all_in_class (class : code_unit -> bool) (s : jsstring) : bool :=
  match s with
  | [] => false
  | _ :: _ => forallb class s
  end.

(** ** Exceptions *)

(** What the program, the runtime and the calls of the libraries throw, as
    far as a [catch (error)] that reads [error instanceof Error],
    [error.message] and [String(error)] can tell: a value with a text. *)
Inductive exn :=
| Error (message : jsstring)        (* new Error(message) *)
| SyntaxError (message : jsstring)  (* raised by JSON.parse *)
| TypeError (message : jsstring)    (* raised by the runtime *)
| NotAnError (text : jsstring).     (* any other value v, String(v) = text *)

(** [error instanceof Error ? error.message : String(error)] *)
Definition error_text (e : exn) : jsstring :=
  match e with
  | Error m | SyntaxError m | TypeError m => m
  | NotAnError t => t
  end.

Inductive outcome (A : Type) :=
| Returns (a : A)
| Throws (e : exn).
Arguments Throws {A} e.

Definition bind {A B} (m : outcome A) (k : A -> outcome B) : outcome B :=
  match m with
  | Returns a => k a
  | Throws e => Throws e
  end.

Definition returns {A} (m : outcome A) : bool :=
  match m with Returns _ => true | Throws _ => false end.

(** [try { body } catch (error) { handler }] *)
Definition try_catch {A} (body : outcome A) (handler : exn -> outcome A) : outcome A :=
  match body with
  | Returns a => Returns a
  | Throws e => handler e
  end.

(** [Array.prototype.map] with a callback that may throw: the elements are
    visited in order and the first exception ends the walk. *)
Fixpoint map_outcome {A B} (f : A -> outcome B) (l : list A) : outcome (list B) :=
  match l with
  | [] => Returns []
  | x :: l' =>
      match f x with
      | Throws e => Throws e
      | Returns y =>
          match map_outcome f l' with
          | Throws e => Throws e
          | Returns ys => Returns (y :: ys)
          end
      end
  end.

(** [Array.prototype.join] on an array of strings. *)
Fixpoint join (sep : jsstring) (parts : list jsstring) : jsstring :=
  match parts with
  | [] => []
  | [p] => p
  | p :: rest => p ++ sep ++ join sep rest
  end.

Notation "x <- m ;; k" := (bind m (fun x => k))
  (at level 61, m at next level, right associativity).

(** ** Rejected promises *)

(** What a [catch (error)] around an [await] can receive.  A promise of a
    library can be rejected with any value, also with one that has no text:
    an object with no primitive value or with a [toString] of its own that
    throws, or an [Error] whose [message] is such an object.  Converting it
    to a string, by [String] or in a template literal, throws [thrown]. *)
Inductive caught :=
| exception (e : exn)
| value_without_text (thrown : exn).

(** [error instanceof Error ? error.message : String(error)], as a text
    ready for a template literal. *)
Definition error_message (error : caught) : outcome jsstring :=
  match error with
  | exception e => Returns (error_text e)
  | value_without_text thrown => Throws thrown
  end.

(** What [await] gives. *)
Inductive awaited (A : Type) :=
| fulfilled (a : A)
| rejected (error : caught).
Arguments rejected {A} error.

(** A promise that settles the way a call ends. *)
Definition settled {A} (m : outcome A) : awaited A :=
  match m with
  | Returns a => fulfilled a
  | Throws e => rejected (exception e)
  end.

Coercion settled : outcome >-> awaited.

(** ** Values *)

(** A number as [JSON.parse] reads it: the decimal literal
    [(-1)^negative * mantissa * 10^exp10], kept exact. *)
Record number := { negative : bool; mantissa : N; exp10 : Z }.

(** The literal denotes the double [+0] or [-0]: it is zero, or its
    magnitude is at most [2^-1075], half the least subnormal, which rounds
    (ties to even) to zero. *)
Definition number_is_zero (n : number) : bool :=
  N.eqb (mantissa n) 0
  || (Z.ltb (exp10 n) 0
      && Z.leb (Z.of_N (mantissa n) * 2 ^ 1075) (10 ^ (- exp10 n))).

(** The values [JSON.parse] builds.  An object keeps its members in source
    order; a name written twice is kept twice and the last one is the
    property (see [own_property]). *)
Inductive json :=
| JNull
| JBool (b : bool)
| JNumber (n : number)
| JString (s : jsstring)
| JArray (items : list json)
| JObject (members : list (jsstring * json)).

(** Induction on a JSON value through the elements of its arrays. *)
Section Json_array_ind.

Variable P : json -> Prop.
Hypothesis Hother : forall v, match v with JArray _ => True | _ => P v end.
Hypothesis Harray : forall items, Forall P items -> P (JArray items).

Fixpoint json_array_ind (v : json) : P v :=
  match v with
  | JArray items =>
      Harray
        ((fix all (l : list json) : Forall P l :=
            match l with
            | [] => Forall_nil P
            | x :: l' => Forall_cons x (json_array_ind x) (all l')
            end) items)
  | JNull => Hother JNull
  | JBool b => Hother (JBool b)
  | JNumber n => Hother (JNumber n)
  | JString s => Hother (JString s)
  | JObject members => Hother (JObject members)
  end.

End Json_array_ind.

(** A JavaScript value of this program: a JSON value or [undefined]. *)
Definition value := option json.
Definition undefined : value := None.

(** ToBoolean *)
Definition truthy_string (s : jsstring) : bool :=
  match s with
  | [] => false
  | _ :: _ => true
  end.

Definition truthy_json (v : json) : bool :=
  match v with
  | JNull => false
  | JBool b => b
  | JNumber n => negb (number_is_zero n)
  | JString s => truthy_string s
  | JArray _ | JObject _ => true
  end.

Definition truthy (v : value) : bool :=
  match v with
  | None => false
  | Some j => truthy_json j
  end.

(** [v && Array.isArray(v)], and the elements of [v] when it holds (an
    array is truthy). *)
Definition as_array (v : value) : option (list json) :=
  match v with
  | Some (JArray items) => Some items
  | _ => None
  end.

(** [v !== undefined] *)
Definition is_defined (v : value) : bool :=
  match v with
  | Some _ => true
  | None => false
  end.

Definition own_property (k : jsstring) (members : list (jsstring * json)) : value :=
  fold_left (fun found m => if jsstring_eqb (fst m) k then Some (snd m) else found)
            members undefined.

Definition has_own_property (k : jsstring) (members : list (jsstring * json)) : bool :=
  existsb (fun m => jsstring_eqb (fst m) k) members.

(** What the runtime words itself: the text of a number, and the messages
    of the errors it raises.  The program passes them on and never looks
    inside. *)
Record engine := {
  Number_toString : number -> jsstring;
  (* message of the SyntaxError JSON.parse raises on a text *)
  SyntaxError_message : jsstring -> jsstring;
  (* message of the TypeError for reading a property of null *)
  null_read_message : jsstring -> jsstring;
  (* message of the TypeError when an object has no primitive value *)
  not_primitive_message : jsstring
}.

(** ** Dates *)

(** A [Date] object, by what it was built from: a text handed to the date
    parser or a time value.  Neither is interpreted here. *)
Inductive Date :=
| DateOfText (text : jsstring)
| DateOfNumber (time : number).

Section Runtime.

Variable E : engine.

(** [v.k] for a property name [k] that no prototype defines and that is
    neither an index nor [length] (the ten names this program reads):
    reading from [null] throws, an object answers with its own property,
    every other value with [undefined]. *)
Definition Get (v : json) (k : jsstring) : outcome value :=
  match v with
  | JNull => Throws (TypeError (null_read_message E k))
  | JObject members => Returns (own_property k members)
  | _ => Returns undefined
  end.

(** ToString.  An array joins its elements with a comma, [null] elements as
    the empty string.  An object parsed from JSON answers
    [[object Object]] through [Object.prototype.toString], unless it has a
    member named [toString] of its own: that member is not callable,
    [valueOf] gives no primitive either, and the conversion throws. *)
Fixpoint ToString_json (v : json) : outcome jsstring :=
  match v with
  | JNull => Returns (js "null")
  | JBool true => Returns (js "true")
  | JBool false => Returns (js "false")
  | JNumber n => Returns (Number_toString E n)
  | JString s => Returns s
  | JArray items =>
      (fix join_items (l : list json) : outcome jsstring :=
         match l with
         | [] => Returns []
         | x :: l' =>
             sx <- match x with JNull => Returns [] | _ => ToString_json x end ;;
             match l' with
             | [] => Returns sx
             | _ :: _ => rest <- join_items l' ;; Returns (sx ++ js "," ++ rest)
             end
         end) items
  | JObject members =>
      if has_own_property (js "toString") members
      then Throws (TypeError (not_primitive_message E))
      else Returns (js "[object Object]")
  end.

Definition ToString (v : value) : outcome jsstring :=
  match v with
  | None => Returns (js "undefined")
  | Some j => ToString_json j
  end.

(** [new Date(v)]: ToPrimitive first (an array or object is converted as
    by ToString and may throw), then a string is parsed and anything else
    is taken as a number. *)
Definition new_Date (v : json) : outcome Date :=
  match v with
  | JNull => Returns (DateOfNumber {| negative := false; mantissa := 0; exp10 := 0 |})
  | JBool b => Returns (DateOfNumber {| negative := false;
                                        mantissa := if b then 1 else 0;
                                        exp10 := 0 |})
  | JNumber n => Returns (DateOfNumber n)
  | JString s => Returns (DateOfText s)
  | JArray _ | JObject _ => s <- ToString_json v ;; Returns (DateOfText s)
  end.

End Runtime.

(** ** JSON.parse *)

Definition is_json_space (c : code_unit) : bool :=
  N.eqb c 9 || N.eqb c 10 || N.eqb c 13 || N.eqb c 32.

Fixpoint skip_space (s : jsstring) : jsstring :=
  match s with
  | c :: s' => if is_json_space c then skip_space s' else s
  | [] => []
  end.

Definition is_digit (c : code_unit) : bool := between 48 57 c.

(** Reads the longest run of decimal digits: the number read so far, how
    many digits were read, the rest. *)
Fixpoint read_digits (acc : N) (count : nat) (s : jsstring) : N * nat * jsstring :=
  match s with
  | c :: s' =>
      if is_digit c then read_digits (acc * 10 + (c - 48))%N (S count) s'
      else (acc, count, s)
  | [] => (acc, count, [])
  end.

Definition parse_exponent (s : jsstring) : option (Z * jsstring) :=
  match s with
  | c :: r =>
      if N.eqb c 101 || N.eqb c 69 then
        let '(minus, r1) :=
          match r with
          | d :: r' => if N.eqb d 45 then (true, r')
                       else if N.eqb d 43 then (false, r') else (false, r)
          | [] => (false, r)
          end in
        let '(e, k, r2) := read_digits 0 0 r1 in
        match k with
        | O => None
        | S _ => Some (if minus then (- Z.of_N e)%Z else Z.of_N e, r2)
        end
      else Some (0%Z, s)
  | [] => Some (0%Z, s)
  end.

Definition parse_fraction (m : N) (s : jsstring) : option (N * nat * jsstring) :=
  match s with
  | c :: r =>
      if N.eqb c 46 then
        let '(m', k, r') := read_digits m 0 r in
        match k with
        | O => None
        | S _ => Some (m', k, r')
        end
      else Some (m, O, s)
  | [] => Some (m, O, s)
  end.

(** A JSON number: an optional minus sign; a zero, or a digit from 1 to 9
    and any digits; optionally a point and one or more digits; optionally
    [e] or [E], a sign and one or more digits. *)
Definition parse_number (s : jsstring) : option (number * jsstring) :=
  let '(neg, s1) :=
    match s with
    | c :: r => if N.eqb c 45 then (true, r) else (false, s)
    | [] => (false, s)
    end in
  let int_part :=
    match s1 with
    | c :: r =>
        if N.eqb c 48 then Some (0%N, r)
        else if is_digit c then let '(m, _, r') := read_digits 0 0 s1 in Some (m, r')
        else None
    | [] => None
    end in
  match int_part with
  | None => None
  | Some (m, s2) =>
      match parse_fraction m s2 with
      | None => None
      | Some (m', k, s3) =>
          match parse_exponent s3 with
          | None => None
          | Some (e, s4) =>
              Some ({| negative := neg; mantissa := m';
                       exp10 := (e - Z.of_nat k)%Z |}, s4)
          end
      end
  end.

Definition hex_value (c : code_unit) : option N :=
  if is_digit c then Some (c - 48)%N
  else if between 97 102 c then Some (c - 87)%N
  else if between 65 70 c then Some (c - 55)%N
  else None.

Definition hex4 (a b c d : code_unit) : option code_unit :=
  match hex_value a, hex_value b, hex_value c, hex_value d with
  | Some x, Some y, Some z, Some w => Some (((x * 16 + y) * 16 + z) * 16 + w)%N
  | _, _, _, _ => None
  end.

Definition escape (c : code_unit) : option code_unit :=
  if N.eqb c 34 || N.eqb c 92 || N.eqb c 47 then Some c
  else if N.eqb c 98 then Some 8%N
  else if N.eqb c 102 then Some 12%N
  else if N.eqb c 110 then Some 10%N
  else if N.eqb c 114 then Some 13%N
  else if N.eqb c 116 then Some 9%N
  else None.

(** The characters of a string literal after its opening quote, up to and
    including the closing one. *)
Fixpoint parse_string_tail (s : jsstring) : option (jsstring * jsstring) :=
  let cons_to c r :=
    match r with
    | Some (str, rest) => Some (c :: str, rest)
    | None => None
    end in
  match s with
  | [] => None
  | c :: r =>
      if N.eqb c 34 then Some ([], r)
      else if N.eqb c 92 then
        match r with
        | [] => None
        | x :: r1 =>
            if N.eqb x 117 then
              match r1 with
              | a :: b :: c' :: d :: r2 =>
                  match hex4 a b c' d with
                  | Some u => cons_to u (parse_string_tail r2)
                  | None => None
                  end
              | _ => None
              end
            else
              match escape x with
              | Some u => cons_to u (parse_string_tail r1)
              | None => None
              end
        end
      else if N.ltb c 32 then None
      else cons_to c (parse_string_tail r)
  end.

Fixpoint strip_prefix (p s : jsstring) : option jsstring :=
  match p, s with
  | [], _ => Some s
  | x :: p', y :: s' => if N.eqb x y then strip_prefix p' s' else None
  | _ :: _, [] => None
  end.

(** What a parsing function answers: a value and the rest of the text, a
    syntax error, or that it ran out of [fuel]. *)
Inductive parsed (A : Type) :=
| Parsed (a : A) (rest : jsstring)
| Malformed
| OutOfFuel.
Arguments Malformed {A}.
Arguments OutOfFuel {A}.

(** One JSON value at the head of [s], after white space.  [fuel] bounds
    the depth of the calls; [json_of_text] gives enough of it
    (see [json_of_text_fuel]). *)
Fixpoint parse_value (fuel : nat) (s : jsstring) : parsed json :=
  match fuel with
  | O => OutOfFuel
  | S fuel' =>
      match skip_space s with
      | [] => Malformed
      | c :: r =>
          if N.eqb c 34 then
            match parse_string_tail r with
            | Some (str, r') => Parsed (JString str) r'
            | None => Malformed
            end
          else if N.eqb c 91 then
            match skip_space r with
            | [] => Malformed
            | c' :: r' =>
                if N.eqb c' 93 then Parsed (JArray []) r'
                else match parse_elements fuel' r with
                     | Parsed items r'' => Parsed (JArray items) r''
                     | Malformed => Malformed
                     | OutOfFuel => OutOfFuel
                     end
            end
          else if N.eqb c 123 then
            match skip_space r with
            | [] => Malformed
            | c' :: r' =>
                if N.eqb c' 125 then Parsed (JObject []) r'
                else match parse_members fuel' r with
                     | Parsed members r'' => Parsed (JObject members) r''
                     | Malformed => Malformed
                     | OutOfFuel => OutOfFuel
                     end
            end
          else
            match strip_prefix (js "null") (c :: r),
                  strip_prefix (js "true") (c :: r),
                  strip_prefix (js "false") (c :: r) with
            | Some r', _, _ => Parsed JNull r'
            | _, Some r', _ => Parsed (JBool true) r'
            | _, _, Some r' => Parsed (JBool false) r'
            | None, None, None =>
                match parse_number (c :: r) with
                | Some (n, r') => Parsed (JNumber n) r'
                | None => Malformed
                end
            end
      end
  end

(** The elements of an array after its bracket, up to and including the
    closing one. *)
with parse_elements (fuel : nat) (s : jsstring) : parsed (list json) :=
  match fuel with
  | O => OutOfFuel
  | S fuel' =>
      match parse_value fuel' s with
      | Malformed => Malformed
      | OutOfFuel => OutOfFuel
      | Parsed v r =>
          match skip_space r with
          | [] => Malformed
          | c :: r' =>
              if N.eqb c 93 then Parsed [v] r'
              else if N.eqb c 44 then
                match parse_elements fuel' r' with
                | Parsed vs r'' => Parsed (v :: vs) r''
                | Malformed => Malformed
                | OutOfFuel => OutOfFuel
                end
              else Malformed
          end
      end
  end

(** The members of an object after its brace, up to and including the
    closing one. *)
with parse_members (fuel : nat) (s : jsstring) : parsed (list (jsstring * json)) :=
  match fuel with
  | O => OutOfFuel
  | S fuel' =>
      match skip_space s with
      | [] => Malformed
      | q :: r0 =>
          if negb (N.eqb q 34) then Malformed else
          match parse_string_tail r0 with
          | None => Malformed
          | Some (k, r1) =>
              match skip_space r1 with
              | [] => Malformed
              | colon :: r2 =>
                  if negb (N.eqb colon 58) then Malformed else
                  match parse_value fuel' r2 with
                  | Malformed => Malformed
                  | OutOfFuel => OutOfFuel
                  | Parsed v r3 =>
                      match skip_space r3 with
                      | [] => Malformed
                      | c :: r4 =>
                          if N.eqb c 125 then Parsed [(k, v)] r4
                          else if N.eqb c 44 then
                            match parse_members fuel' r4 with
                            | Parsed ms r5 => Parsed ((k, v) :: ms) r5
                            | Malformed => Malformed
                            | OutOfFuel => OutOfFuel
                            end
                          else Malformed
                      end
                  end
              end
          end
      end
  end.

(** The whole text is one value between optional white space. *)
Definition json_of_text (s : jsstring) : option json :=
  match parse_value (2 * length s + 2) s with
  | Parsed v r => match skip_space r with [] => Some v | _ :: _ => None end
  | Malformed | OutOfFuel => None
  end.

Definition JSON_parse (E : engine) (s : jsstring) : outcome json :=
  match json_of_text s with
  | Some v => Returns v
  | None => Throws (SyntaxError (SyntaxError_message E s))
  end.

End Js.

Import Js.

(* ================================================================== *)
(** * The program                                                      *)
(* ================================================================== *)

Module CloudWatch.

(** ** validateNamespace *)

(** [[a-zA-Z0-9_.\-\/]] *)
Definition namespace_char (c : code_unit) : bool :=
  between 97 122 c || between 65 90 c || between 48 57 c
  || N.eqb c 95 || N.eqb c 46 || N.eqb c 45 || N.eqb c 47.

Definition validPattern_test : jsstring -> bool :=
  test_all_in_class namespace_char.

Definition validateNamespace (namespace : jsstring) : outcome unit :=
  if negb (truthy_string namespace) || Nat.eqb (length (trim namespace)) 0
  then Throws (Error (js "Namespace cannot be empty"))
  else if Nat.ltb 255 (length namespace)
  then Throws (Error (js "Namespace exceeds maximum length of 255 characters (got "
                        ++ nat_to_js (length namespace) ++ js ")"))
  else if negb (validPattern_test namespace)
  then Throws (Error (js "Namespace " ++ dquote ++ namespace ++ dquote
                        ++ js " contains invalid characters. "
                        ++ js "Only alphanumeric characters, hyphens, underscores, periods, and forward slashes are allowed."))
  else Returns tt.

(** ** parseMetricData *)

(** The SDK's [MetricDatum], with the fields this program sets.  A field
    that was never assigned reads [undefined]. *)
Record MetricDatum := {
  MetricName : value;
  Value : value;
  Unit : value;
  Timestamp : option Date;
  Dimensions : option (list json);   (* only ever assigned an array *)
  Values : value;
  Counts : value;
  StatisticValues : value
}.

Definition set_Value (m : MetricDatum) (v : value) : MetricDatum :=
  {| MetricName := MetricName m; Value := v; Unit := Unit m;
     Timestamp := Timestamp m; Dimensions := Dimensions m; Values := Values m;
     Counts := Counts m; StatisticValues := StatisticValues m |}.

Definition set_Unit (m : MetricDatum) (v : value) : MetricDatum :=
  {| MetricName := MetricName m; Value := Value m; Unit := v;
     Timestamp := Timestamp m; Dimensions := Dimensions m; Values := Values m;
     Counts := Counts m; StatisticValues := StatisticValues m |}.

Definition set_Timestamp (m : MetricDatum) (d : Date) : MetricDatum :=
  {| MetricName := MetricName m; Value := Value m; Unit := Unit m;
     Timestamp := Some d; Dimensions := Dimensions m; Values := Values m;
     Counts := Counts m; StatisticValues := StatisticValues m |}.

Definition set_Dimensions (m : MetricDatum) (ds : list json) : MetricDatum :=
  {| MetricName := MetricName m; Value := Value m; Unit := Unit m;
     Timestamp := Timestamp m; Dimensions := Some ds; Values := Values m;
     Counts := Counts m; StatisticValues := StatisticValues m |}.

Definition set_Values (m : MetricDatum) (v : value) : MetricDatum :=
  {| MetricName := MetricName m; Value := Value m; Unit := Unit m;
     Timestamp := Timestamp m; Dimensions := Dimensions m; Values := v;
     Counts := Counts m; StatisticValues := StatisticValues m |}.

Definition set_Counts (m : MetricDatum) (v : value) : MetricDatum :=
  {| MetricName := MetricName m; Value := Value m; Unit := Unit m;
     Timestamp := Timestamp m; Dimensions := Dimensions m; Values := Values m;
     Counts := v; StatisticValues := StatisticValues m |}.

Definition set_StatisticValues (m : MetricDatum) (v : value) : MetricDatum :=
  {| MetricName := MetricName m; Value := Value m; Unit := Unit m;
     Timestamp := Timestamp m; Dimensions := Dimensions m; Values := Values m;
     Counts := Counts m; StatisticValues := v |}.

Section Program.

Variable E : engine.

(** The body of the [for] loop at index [i], on [data = parsedData[i]]. *)
Definition parse_one (i : nat) (data : json) : outcome MetricDatum :=
  name <- Get E data (js "MetricName") ;;
  if negb (truthy name)
  then Throws (Error (js "Metric at index " ++ nat_to_js i
                        ++ js " is missing required field 'MetricName'"))
  else
  let metric :=
    {| MetricName := name; Value := undefined; Unit := undefined;
       Timestamp := None; Dimensions := None; Values := undefined;
       Counts := undefined; StatisticValues := undefined |} in
  (* Add value if provided *)
  dValue <- Get E data (js "Value") ;;
  let metric := if is_defined dValue then set_Value metric dValue else metric in
  (* Add unit if provided *)
  dUnit <- Get E data (js "Unit") ;;
  let metric := if truthy dUnit then set_Unit metric dUnit else metric in
  (* Add timestamp if provided: [data.Timestamp] is truthy *)
  dTimestamp <- Get E data (js "Timestamp") ;;
  metric <- match dTimestamp with
            | Some t => if truthy_json t
                        then d <- new_Date E t ;; Returns (set_Timestamp metric d)
                        else Returns metric
            | None => Returns metric
            end ;;
  (* Add dimensions if provided *)
  dDimensions <- Get E data (js "Dimensions") ;;
  metric <- match as_array dDimensions with
            | Some ds =>
                if Nat.ltb 30 (length ds)
                then nameText <- ToString E name ;;
                     Throws (Error (js "Metric " ++ dquote ++ nameText ++ dquote
                                      ++ js " has too many dimensions (max 30, got "
                                      ++ nat_to_js (length ds) ++ js ")"))
                else Returns (set_Dimensions metric ds)
            | None => Returns metric
            end ;;
  (* Add values/counts for statistic sets *)
  dValues <- Get E data (js "Values") ;;
  let metric := if truthy dValues then set_Values metric dValues else metric in
  dCounts <- Get E data (js "Counts") ;;
  let metric := if truthy dCounts then set_Counts metric dCounts else metric in
  (* Add statistic values if provided *)
  dStatisticValues <- Get E data (js "StatisticValues") ;;
  let metric := if truthy dStatisticValues
                then set_StatisticValues metric dStatisticValues else metric in
  (* Validate that at least one data point is provided *)
  if negb (is_defined (Value metric))
     && negb (truthy (Values metric))
     && negb (truthy (StatisticValues metric))
  then nameText <- ToString E name ;;
       Throws (Error (js "Metric " ++ dquote ++ nameText ++ dquote
                        ++ js " must have at least one of: Value, Values, or StatisticValues"))
  else Returns metric.

(** [for (let i = 0; i < parsedData.length; i++) { ...; metrics.push(metric) }],
    entered at index [i] with [rest] still to visit. *)
Fixpoint parse_loop (i : nat) (rest : list json) (metrics : list MetricDatum)
  : outcome (list MetricDatum) :=
  match rest with
  | [] => Returns metrics
  | data :: rest' =>
      metric <- parse_one i data ;;
      parse_loop (S i) rest' (metrics ++ [metric])
  end.

Definition parseMetricData (metricDataStr : jsstring) : outcome (list MetricDatum) :=
  parsedData <-
    try_catch (JSON_parse E metricDataStr)
      (fun error => Throws (Error (js "Failed to parse metric-data JSON: "
                                     ++ error_text error))) ;;
  match parsedData with
  | JArray items =>
      if Nat.eqb (length items) 0
      then Throws (Error (js "metric-data array cannot be empty"))
      else if Nat.ltb 1000 (length items)
      then Throws (Error (js "metric-data array exceeds maximum size of 1000 metrics (got "
                            ++ nat_to_js (length items) ++ js ")"))
      else parse_loop 0 items []
  | _ => Throws (Error (js "metric-data must be a JSON array"))
  end.

(** ** putMetrics *)

Record PutMetricDataCommand := {
  Namespace : jsstring;
  MetricData : list MetricDatum
}.

Record MetricResult := {
  success : bool;
  metricsCount : option nat;
  error : option jsstring
}.

(** What a run does to the outside, in order: lines written through
    [core.info] and [core.error], and commands handed to [client.send]. *)
Inductive event :=
| info_line (message : jsstring)
| error_line (message : jsstring)
| sent (command : PutMetricDataCommand).

(** A computation that leaves a trace of events and then returns or
    throws. *)
Definition io (A : Type) : Type := (list event * outcome A)%type.

Definition io_ret {A} (a : A) : io A := ([], Returns a).

Definition io_bind {A B} (m : io A) (k : A -> io B) : io B :=
  match m with
  | (t, Returns a) => let (t', r) := k a in (t ++ t', r)
  | (t, Throws e) => (t, Throws e)
  end.

Definition lift {A} (m : outcome A) : io A := ([], m).

(** The body of an [async] function: it leaves a trace and ends as an
    [await] can. *)
Definition async (A : Type) : Type := (list event * awaited A)%type.

Definition async_bind {A B} (m : async A) (k : A -> async B) : async B :=
  match m with
  | (t, fulfilled a) => let (t', r) := k a in (t ++ t', r)
  | (t, rejected error) => (t, rejected error)
  end.

(** A step that awaits nothing. *)
Definition sync {A} (m : io A) : async A := (fst m, settled (snd m)).

(** [try { body } catch (error) { handler }] around a body that awaits. *)
Definition io_try_catch {A} (body : async A) (handler : caught -> io A) : io A :=
  match body with
  | (t, fulfilled a) => (t, Returns a)
  | (t, rejected error) => let (t', r) := handler error in (t ++ t', r)
  end.

Definition core_info (message : jsstring) : io unit :=
  ([info_line message], Returns tt).

Definition core_error (message : jsstring) : io unit :=
  ([error_line message], Returns tt).

(** The backend behind [client.send], awaited: on the one command it is
    given the promise is fulfilled or rejected. *)
Definition CloudWatchClient := PutMetricDataCommand -> awaited unit.

(** [await client.send(command)] *)
Definition client_send (client : CloudWatchClient) (command : PutMetricDataCommand)
  : async unit :=
  ([sent command], client command).

Notation "x <~ m ;; k" := (io_bind m (fun x => k))
  (at level 61, m at next level, right associativity).

Notation "x <<~ m ;; k" := (async_bind m (fun x => k))
  (at level 61, m at next level, right associativity).

(** [`${d.Name}=${d.Value}`] *)
Definition dimension_text (d : json) : outcome jsstring :=
  dName <- Get E d (js "Name") ;;
  nameText <- ToString E dName ;;
  dValue <- Get E d (js "Value") ;;
  valueText <- ToString E dValue ;;
  Returns (nameText ++ js "=" ++ valueText).

(** The line logged for one published metric. *)
Definition metric_line (metric : MetricDatum) : outcome jsstring :=
  dims <- match Dimensions metric with
          | Some ds =>
              parts <- map_outcome dimension_text ds ;;
              Returns (js " [" ++ join (js ", ") parts ++ js "]")
          | None => Returns []
          end ;;
  let value := if is_defined (Value metric) then Value metric
               else Some (JString (js "statistic-set")) in
  unit <- (if truthy (Unit metric)
           then unitText <- ToString E (Unit metric) ;; Returns (js " " ++ unitText)
           else Returns []) ;;
  nameText <- ToString E (MetricName metric) ;;
  valueText <- ToString E value ;;
  Returns (js "  - " ++ nameText ++ dims ++ js ": " ++ valueText ++ unit).

(** [for (const metric of metricData) { ...; core.info(...) }] *)
Fixpoint log_metrics (metricData : list MetricDatum) : io unit :=
  match metricData with
  | [] => io_ret tt
  | metric :: rest =>
      line <~ lift (metric_line metric) ;;
      _ <~ core_info line ;;
      log_metrics rest
  end.

(** The [try] block of [putMetrics]. *)
Definition putMetrics_try (client : CloudWatchClient) (namespace metricDataStr : jsstring)
  : async MetricResult :=
  (* Validate namespace *)
  _ <<~ sync (lift (validateNamespace namespace)) ;;
  _ <<~ sync (core_info (js "Parsing metric data...")) ;;
  (* Parse and validate metric data *)
  metricData <<~ sync (lift (parseMetricData metricDataStr)) ;;
  _ <<~ sync (core_info (js "Publishing " ++ nat_to_js (length metricData)
                           ++ js " metric(s) to namespace "
                           ++ dquote ++ namespace ++ dquote)) ;;
  let command := {| Namespace := namespace; MetricData := metricData |} in
  _ <<~ client_send client command ;;
  _ <<~ sync (core_info (10003%N :: js " Metrics published successfully")) ;;
  (* Log each metric for visibility *)
  _ <<~ sync (log_metrics metricData) ;;
  sync (io_ret {| success := true;
                  metricsCount := Some (length metricData);
                  error := None |}).

(** Its [catch (error)] block.  The message is computed, and quoted in the
    template literal, outside any [try]: what that throws leaves
    [putMetrics]. *)
Definition putMetrics_catch (error : caught) : io MetricResult :=
  errorMessage <~ lift (error_message error) ;;
  _ <~ core_error (js "Failed to put metrics: " ++ errorMessage) ;;
  io_ret {| success := false;
            metricsCount := None;
            error := Some errorMessage |}.

Definition putMetrics (client : CloudWatchClient) (namespace metricDataStr : jsstring)
  : io MetricResult :=
  io_try_catch (putMetrics_try client namespace metricDataStr) putMetrics_catch.

End Program.

End CloudWatch.

Import CloudWatch.

(* ================================================================== *)
(** * The entry point                                                  *)
(* ================================================================== *)

Module Main.

(** What the step does to the outside, in order: what [putMetrics] and
    [run]'s own [core.info] calls do, and the two calls that settle the
    result of the step. *)
Inductive action :=
| step (e : event)
| output_set (name value : jsstring)   (* core.setOutput(name, value) *)
| failed_set (message : jsstring).     (* core.setFailed(message) *)

(** What [run] takes from its surroundings: the inputs of the step as
    [core.getInput(name, { required: true })] answers for them, and
    [new CloudWatchClient({})]. *)
Record host := {
  getInput : jsstring -> outcome jsstring;
  new_CloudWatchClient : outcome CloudWatchClient
}.

Definition act (A : Type) : Type := (list action * outcome A)%type.

Definition act_ret {A} (a : A) : act A := ([], Returns a).

Definition act_bind {A B} (m : act A) (k : A -> act B) : act B :=
  match m with
  | (t, Returns a) => let (t', r) := k a in (t ++ t', r)
  | (t, Throws e) => (t, Throws e)
  end.

Definition act_try_catch {A} (body : act A) (handler : exn -> act A) : act A :=
  match body with
  | (t, Returns a) => (t, Returns a)
  | (t, Throws e) => let (t', r) := handler e in (t ++ t', r)
  end.

Definition act_lift {A} (m : outcome A) : act A := ([], m).

(** [await] on a computation of [cloudwatch.ts]. *)
Definition act_await {A} (m : io A) : act A := (map step (fst m), snd m).

Definition info (message : jsstring) : act unit :=
  ([step (info_line message)], Returns tt).

Definition setOutput (name value : jsstring) : act unit :=
  ([output_set name value], Returns tt).

Definition setFailed (message : jsstring) : act unit :=
  ([failed_set message], Returns tt).

Notation "x <~~ m ;; k" := (act_bind m (fun x => k))
  (at level 61, m at next level, right associativity).

(** [result.error || 'Failed to put metrics'] *)
Definition error_or_default (error : option jsstring) : jsstring :=
  match error with
  | Some message => if truthy_string message then message
                    else js "Failed to put metrics"
  | None => js "Failed to put metrics"
  end.

(** [String(result.metricsCount || 0)] *)
Definition count_or_zero (metricsCount : option nat) : jsstring :=
  match metricsCount with
  | Some n => if Nat.eqb n 0 then nat_to_js 0 else nat_to_js n
  | None => nat_to_js 0
  end.

(** [`${result.metricsCount}`] *)
Definition count_text (metricsCount : option nat) : jsstring :=
  match metricsCount with
  | Some n => nat_to_js n
  | None => js "undefined"
  end.

(** ['='.repeat(50)] *)
Definition rule : jsstring := repeat 61%N 50.

Section Run.

Variable E : engine.
Variable H : host.

(** The [try] block of [run]. *)
Definition run_try : act unit :=
  (* Get inputs *)
  namespace <~~ act_lift (getInput H (js "namespace")) ;;
  metricDataStr <~~ act_lift (getInput H (js "metric-data")) ;;
  _ <~~ info (js "AWS CloudWatch Put Metrics") ;;
  _ <~~ info (js "Namespace: " ++ namespace) ;;
  (* Create CloudWatch client (uses AWS credentials from environment) *)
  client <~~ act_lift (new_CloudWatchClient H) ;;
  (* Put metrics *)
  result <~~ act_await (putMetrics E client namespace metricDataStr) ;;
  (* Handle result *)
  if negb (success result)
  then act_lift (Throws (Error (error_or_default (error result))))
  else
  (* Set outputs *)
  _ <~~ setOutput (js "metrics-count") (count_or_zero (metricsCount result)) ;;
  (* Summary *)
  _ <~~ info [] ;;
  _ <~~ info rule ;;
  _ <~~ info (js "Successfully published " ++ count_text (metricsCount result)
                ++ js " metric(s)") ;;
  _ <~~ info (js "Namespace: " ++ namespace) ;;
  info rule.

(** Its [catch (error)] block. *)
Definition run_catch (error : exn) : act unit :=
  let errorMessage := error_text error in
  setFailed errorMessage.

Definition run : act unit := act_try_catch run_try run_catch.

End Run.

End Main.

Import Main.

(* ================================================================== *)
(** * The vocabulary of the properties                                 *)
(* ================================================================== *)

Module Spec.

(** ** Namespaces *)

Definition whitespace_only (s : jsstring) : Prop :=
  Forall (fun c => is_trim_space c = true) s.

Definition in_namespace_charset (s : jsstring) : Prop :=
  Forall (fun c => namespace_char c = true) s.

(** ** Metric records *)

(** [data.k] as [Get] reads it where it does not throw. *)
Definition field (data : json) (k : jsstring) : value :=
  match data with
  | JObject members => own_property k members
  | _ => undefined
  end.

(** A field copied under [if (data.k)]. *)
Definition when_truthy (v : value) : value :=
  if truthy v then v else undefined.

(** The record carries one of the three data fields. *)
Definition has_data (m : MetricDatum) : bool :=
  is_defined (Value m) || is_defined (Values m) || is_defined (StatisticValues m).

(** The record [parse_one] builds from [data], field by field. *)
Definition built_from (E : engine) (data : json) (m : MetricDatum) : Prop :=
  MetricName m = field data (js "MetricName")
  /\ truthy (MetricName m) = true
  /\ Value m = field data (js "Value")
  /\ Unit m = when_truthy (field data (js "Unit"))
  /\ match when_truthy (field data (js "Timestamp")) with
     | Some t => exists d, new_Date E t = Returns d /\ Timestamp m = Some d
     | None => Timestamp m = None
     end
  /\ Dimensions m = as_array (field data (js "Dimensions"))
  /\ (forall ds, Dimensions m = Some ds -> length ds <= 30)
  /\ Values m = when_truthy (field data (js "Values"))
  /\ Counts m = when_truthy (field data (js "Counts"))
  /\ StatisticValues m = when_truthy (field data (js "StatisticValues"))
  /\ has_data m = true.

(** ** The input interface *)

(** [interface MetricDataInput] of the source, as a test on a parsed
    record: [MetricName: string], [Value?: number], [Unit?: StandardUnit],
    [Timestamp?: string], [Dimensions?: Array<{Name: string; Value: string}>],
    [Values?: number[]], [Counts?: number[]] and
    [StatisticValues?: {SampleCount, Sum, Minimum, Maximum: number}]. *)

Definition is_string (v : value) : bool :=
  match v with Some (JString _) => true | _ => false end.

Definition is_number (v : value) : bool :=
  match v with Some (JNumber _) => true | _ => false end.

Definition optional (p : value -> bool) (v : value) : bool :=
  match v with None => true | Some _ => p v end.

Definition is_array_of (p : json -> bool) (v : value) : bool :=
  match v with Some (JArray items) => forallb p items | _ => false end.

Definition is_object (v : value) : bool :=
  match v with Some (JObject _) => true | _ => false end.

(** The SDK's [StandardUnit], as the README lists the supported units. *)
Definition StandardUnit : list jsstring :=
  map js
    ["Seconds"; "Microseconds"; "Milliseconds";
     "Bytes"; "Kilobytes"; "Megabytes"; "Gigabytes"; "Terabytes";
     "Bits"; "Kilobits"; "Megabits"; "Gigabits"; "Terabits";
     "Bytes/Second"; "Kilobytes/Second"; "Megabytes/Second";
     "Gigabytes/Second"; "Terabytes/Second";
     "Bits/Second"; "Kilobits/Second"; "Megabits/Second";
     "Gigabits/Second"; "Terabits/Second"; "Count/Second";
     "Count"; "Percent"; "None"]%string.

Definition is_StandardUnit (v : value) : bool :=
  match v with
  | Some (JString u) => existsb (jsstring_eqb u) StandardUnit
  | _ => false
  end.

Definition is_dimension (d : json) : bool :=
  is_string (field d (js "Name")) && is_string (field d (js "Value")).

Definition is_statistic_set (v : value) : bool :=
  match v with
  | Some s =>
      is_object v
      && is_number (field s (js "SampleCount")) && is_number (field s (js "Sum"))
      && is_number (field s (js "Minimum")) && is_number (field s (js "Maximum"))
  | None => false
  end.

Definition conforms (data : json) : bool :=
  is_object (Some data)
  && is_string (field data (js "MetricName"))
  && optional is_number (field data (js "Value"))
  && optional is_StandardUnit (field data (js "Unit"))
  && optional is_string (field data (js "Timestamp"))
  && optional (is_array_of is_dimension) (field data (js "Dimensions"))
  && optional (is_array_of (fun j => is_number (Some j))) (field data (js "Values"))
  && optional (is_array_of (fun j => is_number (Some j))) (field data (js "Counts"))
  && optional is_statistic_set (field data (js "StatisticValues")).

(** The timestamp, when the record has one, is a text that is not empty, as
    every text in ISO 8601 form is. *)
Definition timestamp_given (data : json) : bool :=
  match field data (js "Timestamp") with
  | Some (JString t) => truthy_string t
  | _ => true
  end.

(** A well-formed record: it follows the interface, and its timestamp, if
    it has one, is not the empty text. *)
Definition well_formed (data : json) : bool :=
  conforms data && timestamp_given data.

(** A valid record: a non-empty [MetricName], at most 30 dimensions, and
    at least one of [Value], [Values] and [StatisticValues]. *)
Definition valid_record (data : json) : bool :=
  truthy (field data (js "MetricName"))
  && match as_array (field data (js "Dimensions")) with
     | Some ds => Nat.leb (length ds) 30
     | None => true
     end
  && (is_defined (field data (js "Value"))
      || is_defined (field data (js "Values"))
      || is_defined (field data (js "StatisticValues"))).

(** After field extraction the record has none of the three data fields:
    [Value] is [undefined], and [Values] and [StatisticValues] were not
    copied. *)
Definition lacks_data (data : json) : bool :=
  negb (is_defined (field data (js "Value")))
  && negb (truthy (field data (js "Values")))
  && negb (truthy (field data (js "StatisticValues"))).

(** The record passes every check of the loop body that comes before the
    one for a data field: its name is truthy, its timestamp, if any, makes a
    [Date], and it has at most 30 dimensions. *)
Definition reaches_data_check (E : engine) (data : json) : Prop :=
  truthy (field data (js "MetricName")) = true
  /\ match when_truthy (field data (js "Timestamp")) with
     | Some t => exists d, new_Date E t = Returns d
     | None => True
     end
  /\ forall ds, as_array (field data (js "Dimensions")) = Some ds -> length ds <= 30.

(** The message of the check for a data field. *)
Definition no_data_message (nameText : jsstring) : jsstring :=
  js "Metric " ++ dquote ++ nameText ++ dquote
  ++ js " must have at least one of: Value, Values, or StatisticValues".

(** The message of the check on the number of dimensions. *)
Definition too_many_dimensions_message (nameText : jsstring) (n : nat) : jsstring :=
  js "Metric " ++ dquote ++ nameText ++ dquote
  ++ js " has too many dimensions (max 30, got " ++ nat_to_js n ++ js ")".

(** What a check throws whose message quotes the name of the metric.  The
    template literal converts the name to a string first: a name that has
    no conversion, an object with a [toString] member of its own, throws
    there, and the error of the check is never made. *)
Definition check_error (E : engine) (data : json) (message : jsstring -> jsstring)
  : exn :=
  match ToString E (field data (js "MetricName")) with
  | Returns nameText => Error (message nameText)
  | Throws e => e
  end.

(** What [parseMetricData] can throw on a text that holds an array: an
    [Error] of its own, or a TypeError of the runtime, for reading
    [MetricName] from [null] or for a value that has no conversion to a
    string. *)
Definition parser_error (E : engine) (e : exn) : Prop :=
  (exists message, e = Error message)
  \/ e = TypeError (null_read_message E (js "MetricName"))
  \/ e = TypeError (not_primitive_message E).

(** A record with its required fields, a name that is a text and not
    empty and at least one data field, and no optional field but an array
    [Dimensions]: no [Unit] and no [Timestamp]. *)
Definition only_Dimensions (data : json) (name : jsstring) (ds : list json) : Prop :=
  field data (js "MetricName") = Some (JString name)
  /\ name <> []
  /\ lacks_data data = false
  /\ field data (js "Unit") = undefined
  /\ field data (js "Timestamp") = undefined
  /\ field data (js "Dimensions") = Some (JArray ds).

(** The [Date] of a textual timestamp. *)
Definition date_of_text (v : value) : option Date :=
  match v with
  | Some (JString t) => Some (DateOfText t)
  | _ => None
  end.

(** The output record has the content of the input record, field for
    field, the timestamp as the [Date] of its text: [timestamp] says which
    input timestamps count. *)
Definition same_content (timestamp : value -> value) (data : json) (m : MetricDatum)
  : Prop :=
  MetricName m = field data (js "MetricName")
  /\ Value m = field data (js "Value")
  /\ Unit m = field data (js "Unit")
  /\ Timestamp m = date_of_text (timestamp (field data (js "Timestamp")))
  /\ Dimensions m = as_array (field data (js "Dimensions"))
  /\ Values m = field data (js "Values")
  /\ Counts m = field data (js "Counts")
  /\ StatisticValues m = field data (js "StatisticValues").

(** Every field of the input, whatever it holds. *)
Definition carries_every_field : json -> MetricDatum -> Prop :=
  same_content (fun v => v).

(** Every field of the input, the timestamp unless its text is empty. *)
Definition carries_fields : json -> MetricDatum -> Prop :=
  same_content when_truthy.

(** ** Running the program *)

(** An engine to run the program with on concrete inputs.  Its wording is a
    stand-in: integer literals are printed digit for digit, the other texts
    are fixed. *)
Definition stand_in : engine :=
  {| Number_toString := fun n =>
       if Z.eqb (exp10 n) 0
       then (if negative n && negb (N.eqb (mantissa n) 0) then js "-" else [])
            ++ nat_to_js (N.to_nat (mantissa n))
       else js "(number)";
     SyntaxError_message := fun _ => js "Unexpected token in JSON";
     null_read_message := fun k =>
       js "Cannot read properties of null (reading '" ++ k ++ js "')";
     not_primitive_message := js "Cannot convert object to primitive value" |}.

(** A backend that accepts every command. *)
Definition accepting : CloudWatchClient := fun _ => Returns tt.

(** A backend that rejects every command with [new Error(message)]. *)
Definition rejecting (message : jsstring) : CloudWatchClient :=
  fun _ => Throws (Error message).

(** A backend that rejects every command with an object that has no
    primitive value, such as [Object.create(null)]. *)
Definition rejecting_without_text : CloudWatchClient :=
  fun _ => rejected (value_without_text (TypeError (not_primitive_message stand_in))).

(** The commands a trace hands to [client.send], in order. *)
Fixpoint sent_commands (trace : list event) : list PutMetricDataCommand :=
  match trace with
  | [] => []
  | sent command :: rest => command :: sent_commands rest
  | _ :: rest => sent_commands rest
  end.

(** What [putMetrics] has logged and sent once the command is out. *)
Definition opening_trace (namespace : jsstring) (metricData : list MetricDatum)
  : list event :=
  [info_line (js "Parsing metric data...");
   info_line (js "Publishing " ++ nat_to_js (length metricData)
                ++ js " metric(s) to namespace " ++ dquote ++ namespace ++ dquote);
   sent {| Namespace := namespace; MetricData := metricData |}].

Definition published_line : event :=
  info_line (10003%N :: js " Metrics published successfully").

Definition failure_line (message : jsstring) : event :=
  error_line (js "Failed to put metrics: " ++ message).

Definition success_result (count : nat) : MetricResult :=
  {| success := true; metricsCount := Some count; error := None |}.

Definition failure_result (message : jsstring) : MetricResult :=
  {| success := false; metricsCount := None; error := Some message |}.

(** The returned message is the backend's message behind a prefix. *)
Definition prefixed_for_context (backend returned : jsstring) : Prop :=
  exists prefix, prefix <> [] /\ returned = prefix ++ backend.

(** The record parsed from
    [{"MetricName":"X","Value":1,"Dimensions":[null]}]. *)
Definition metric_with_null_dimension : MetricDatum :=
  {| MetricName := Some (JString (js "X"));
     Value := Some (JNumber {| negative := false; mantissa := 1; exp10 := 0 |});
     Unit := undefined; Timestamp := None; Dimensions := Some [JNull];
     Values := undefined; Counts := undefined; StatisticValues := undefined |}.

(** The dimension [{Name: "d", Value: "v"}]. *)
Definition dimension_d : json :=
  JObject [(js "Name", JString (js "d")); (js "Value", JString (js "v"))].

(** The text of a one-record batch named [X] with [n] dimensions
    [dimension_d], and a [Value] of 1 when [with_value]. *)
Definition batch_with_dimensions (with_value : bool) (n : nat) : jsstring :=
  json_text "[{'MetricName':'X',"
  ++ (if with_value then json_text "'Value':1," else [])
  ++ json_text "'Dimensions':["
  ++ join (js ",") (repeat (json_text "{'Name':'d','Value':'v'}") n)
  ++ json_text "]}]".

(** ** More vocabulary: records of any shape *)

(** The eight members of a record the loop body reads. *)
Definition metric_fields : list jsstring :=
  map js ["MetricName"; "Value"; "Unit"; "Timestamp"; "Dimensions";
          "Values"; "Counts"; "StatisticValues"]%string.

(** Two objects with the same eight members, whatever else they hold. *)
Definition same_metric_fields (data data' : json) : Prop :=
  exists members members',
    data = JObject members /\ data' = JObject members'
    /\ forall k, In k metric_fields ->
                 own_property k members = own_property k members'.

(** The record passes every check of the loop body. *)
Definition accepted (E : engine) (data : json) : Prop :=
  reaches_data_check E data /\ lacks_data data = false.

(** The record has no timestamp to convert, or one that makes a [Date]. *)
Definition timestamp_usable (E : engine) (data : json) : Prop :=
  match when_truthy (field data (js "Timestamp")) with
  | Some t => exists d, new_Date E t = Returns d
  | None => True
  end.

(** The timestamp [parse_one] gives a record. *)
Definition timestamp_of (E : engine) (v : value) : option Date :=
  match when_truthy v with
  | Some t => match new_Date E t with
              | Returns d => Some d
              | Throws _ => None
              end
  | None => None
  end.

(** What each field of the output record holds: the name and [Value] as
    the input has them, [Unit], [Values], [Counts] and [StatisticValues]
    when the input holds a truthy one, [Dimensions] when the input holds an
    array, the timestamp as a [Date]. *)
Definition copied_from (E : engine) (data : json) (m : MetricDatum) : Prop :=
  m = {| MetricName := field data (js "MetricName");
         Value := field data (js "Value");
         Unit := when_truthy (field data (js "Unit"));
         Timestamp := timestamp_of E (field data (js "Timestamp"));
         Dimensions := as_array (field data (js "Dimensions"));
         Values := when_truthy (field data (js "Values"));
         Counts := when_truthy (field data (js "Counts"));
         StatisticValues := when_truthy (field data (js "StatisticValues")) |}.

(** The message of the check for a name. *)
Definition missing_name_message (i : nat) : jsstring :=
  js "Metric at index " ++ nat_to_js i ++ js " is missing required field 'MetricName'".

(** ** More vocabulary: traces *)

(** The lines a trace writes through [core.error]. *)
Fixpoint error_lines (trace : list event) : list jsstring :=
  match trace with
  | [] => []
  | error_line message :: rest => message :: error_lines rest
  | _ :: rest => error_lines rest
  end.

(** The outputs a run of the step sets, its failures, and the commands it
    sends. *)
Fixpoint outputs (trace : list action) : list (jsstring * jsstring) :=
  match trace with
  | [] => []
  | output_set name v :: rest => (name, v) :: outputs rest
  | _ :: rest => outputs rest
  end.

Fixpoint failures (trace : list action) : list jsstring :=
  match trace with
  | [] => []
  | failed_set message :: rest => message :: failures rest
  | _ :: rest => failures rest
  end.

Fixpoint steps (trace : list action) : list event :=
  match trace with
  | [] => []
  | step e :: rest => e :: steps rest
  | _ :: rest => steps rest
  end.

(** A host whose two inputs are set and whose client is [client]. *)
Definition host_with (namespace metricData : jsstring) (client : CloudWatchClient)
  : host :=
  {| getInput := fun name =>
       if jsstring_eqb name (js "namespace") then Returns namespace
       else if jsstring_eqb name (js "metric-data") then Returns metricData
       else Throws (Error (js "Input required and not supplied: " ++ name));
     new_CloudWatchClient := Returns client |}.

End Spec.

Import Spec.

(* ================================================================== *)
(** * JSON.parse                                                       *)
(* ================================================================== *)

(** The parser is given enough fuel: every function consumes at least one
    code unit of what it parses, and a text of [n] code units never needs
    more than [2 * n + 2] nested calls. *)

Lemma skip_space_length (s : jsstring) : length (skip_space s) <= length s.
Proof.
  induction s as [|c s IH]; cbn [skip_space]; [lia|].
  destruct (is_json_space c); cbn [length]; lia.
Qed.

Lemma read_digits_length (s : jsstring) :
  forall acc count m count' r,
    read_digits acc count s = (m, count', r) -> length r <= length s.
Proof.
  induction s as [|c s IH]; intros acc count m count' r; cbn [read_digits].
  - intros [= <- <- <-]. lia.
  - destruct (is_digit c).
    + intro H. apply IH in H. cbn [length]. lia.
    + intros [= <- <- <-]. lia.
Qed.

Lemma parse_string_tail_length (n : nat) :
  forall s str r,
    length s <= n -> parse_string_tail s = Some (str, r) -> length r < length s.
Proof.
  induction n as [|n IH]; intros s str r Hn.
  - destruct s; [discriminate | cbn in Hn; lia].
  - destruct s as [|c s]; [discriminate|]. cbn [parse_string_tail length] in *.
    destruct (N.eqb c 34); [intros [= <- <-]; lia|].
    destruct (N.eqb c 92).
    + destruct s as [|x r1]; [discriminate|].
      destruct (N.eqb x 117).
      * destruct r1 as [|a [|b [|c' [|d r2]]]]; try discriminate.
        destruct (hex4 a b c' d); [|discriminate].
        destruct (parse_string_tail r2) as [[str' rest]|] eqn:Htail; [|discriminate].
        intros [= <- <-]. apply IH in Htail; cbn [length] in *; lia.
      * destruct (escape x); [|discriminate].
        destruct (parse_string_tail r1) as [[str' rest]|] eqn:Htail; [|discriminate].
        intros [= <- <-]. apply IH in Htail; cbn [length] in *; lia.
    + destruct (N.ltb c 32); [discriminate|].
      destruct (parse_string_tail s) as [[str' rest]|] eqn:Htail; [|discriminate].
      intros [= <- <-]. apply IH in Htail; lia.
Qed.

Lemma strip_prefix_length (p : jsstring) :
  forall s r, strip_prefix p s = Some r -> length s = length p + length r.
Proof.
  induction p as [|x p IH]; intros s r; cbn [strip_prefix].
  - intros [= <-]. reflexivity.
  - destruct s as [|y s]; [discriminate|].
    destruct (N.eqb x y); [|discriminate].
    intro H. apply IH in H. cbn [length]. lia.
Qed.

Lemma parse_fraction_length (m : N) (s : jsstring) m' k r :
  parse_fraction m s = Some (m', k, r) -> length r <= length s.
Proof.
  unfold parse_fraction. destruct s as [|c s]; [intros [= <- <- <-]; lia|].
  destruct (N.eqb c 46).
  - destruct (read_digits m 0 s) as [[m1 k1] r1] eqn:Hd.
    apply read_digits_length in Hd.
    destruct k1; [discriminate|]. intros [= <- <- <-]. cbn [length]. lia.
  - intros [= <- <- <-]. lia.
Qed.

Lemma parse_exponent_length (s : jsstring) e r :
  parse_exponent s = Some (e, r) -> length r <= length s.
Proof.
  unfold parse_exponent. destruct s as [|c s]; [intros [= <- <-]; lia|].
  destruct (N.eqb c 101 || N.eqb c 69); [|intros [= <- <-]; lia].
  assert (Hsign : forall minus r1,
             match s with
             | d :: r' => if N.eqb d 45 then (true, r')
                          else if N.eqb d 43 then (false, r') else (false, s)
             | [] => (false, s)
             end = (minus, r1) -> length r1 <= length s).
  { intros minus r1. destruct s as [|d r']; [intros [= <- <-]; lia|].
    destruct (N.eqb d 45); [intros [= <- <-]; cbn [length]; lia|].
    destruct (N.eqb d 43); intros [= <- <-]; cbn [length]; lia. }
  destruct (match s with [] => _ | _ => _ end) as [minus r1].
  specialize (Hsign minus r1 eq_refl).
  destruct (read_digits 0 0 r1) as [[e1 k1] r2] eqn:Hd.
  apply read_digits_length in Hd.
  destruct k1; [discriminate|]. intros [= <- <-]. cbn [length]. lia.
Qed.

Lemma parse_number_length (s : jsstring) n r :
  parse_number s = Some (n, r) -> length r < length s.
Proof.
  unfold parse_number.
  set (signed := match s with
                 | c :: r0 => if N.eqb c 45 then (true, r0) else (false, s)
                 | [] => (false, s)
                 end).
  assert (Hsign : length (snd signed) <= length s).
  { subst signed. destruct s as [|c r0]; [cbn; lia|].
    destruct (N.eqb c 45); cbn [snd length]; lia. }
  destruct signed as [neg s1]. cbn [snd] in Hsign.
  destruct s1 as [|c r1]; [discriminate|].
  assert (Hint : forall m s2,
             (if N.eqb c 48 then Some (0%N, r1)
              else if is_digit c
                   then let '(m, _, r') := read_digits 0 0 (c :: r1) in Some (m, r')
                   else None) = Some (m, s2) -> length s2 <= length r1).
  { intros m s2. destruct (N.eqb c 48); [intros [= <- <-]; lia|].
    destruct (is_digit c) eqn:Hc; [|discriminate].
    cbn [read_digits]. rewrite Hc.
    destruct (read_digits _ 1 r1) as [[m1 k1] r'] eqn:Hd.
    apply read_digits_length in Hd. intros [= <- <-]. exact Hd. }
  destruct (if N.eqb c 48 then _ else _) as [[m s2]|]; [|discriminate].
  specialize (Hint m s2 eq_refl).
  destruct (parse_fraction m s2) as [[[m' k] s3]|] eqn:Hf; [|discriminate].
  apply parse_fraction_length in Hf.
  destruct (parse_exponent s3) as [[e s4]|] eqn:He; [|discriminate].
  apply parse_exponent_length in He.
  intros [= <- <-]. cbn [length] in *. lia.
Qed.

Lemma parse_string_tail_consumes (s : jsstring) str r :
  parse_string_tail s = Some (str, r) -> length r < length s.
Proof. apply (@parse_string_tail_length (length s)). lia. Qed.

Ltac parse_step IH :=
  match goal with
  | |- context [match skip_space ?s with _ => _ end] =>
      let H := fresh "Hskip" in
      pose proof (skip_space_length s) as H;
      destruct (skip_space s); cbn [length] in H
  | |- context [match parse_string_tail ?s with _ => _ end] =>
      let H := fresh "Hstr" in
      destruct (parse_string_tail s) as [[? ?]|] eqn:H;
      [apply parse_string_tail_consumes in H|]
  | |- context [match parse_number ?s with _ => _ end] =>
      let H := fresh "Hnum" in
      destruct (parse_number s) as [[? ?]|] eqn:H;
      [apply parse_number_length in H; cbn [length] in H|]
  | |- context [match strip_prefix ?p ?s with _ => _ end] =>
      let H := fresh "Hlit" in
      destruct (strip_prefix p s) eqn:H;
      [apply strip_prefix_length in H; cbn in H|]
  | |- context [match parse_value ?f ?s with _ => _ end] =>
      let H := fresh "Hval" in
      destruct (parse_value f s) eqn:H; [apply IH in H| |]
  | |- context [match parse_elements ?f ?s with _ => _ end] =>
      let H := fresh "Hels" in
      destruct (parse_elements f s) eqn:H; [apply IH in H| |]
  | |- context [match parse_members ?f ?s with _ => _ end] =>
      let H := fresh "Hmem" in
      destruct (parse_members f s) eqn:H; [apply IH in H| |]
  | |- context [if ?c then _ else _] => destruct c
  end.

Lemma parse_consumes (fuel : nat) :
  (forall s v r, parse_value fuel s = Parsed v r -> length r < length s)
  /\ (forall s vs r, parse_elements fuel s = Parsed vs r -> length r < length s)
  /\ (forall s ms r, parse_members fuel s = Parsed ms r -> length r < length s).
Proof.
  induction fuel as [|fuel (IHv & IHe & IHm)].
  - repeat split; intros; discriminate.
  - split; [|split].
    + intros s v r. cbn [parse_value].
      repeat (parse_step IHe || parse_step IHm);
        try discriminate; intros [= <- <-]; cbn [length] in *; lia.
    + intros s vs r. cbn [parse_elements].
      repeat (parse_step IHv || parse_step IHe);
        try discriminate; intros [= <- <-]; cbn [length] in *; lia.
    + intros s ms r. cbn [parse_members].
      repeat (parse_step IHv || parse_step IHm);
        try discriminate; intros [= <- <-]; cbn [length] in *; lia.
Qed.

Ltac fuel_step IHc IH :=
  match goal with
  | |- context [match skip_space ?s with _ => _ end] =>
      let H := fresh "Hskip" in
      pose proof (skip_space_length s) as H;
      destruct (skip_space s); cbn [length] in H
  | |- context [match parse_string_tail ?s with _ => _ end] =>
      let H := fresh "Hstr" in
      destruct (parse_string_tail s) as [[? ?]|] eqn:H;
      [apply parse_string_tail_consumes in H|]
  | |- context [match parse_number ?s with _ => _ end] =>
      destruct (parse_number s) as [[? ?]|]
  | |- context [match strip_prefix ?p ?s with _ => _ end] =>
      destruct (strip_prefix p s)
  | |- context [match parse_value ?f ?s with _ => _ end] =>
      let H := fresh "Hval" in
      destruct (parse_value f s) eqn:H;
      [apply IHc in H | | exfalso; revert H; apply IH; cbn [length] in *; lia]
  | |- context [match parse_elements ?f ?s with _ => _ end] =>
      let H := fresh "Hels" in
      destruct (parse_elements f s) eqn:H;
      [ | | exfalso; revert H; apply IH; cbn [length] in *; lia]
  | |- context [match parse_members ?f ?s with _ => _ end] =>
      let H := fresh "Hmem" in
      destruct (parse_members f s) eqn:H;
      [ | | exfalso; revert H; apply IH; cbn [length] in *; lia]
  | |- context [if ?c then _ else _] => destruct c
  end.

Lemma parse_fuel (fuel : nat) :
  (forall s, 2 * length s + 2 <= fuel -> parse_value fuel s <> OutOfFuel)
  /\ (forall s, 2 * length s + 3 <= fuel -> parse_elements fuel s <> OutOfFuel)
  /\ (forall s, 2 * length s + 3 <= fuel -> parse_members fuel s <> OutOfFuel).
Proof.
  induction fuel as [|fuel (IHv & IHe & IHm)].
  - repeat split; intros; lia.
  - destruct (parse_consumes fuel) as (Hcv & _ & _).
    split; [|split]; intros s Hfuel.
    + cbn [parse_value].
      repeat (fuel_step Hcv IHe || fuel_step Hcv IHm); discriminate.
    + cbn [parse_elements].
      repeat (fuel_step Hcv IHv || fuel_step Hcv IHe); discriminate.
    + cbn [parse_members].
      repeat (fuel_step Hcv IHv || fuel_step Hcv IHm); discriminate.
Qed.

(** [json_of_text] never fails for want of fuel. *)
Lemma json_of_text_fuel (s : jsstring) :
  parse_value (2 * length s + 2) s <> OutOfFuel.
Proof. apply parse_fuel. lia. Qed.

(* ================================================================== *)
(** * validateNamespace                                                *)
(* ================================================================== *)

Lemma trim_start_nil_iff (s : jsstring) :
  trim_start s = [] <-> whitespace_only s.
Proof.
  unfold whitespace_only. induction s as [|c s IH]; simpl.
  - split; [constructor | reflexivity].
  - destruct (is_trim_space c) eqn:Hc.
    + rewrite IH. split.
      * intro H. constructor; assumption.
      * intro H. inversion H; assumption.
    + split; [discriminate|].
      intro H. inversion H; subst. congruence.
Qed.

Lemma trim_start_head (s : jsstring) :
  match trim_start s with
  | [] => True
  | c :: _ => is_trim_space c = false
  end.
Proof.
  induction s as [|c s IH]; simpl; [exact I|].
  destruct (is_trim_space c) eqn:Hc; [exact IH | exact Hc].
Qed.

Lemma trim_nil_iff (s : jsstring) :
  trim s = [] <-> whitespace_only s.
Proof.
  unfold trim. split.
  - intro H.
    apply (f_equal (@rev _)) in H. rewrite rev_involutive in H. simpl in H.
    apply trim_start_nil_iff in H. unfold whitespace_only in H.
    apply Forall_rev in H. rewrite rev_involutive in H.
    apply trim_start_nil_iff.
    pose proof (trim_start_head s) as Hh.
    destruct (trim_start s) as [|c r]; [reflexivity|].
    inversion H; subst. congruence.
  - intro H. apply trim_start_nil_iff in H. rewrite H. reflexivity.
Qed.

Lemma validPattern_test_iff (s : jsstring) :
  validPattern_test s = true <-> s <> [] /\ in_namespace_charset s.
Proof.
  unfold validPattern_test, test_all_in_class, in_namespace_charset.
  destruct s as [|c s].
  - split; [discriminate | intros [H _]; congruence].
  - rewrite forallb_forall, Forall_forall. split.
    + intro H. split; [discriminate | exact H].
    + intros [_ H]. exact H.
Qed.

(** When [validateNamespace] returns. *)
Lemma validateNamespace_returns_iff (namespace : jsstring) :
  validateNamespace namespace = Returns tt
  <-> (namespace <> [] /\ ~ whitespace_only namespace)
      /\ length namespace <= 255
      /\ in_namespace_charset namespace.
Proof.
  unfold validateNamespace.
  destruct (negb (truthy_string namespace) || Nat.eqb (length (trim namespace)) 0) eqn:Hempty.
  - split; [discriminate|].
    intros [[Hne Hws] _]. exfalso.
    apply orb_true_iff in Hempty as [H|H].
    + destruct namespace; [congruence | discriminate].
    + apply Nat.eqb_eq, length_zero_iff_nil, trim_nil_iff in H. contradiction.
  - apply orb_false_iff in Hempty as [Hne Hws].
    assert (Hws' : ~ whitespace_only namespace).
    { intro H. apply trim_nil_iff in H. rewrite H in Hws. discriminate. }
    assert (Hne' : namespace <> []).
    { intro H. subst. discriminate. }
    destruct (Nat.ltb 255 (length namespace)) eqn:Hlen.
    + split; [discriminate|].
      intros (_ & Hle & _). apply Nat.ltb_lt in Hlen. lia.
    + apply Nat.ltb_ge in Hlen.
      destruct (validPattern_test namespace) eqn:Hpat; simpl.
      * apply validPattern_test_iff in Hpat as [_ Hcs].
        split; [intros _; repeat split; assumption | reflexivity].
      * split; [discriminate|].
        intros (_ & _ & Hcs). exfalso.
        assert (validPattern_test namespace = true)
          by (apply validPattern_test_iff; split; assumption).
        congruence.
Qed.

(** A string of the character set with at least one code unit is not
    white space: the set has no white-space code unit. *)
Lemma charset_not_whitespace (s : jsstring) :
  s <> [] -> in_namespace_charset s -> ~ whitespace_only s.
Proof.
  intros Hne Hcs Hws. destruct s as [|c s]; [congruence|].
  inversion Hcs as [|? ? Hc _]; inversion Hws as [|? ? Hw _]; subst.
  unfold namespace_char, is_trim_space, between in *.
  repeat match goal with
         | H : _ || _ = true |- _ => apply orb_true_iff in H as [H|H]
         | H : _ && _ = true |- _ => apply andb_true_iff in H as [? ?]
         | H : N.leb _ _ = true |- _ => apply N.leb_le in H
         | H : N.eqb _ _ = true |- _ => apply N.eqb_eq in H
         end; lia.
Qed.

Lemma validateNamespace_throws (namespace : jsstring) :
  validateNamespace namespace <> Returns tt ->
  returns (validateNamespace namespace) = false.
Proof.
  destruct (validateNamespace namespace) as [[]|e]; [congruence | reflexivity].
Qed.

(** C2. [validateNamespace] succeeds exactly on the namespaces that are
    non-empty, not made of white space only, at most 255 code units long and
    written with the characters [A-Za-z0-9_.-/] only.  In particular a
    namespace of the character set succeeds at length 255, every namespace of
    length 256 fails, ["My/App_1.0"] succeeds, and a namespace with a space
    or a [#] in it fails. *)
Theorem validateNamespace_spec :
  (forall namespace,
      validateNamespace namespace = Returns tt
      <-> (namespace <> [] /\ ~ whitespace_only namespace)
          /\ length namespace <= 255
          /\ in_namespace_charset namespace)
  /\ (forall namespace,
         in_namespace_charset namespace -> length namespace = 255 ->
         validateNamespace namespace = Returns tt)
  /\ (forall namespace,
         length namespace = 256 ->
         returns (validateNamespace namespace) = false)
  /\ validateNamespace (js "My/App_1.0") = Returns tt
  /\ (forall namespace,
         In 32%N namespace \/ In 35%N namespace ->
         returns (validateNamespace namespace) = false).
Proof.
  split; [exact validateNamespace_returns_iff|].
  split.
  { intros ns Hcs Hlen. apply validateNamespace_returns_iff.
    assert (Hne : ns <> []) by (intro; subst; discriminate).
    repeat split; try assumption; [|lia].
    apply charset_not_whitespace; assumption. }
  split.
  { intros ns Hlen. apply validateNamespace_throws.
    rewrite validateNamespace_returns_iff. intros (_ & Hle & _). lia. }
  split; [reflexivity|].
  intros ns Hin. apply validateNamespace_throws.
  rewrite validateNamespace_returns_iff. intros (_ & _ & Hcs).
  unfold in_namespace_charset in Hcs. rewrite Forall_forall in Hcs.
  destruct Hin as [Hin|Hin]; apply Hcs in Hin; discriminate.
Qed.

(** The two length bounds of C2 on concrete namespaces, and its two bad
    characters. *)
Lemma validateNamespace_spec_witness :
  validateNamespace (repeat 97%N 255) = Returns tt
  /\ returns (validateNamespace (repeat 97%N 256)) = false
  /\ returns (validateNamespace (js "My App")) = false
  /\ returns (validateNamespace (js "My#App")) = false.
Proof.
  destruct validateNamespace_spec as (_ & H255 & H256 & _ & Hbad).
  split; [|split; [|split]].
  - apply H255; [|reflexivity].
    apply Forall_forall. intros c Hc. apply repeat_spec in Hc. subst. reflexivity.
  - apply H256. reflexivity.
  - apply Hbad. left. simpl. tauto.
  - apply Hbad. right. simpl. tauto.
Defined.

(* ================================================================== *)
(** * parseMetricData                                                  *)
(* ================================================================== *)

(** ** The loop body *)

Lemma Get_field (E : engine) (data : json) (k : jsstring) :
  data <> JNull -> Get E data k = Returns (field data k).
Proof. destruct data; intros H; try reflexivity. congruence. Qed.

Lemma bind_Throws_neq {A B} (x : outcome A) (f : A -> exn) (b : B) :
  bind x (fun a => @Throws B (f a)) <> Returns b.
Proof. destruct x; discriminate. Qed.

Lemma not_Returns_Throws {A} (x : outcome A) :
  (forall a, x <> Returns a) -> exists e, x = Throws e.
Proof.
  destruct x as [a|e]; intro H; [destruct (H a eq_refl) | exists e; reflexivity].
Qed.

(** A guarded assignment is an assignment of a guarded value. *)
Lemma if_set_Value (c : bool) m v :
  (if c then set_Value m v else m) = set_Value m (if c then v else Value m).
Proof. destruct c, m; reflexivity. Qed.

Lemma if_set_Unit (c : bool) m v :
  (if c then set_Unit m v else m) = set_Unit m (if c then v else Unit m).
Proof. destruct c, m; reflexivity. Qed.

Lemma if_set_Values (c : bool) m v :
  (if c then set_Values m v else m) = set_Values m (if c then v else Values m).
Proof. destruct c, m; reflexivity. Qed.

Lemma if_set_Counts (c : bool) m v :
  (if c then set_Counts m v else m) = set_Counts m (if c then v else Counts m).
Proof. destruct c, m; reflexivity. Qed.

Lemma if_set_StatisticValues (c : bool) m v :
  (if c then set_StatisticValues m v else m)
  = set_StatisticValues m (if c then v else StatisticValues m).
Proof. destruct c, m; reflexivity. Qed.

Lemma is_defined_id (v : value) : (if is_defined v then v else undefined) = v.
Proof. destruct v; reflexivity. Qed.

Lemma truthy_is_defined (v : value) : truthy v = true -> is_defined v = true.
Proof. destruct v; [reflexivity | discriminate]. Qed.

Lemma truthy_if (v : value) : truthy (if truthy v then v else undefined) = truthy v.
Proof. destruct (truthy v) eqn:H; [exact H | reflexivity]. Qed.

Lemma is_defined_if (v : value) :
  is_defined (if truthy v then v else undefined) = truthy v.
Proof.
  destruct (truthy v) eqn:H; [apply truthy_is_defined; exact H | reflexivity].
Qed.

Ltac run_projections :=
  cbn [set_Value set_Unit set_Timestamp set_Dimensions set_Values set_Counts
       set_StatisticValues MetricName Value Unit Timestamp Dimensions Values
       Counts StatisticValues].

Ltac run_setters :=
  rewrite ?if_set_Value, ?if_set_Unit, ?if_set_Values, ?if_set_Counts,
    ?if_set_StatisticValues;
  run_projections.

Ltac split_flags :=
  repeat match goal with
         | |- context [is_defined ?v] => destruct (is_defined v)
         | |- context [truthy ?v] => destruct (truthy v)
         | Hf : context [is_defined ?v] |- _ => destruct (is_defined v)
         | Hf : context [truthy ?v] |- _ => destruct (truthy v)
         end.

(** The last step of [parse_one], once the record [m] is assembled: the
    check for a data field, against what [built_from] says of the record. *)
Ltac check_data_field m :=
  run_setters; rewrite ?is_defined_id, ?truthy_if;
  let Hnone := fresh "Hnone" in
  let Hret := fresh "Hret" in
  let Hdata := fresh "Hdata" in
  let Hdate' := fresh "Hdate'" in
  match goal with
  | |- (if ?c then _ else _) = _ <-> _ => destruct c eqn:Hnone
  end;
  [ split;
    [ intro Hret; apply bind_Throws_neq in Hret; contradiction
    | intros (_ & _ & -> & _ & _ & _ & _ & -> & _ & -> & Hdata);
      rewrite !is_defined_if in Hdata; clear - Hnone Hdata;
      split_flags; discriminate ]
  | split;
    [ intro Hret; injection Hret as <-; run_projections; rewrite !is_defined_if;
      repeat split; try assumption; try discriminate;
      try (eexists; split; reflexivity);
      try (intros ? [= <-]; assumption);
      clear - Hnone; split_flags; try reflexivity; discriminate
    | intros (? & _ & ? & ? & Hdate' & ? & _ & ? & ? & ? & _);
      try (destruct Hdate' as (? & [= <-] & Hdate'));
      destruct m; cbn in *; subst; reflexivity ] ].

(** [parse_one] returns exactly the records [built_from] describes; the
    index plays no part. *)
Lemma parse_one_iff (E : engine) (i : nat) (data : json) (m : MetricDatum) :
  parse_one E i data = Returns m <-> built_from E data m.
Proof.
  unfold built_from, has_data.
  destruct (match data with JNull => true | _ => false end) eqn:Hnull.
  { destruct data; try discriminate. split; [discriminate|].
    intros (H1 & H2 & _). rewrite H1 in H2. discriminate. }
  assert (Hd : data <> JNull) by (intro; subst; discriminate).
  unfold parse_one. rewrite !(Get_field E) by exact Hd.
  generalize (field data (js "MetricName")) as name.
  generalize (field data (js "Value")) as dValue.
  generalize (field data (js "Unit")) as dUnit.
  generalize (field data (js "Timestamp")) as dTimestamp.
  generalize (field data (js "Dimensions")) as dDimensions.
  generalize (field data (js "Values")) as dValues.
  generalize (field data (js "Counts")) as dCounts.
  generalize (field data (js "StatisticValues")) as dStat.
  intros until name. cbn [bind]. unfold when_truthy.
  destruct (truthy name) eqn:Hn; cbn [negb].
  2:{ split; [discriminate|]. intros (H1 & H2 & _). congruence. }
  assert (Hmany : forall (ds : list json) (k : MetricDatum -> outcome MetricDatum),
             Nat.ltb 30 (length ds) = true ->
             bind (bind (ToString E name)
                     (fun nameText => Throws
                        (Error (js "Metric " ++ dquote ++ nameText ++ dquote
                                  ++ js " has too many dimensions (max 30, got "
                                  ++ nat_to_js (length ds) ++ js ")")))) k
             <> Returns m).
  { intros ds k _. destruct (ToString E name); discriminate. }
  destruct (truthy dTimestamp) eqn:Hts.
  - destruct dTimestamp as [t|]; [cbn [truthy] in Hts; rewrite Hts | discriminate].
    destruct (new_Date E t) as [d|e] eqn:Hdate; cbn [bind].
    2:{ split; [discriminate|]. intros (_ & _ & _ & _ & (d & Hx & _) & _). discriminate. }
    destruct (as_array dDimensions) as [ds|];
      [destruct (Nat.ltb 30 (length ds)) eqn:Hlen|]; cbn [bind].
    + split; [intro H; apply Hmany in H; [contradiction | exact Hlen]|].
      intros (_ & _ & _ & _ & _ & H6 & H7 & _). apply H7 in H6.
      apply Nat.ltb_lt in Hlen. lia.
    + apply Nat.ltb_ge in Hlen. check_data_field m.
    + check_data_field m.
  - assert (Hskip : match dTimestamp with
                    | Some t => truthy_json t = false
                    | None => True
                    end) by (destruct dTimestamp; [exact Hts | exact I]).
    destruct (as_array dDimensions) as [ds|];
      [destruct (Nat.ltb 30 (length ds)) eqn:Hlen|];
      (destruct dTimestamp as [t|]; [rewrite Hskip|]); cbn [bind].
    1,2: (split; [intro H; apply Hmany in H; [contradiction | exact Hlen]|];
          intros (_ & _ & _ & _ & _ & H6 & H7 & _); apply H7 in H6;
          apply Nat.ltb_lt in Hlen; lia).
    1,2: apply Nat.ltb_ge in Hlen.
    all: check_data_field m.
Qed.

(** ** The loop *)

(** The loop returns exactly when every remaining element yields a record,
    and then it has pushed these records in order. *)
Lemma parse_loop_iff (E : engine) (rest : list json) :
  forall (i : nat) (metrics out : list MetricDatum),
    parse_loop E i rest metrics = Returns out
    <-> exists ms, out = metrics ++ ms /\ Forall2 (built_from E) rest ms.
Proof.
  induction rest as [|data rest IH]; intros i metrics out; cbn [parse_loop].
  - split.
    + intros [= <-]. exists []. split; [symmetry; apply app_nil_r | constructor].
    + intros (ms & -> & Hall). inversion Hall. rewrite app_nil_r. reflexivity.
  - split.
    + destruct (parse_one E i data) as [m|e] eqn:Hone; cbn [bind]; [|discriminate].
      intro Hloop. apply IH in Hloop as (ms & -> & Hall).
      exists (m :: ms). split.
      * rewrite <- app_assoc. reflexivity.
      * constructor; [apply (parse_one_iff E i); exact Hone | exact Hall].
    + intros (ms & -> & Hall). inversion Hall as [|? m ? ms' Hm Hrest]; subst.
      apply (parse_one_iff E i) in Hm. rewrite Hm. cbn [bind].
      apply IH. exists ms'. split; [rewrite <- app_assoc; reflexivity | exact Hrest].
Qed.

(** ** The whole function *)

(** [parseMetricData] returns exactly when the text is a JSON array of 1 to
    1000 elements each of which yields a record, and it returns these
    records in the order of the array. *)
Lemma parseMetricData_iff (E : engine) (text : jsstring) (out : list MetricDatum) :
  parseMetricData E text = Returns out
  <-> exists items,
        json_of_text text = Some (JArray items)
        /\ 1 <= length items <= 1000
        /\ Forall2 (built_from E) items out.
Proof.
  unfold parseMetricData, JSON_parse.
  destruct (json_of_text text) as [parsed|]; cbn [try_catch bind].
  2:{ split; [discriminate | intros (? & ? & _); discriminate]. }
  destruct parsed as [| | | |items|];
    try (split; [discriminate | intros (? & ? & _); discriminate]).
  destruct (Nat.eqb (length items) 0) eqn:Hzero.
  { apply Nat.eqb_eq in Hzero. split; [discriminate|].
    intros (? & [= <-] & Hlen & _). lia. }
  apply Nat.eqb_neq in Hzero.
  destruct (Nat.ltb 1000 (length items)) eqn:Hmax.
  { apply Nat.ltb_lt in Hmax. split; [discriminate|].
    intros (? & [= <-] & Hlen & _). lia. }
  apply Nat.ltb_ge in Hmax.
  rewrite parse_loop_iff. split.
  - intros (ms & -> & Hall). exists items. repeat split; try assumption; lia.
  - intros (? & [= <-] & _ & Hall). exists out. split; [reflexivity | exact Hall].
Qed.

(** ** Texts that are not a batch *)

(** X2. A text that is not JSON, a JSON value that is not an array, an
    empty array and an array of more than 1000 elements are refused, each
    with its own message, before any element is looked at. *)
Theorem parseMetricData_rejects (E : engine) (text : jsstring) :
  (json_of_text text = None ->
   parseMetricData E text
   = Throws (Error (js "Failed to parse metric-data JSON: "
                      ++ SyntaxError_message E text)))
  /\ (forall v, json_of_text text = Some v -> as_array (Some v) = None ->
       parseMetricData E text = Throws (Error (js "metric-data must be a JSON array")))
  /\ (json_of_text text = Some (JArray []) ->
      parseMetricData E text = Throws (Error (js "metric-data array cannot be empty")))
  /\ (forall items, json_of_text text = Some (JArray items) ->
       1000 < length items ->
       parseMetricData E text
       = Throws (Error (js "metric-data array exceeds maximum size of 1000 metrics (got "
                          ++ nat_to_js (length items) ++ js ")"))).
Proof.
  unfold parseMetricData, JSON_parse. repeat split.
  - intros ->. reflexivity.
  - intros v -> Hv. destruct v; try reflexivity. discriminate.
  - intros ->. reflexivity.
  - intros items -> Hlen. cbn [try_catch bind].
    destruct items as [|data items]; [cbn in Hlen; lia|].
    cbn [length Nat.eqb].
    apply Nat.ltb_lt in Hlen. cbn [length] in Hlen. rewrite Hlen. reflexivity.
Qed.

(** X2 on [{not valid], [{}], [[]] and an array of 1001 elements. *)
Lemma parseMetricData_rejects_witness :
  parseMetricData stand_in (js "{not valid")
  = Throws (Error (js "Failed to parse metric-data JSON: "
                     ++ SyntaxError_message stand_in (js "{not valid")))
  /\ parseMetricData stand_in (js "{}")
     = Throws (Error (js "metric-data must be a JSON array"))
  /\ parseMetricData stand_in (js "[]")
     = Throws (Error (js "metric-data array cannot be empty"))
  /\ parseMetricData stand_in (js "[" ++ join (js ",") (repeat (js "1") 1001) ++ js "]")
     = Throws (Error (js "metric-data array exceeds maximum size of 1000 metrics (got 1001)")).
Proof.
  split; [|split; [|split]].
  - apply (parseMetricData_rejects stand_in (js "{not valid")).
    vm_compute. reflexivity.
  - eapply (parseMetricData_rejects stand_in (js "{}")).
    + vm_compute. reflexivity.
    + reflexivity.
  - apply (parseMetricData_rejects stand_in (js "[]")).
    vm_compute. reflexivity.
  - pose proof (parseMetricData_rejects stand_in
                  (js "[" ++ join (js ",") (repeat (js "1") 1001) ++ js "]"))
      as (_ & _ & _ & Hmax).
    rewrite (Hmax (repeat (JNumber {| negative := false; mantissa := 1; exp10 := 0 |})
                          1001)).
    + rewrite repeat_length. reflexivity.
    + vm_compute. reflexivity.
    + rewrite repeat_length. lia.
Defined.

(** ** Records of the input interface *)

Lemma Forall_exists_Forall2 {A B} (R : A -> B -> Prop) (l : list A) :
  Forall (fun a => exists b, R a b) l -> exists bs, Forall2 R l bs.
Proof.
  induction 1 as [|a l [b Hb] _ [bs Hbs]].
  - exists []. constructor.
  - exists (b :: bs). constructor; assumption.
Qed.

Lemma Forall2_In_l {A B} (R : A -> B -> Prop) (l : list A) (bs : list B) (a : A) :
  Forall2 R l bs -> In a l -> exists b, In b bs /\ R a b.
Proof.
  induction 1 as [|x y l bs Hxy _ IH]; intros Hin; [destruct Hin|].
  destruct Hin as [->|Hin].
  - exists y. split; [left; reflexivity | exact Hxy].
  - destruct (IH Hin) as (b & Hb & Hab). exists b. split; [right|]; assumption.
Qed.

Lemma Forall2_Forall_r {A B} (R : A -> B -> Prop) (P : B -> Prop)
      (l : list A) (bs : list B) :
  (forall a b, R a b -> P b) -> Forall2 R l bs -> Forall P bs.
Proof.
  intros HRP. induction 1; constructor; eauto.
Qed.

Lemma Forall2_weaken {A B} (R S : A -> B -> Prop) (l : list A) (bs : list B) :
  (forall a b, R a b -> S a b) -> Forall2 R l bs -> Forall2 S l bs.
Proof.
  intros HRS. induction 1; constructor; auto.
Qed.

Lemma Forall2_and_l {A B} (P : A -> Prop) (R : A -> B -> Prop)
      (l : list A) (bs : list B) :
  Forall P l -> Forall2 R l bs -> Forall2 (fun a b => P a /\ R a b) l bs.
Proof.
  intros HP HR. induction HR; inversion HP; subst; constructor; auto.
Qed.

Lemma when_truthy_optional (p : value -> bool) (v : value) :
  (forall j, p (Some j) = true -> truthy_json j = true) ->
  optional p v = true -> when_truthy v = v.
Proof.
  intros Hp Hv. destruct v as [j|]; [|reflexivity].
  unfold when_truthy. cbn [truthy]. rewrite (Hp j Hv). reflexivity.
Qed.

Lemma StandardUnit_truthy (j : json) :
  is_StandardUnit (Some j) = true -> truthy_json j = true.
Proof.
  destruct j as [| | |u| |]; try discriminate.
  destruct u; [discriminate | reflexivity].
Qed.

Lemma array_truthy (p : json -> bool) (j : json) :
  is_array_of p (Some j) = true -> truthy_json j = true.
Proof. destruct j; try discriminate. reflexivity. Qed.

Lemma statistic_set_truthy (j : json) :
  is_statistic_set (Some j) = true -> truthy_json j = true.
Proof. destruct j; try discriminate. reflexivity. Qed.

(** A valid record of the interface yields a record with its content. *)
Lemma conforming_record_built (E : engine) (data : json) :
  conforms data = true -> valid_record data = true ->
  exists m, built_from E data m /\ carries_fields data m.
Proof.
  unfold conforms, valid_record. intros Hc Hv.
  repeat (apply andb_true_iff in Hc as [Hc ?]).
  apply andb_true_iff in Hv as [Hv Hdata]. apply andb_true_iff in Hv as [Hname Hdims].
  exists {| MetricName := field data (js "MetricName");
            Value := field data (js "Value");
            Unit := field data (js "Unit");
            Timestamp := date_of_text (when_truthy (field data (js "Timestamp")));
            Dimensions := as_array (field data (js "Dimensions"));
            Values := field data (js "Values");
            Counts := field data (js "Counts");
            StatisticValues := field data (js "StatisticValues") |}.
  split; [|repeat split].
  unfold built_from, has_data. cbn [MetricName Value Unit Timestamp Dimensions
                                    Values Counts StatisticValues].
  repeat split; try assumption.
  - symmetry. eapply when_truthy_optional; [exact StandardUnit_truthy | assumption].
  - destruct (field data (js "Timestamp")) as [[| | |t| |]|]; try discriminate;
      [|reflexivity].
    unfold when_truthy. cbn [truthy truthy_json].
    destruct (truthy_string t); [|reflexivity].
    exists (DateOfText t). split; reflexivity.
  - intros ds Hds. rewrite Hds in Hdims. apply Nat.leb_le. exact Hdims.
  - symmetry. eapply when_truthy_optional; [apply array_truthy | eassumption].
  - symmetry. eapply when_truthy_optional; [apply array_truthy | eassumption].
  - symmetry. eapply when_truthy_optional; [exact statistic_set_truthy | assumption].
Qed.

Lemma conforming_batch_built (E : engine) (items : list json) :
  Forall (fun data => conforms data = true /\ valid_record data = true) items ->
  exists out,
    Forall2 (fun data m => built_from E data m /\ carries_fields data m) items out.
Proof.
  intro Hall. apply Forall_exists_Forall2.
  eapply Forall_impl; [|exact Hall].
  intros data [Hc Hv]. apply conforming_record_built; assumption.
Qed.

(** A well-formed record's timestamp is carried as it is. *)
Lemma carries_every_field_given (data : json) (m : MetricDatum) :
  timestamp_given data = true -> carries_fields data m -> carries_every_field data m.
Proof.
  unfold timestamp_given, carries_fields, carries_every_field, same_content.
  intros Hts (HN & HV & HU & HT & Hrest).
  repeat split; try assumption; try apply Hrest.
  rewrite HT. unfold when_truthy.
  destruct (field data (js "Timestamp")) as [[| | |s| |]|]; cbn [truthy truthy_json] in *;
    try reflexivity.
  - match goal with |- context [if ?c then _ else _] => destruct c end; reflexivity.
  - match goal with |- context [if ?c then _ else _] => destruct c end; reflexivity.
  - rewrite Hts. reflexivity.
Qed.

(** C1.  For every well-formed batch of 1 to 1000 records (records that
    follow the input interface, a timestamp being a text that is not empty)
    that are valid (non-empty [MetricName], at most 30 dimensions, at least
    one of [Value], [Values], [StatisticValues]), [parseMetricData] returns
    as many records as the array has, in the same order, each with the
    content of its input record field for field: [MetricName], [Value],
    [Unit], [Dimensions], [Values], [Counts] and [StatisticValues] as they
    are, and the [Timestamp] as the [Date] of its text. *)
Theorem parseMetricData_preserves_batch (E : engine) (text : jsstring) (items : list json) :
  json_of_text text = Some (JArray items) ->
  1 <= length items <= 1000 ->
  Forall (fun data => well_formed data = true /\ valid_record data = true) items ->
  exists out,
    parseMetricData E text = Returns out
    /\ length out = length items
    /\ Forall2 carries_every_field items out.
Proof.
  intros Hparse Hlen Hall.
  assert (Hconf : Forall (fun data => conforms data = true /\ valid_record data = true)
                         items).
  { eapply Forall_impl; [|exact Hall]. intros data [Hw Hv].
    apply andb_true_iff in Hw as [Hc _]. split; assumption. }
  destruct (conforming_batch_built E Hconf) as [out Hout].
  exists out. split; [|split].
  - apply parseMetricData_iff. exists items. repeat split; try assumption; try lia.
    eapply Forall2_weaken; [|exact Hout]. intros ? ? [? _]. assumption.
  - symmetry. eapply Forall2_length. exact Hout.
  - eapply Forall2_weaken;
      [|apply (Forall2_and_l
                 (P := fun data => well_formed data = true /\ valid_record data = true)
                 Hall Hout)].
    intros data m [[Hw _] [_ Hm]]. apply andb_true_iff in Hw as [_ Hts].
    apply carries_every_field_given; assumption.
Qed.

(** C1 on a batch of three records that between them use every field. *)
Lemma parseMetricData_preserves_batch_witness :
  exists items out,
    json_of_text
      (json_text "[{'MetricName':'A','Value':1.5,'Unit':'Count','Timestamp':'2024-01-01T00:00:00Z','Dimensions':[{'Name':'Env','Value':'prod'}]},{'MetricName':'B','Values':[1,2],'Counts':[3,4]},{'MetricName':'C','StatisticValues':{'SampleCount':2,'Sum':3,'Minimum':1,'Maximum':2}}]")
    = Some (JArray items)
    /\ parseMetricData stand_in
         (json_text "[{'MetricName':'A','Value':1.5,'Unit':'Count','Timestamp':'2024-01-01T00:00:00Z','Dimensions':[{'Name':'Env','Value':'prod'}]},{'MetricName':'B','Values':[1,2],'Counts':[3,4]},{'MetricName':'C','StatisticValues':{'SampleCount':2,'Sum':3,'Minimum':1,'Maximum':2}}]")
       = Returns out
    /\ length out = 3
    /\ Forall2 carries_every_field items out.
Proof.
  eexists.
  assert (Hparse :
    json_of_text
      (json_text "[{'MetricName':'A','Value':1.5,'Unit':'Count','Timestamp':'2024-01-01T00:00:00Z','Dimensions':[{'Name':'Env','Value':'prod'}]},{'MetricName':'B','Values':[1,2],'Counts':[3,4]},{'MetricName':'C','StatisticValues':{'SampleCount':2,'Sum':3,'Minimum':1,'Maximum':2}}]")
    = Some (JArray _)) by (vm_compute; reflexivity).
  destruct (parseMetricData_preserves_batch stand_in _ Hparse) as (out & Hout & Hlen & Hall).
  - simpl. lia.
  - repeat constructor.
  - exists out. split; [exact Hparse|]. split; [exact Hout|]. split; assumption.
Defined.

(** Why the timestamp must not be empty: a record of the interface whose
    [Timestamp] is the empty string is valid and parses, and the record
    returned for it has no [Timestamp]. *)
Lemma empty_Timestamp_not_carried :
  exists data m,
    json_of_text (json_text "[{'MetricName':'X','Value':1,'Timestamp':''}]")
    = Some (JArray [data])
    /\ conforms data = true
    /\ valid_record data = true
    /\ timestamp_given data = false
    /\ parseMetricData stand_in
         (json_text "[{'MetricName':'X','Value':1,'Timestamp':''}]")
       = Returns [m]
    /\ field data (js "Timestamp") = Some (JString [])
    /\ Timestamp m = None.
Proof.
  do 2 eexists.
  split; [vm_compute; reflexivity|].
  split; [vm_compute; reflexivity|].
  split; [vm_compute; reflexivity|].
  split; [vm_compute; reflexivity|].
  split; [vm_compute; reflexivity|].
  split; [vm_compute; reflexivity|].
  reflexivity.
Qed.

(** ** Batches of one record *)

Lemma parseMetricData_single (E : engine) (text : jsstring) (data : json) :
  json_of_text text = Some (JArray [data]) ->
  parseMetricData E text = (m <- parse_one E 0 data ;; Returns [m]).
Proof.
  intro Hparse. unfold parseMetricData, JSON_parse. rewrite Hparse.
  cbn [try_catch bind length Nat.eqb Nat.ltb Nat.leb parse_loop].
  destruct (parse_one E 0 data); reflexivity.
Qed.

Lemma parseMetricData_member_throws (E : engine) (text : jsstring)
      (items : list json) (data : json) :
  json_of_text text = Some (JArray items) ->
  In data items ->
  (forall m, ~ built_from E data m) ->
  exists e, parseMetricData E text = Throws e.
Proof.
  intros Hparse Hin Hnone. apply not_Returns_Throws. intros out Hout.
  apply parseMetricData_iff in Hout as (items' & Hparse' & _ & Hall).
  rewrite Hparse in Hparse'. injection Hparse' as <-.
  destruct (Forall2_In_l data Hall Hin) as (m & _ & Hm).
  exact (Hnone m Hm).
Qed.

(** ** The data-field check *)

Lemma built_from_has_data (E : engine) (data : json) (m : MetricDatum) :
  built_from E data m -> has_data m = true /\ lacks_data data = false.
Proof.
  intros (_ & _ & HV & _ & _ & _ & _ & HVs & _ & HS & Hdata).
  split; [exact Hdata|].
  unfold has_data in Hdata. rewrite HV, HVs, HS in Hdata.
  unfold when_truthy in Hdata. rewrite !is_defined_if in Hdata.
  unfold lacks_data.
  destruct (is_defined (field data (js "Value"))),
           (truthy (field data (js "Values"))),
           (truthy (field data (js "StatisticValues"))); try reflexivity; discriminate.
Qed.

(** The loop stops at the first element that throws. *)
Lemma parse_loop_first_throw (E : engine) (before : list json) :
  forall (i : nat) (metrics ms : list MetricDatum) (data : json) (after : list json)
         (e : exn),
    Forall2 (built_from E) before ms ->
    parse_one E (i + length before) data = Throws e ->
    parse_loop E i (before ++ data :: after) metrics = Throws e.
Proof.
  induction before as [|b before IH]; intros i metrics ms data after e Hall Hthrow.
  - cbn [app parse_loop length] in *. rewrite Nat.add_0_r in Hthrow.
    rewrite Hthrow. reflexivity.
  - inversion Hall as [|? m ? ms' Hm Hrest]; subst.
    cbn [app parse_loop]. apply (parse_one_iff E i) in Hm. rewrite Hm. cbn [bind].
    apply (IH (S i) _ ms'); [exact Hrest|].
    cbn [length] in Hthrow. rewrite Nat.add_succ_r in Hthrow. exact Hthrow.
Qed.

Lemma parseMetricData_first_throw (E : engine) (text : jsstring)
      (before after : list json) (data : json) (ms : list MetricDatum) (e : exn) :
  json_of_text text = Some (JArray (before ++ data :: after)) ->
  length (before ++ data :: after) <= 1000 ->
  Forall2 (built_from E) before ms ->
  parse_one E (length before) data = Throws e ->
  parseMetricData E text = Throws e.
Proof.
  intros Hparse Hmax Hbefore Hthrow.
  unfold parseMetricData, JSON_parse. rewrite Hparse. cbn [try_catch bind].
  destruct (Nat.eqb (length (before ++ data :: after)) 0) eqn:Hzero.
  { apply Nat.eqb_eq in Hzero. rewrite length_app in Hzero. cbn in Hzero. lia. }
  apply Nat.ltb_ge in Hmax. rewrite Hmax.
  eapply parse_loop_first_throw; [exact Hbefore | exact Hthrow].
Qed.

(** ** What parseMetricData throws *)

(** A conversion to a string that throws throws the TypeError of a value
    with no primitive value. *)
Lemma ToString_json_throws (E : engine) (v : json) :
  forall e : exn,
    ToString_json E v = Throws e -> e = TypeError (not_primitive_message E).
Proof.
  pattern v. apply json_array_ind; clear v; [intros v|intros items Hitems].
  - destruct v as [|[]|n|s|items|members]; try exact I; intros e;
      cbn [ToString_json]; try discriminate.
    destruct (has_own_property (js "toString") members); [|discriminate].
    intros [= <-]. reflexivity.
  - induction Hitems as [|x l Hx _ IHl]; intros e; [discriminate|].
    assert (Hx' : forall e', match x with JNull => Returns [] | _ => ToString_json E x end
                             = Throws e' -> e' = TypeError (not_primitive_message E)).
    { intros e'. destruct x; try discriminate; apply Hx. }
    change ((sx <- match x with JNull => Returns [] | _ => ToString_json E x end ;;
             match l with
             | [] => Returns sx
             | _ :: _ => rest <- ToString_json E (JArray l) ;;
                         Returns (sx ++ js "," ++ rest)
             end) = Throws e -> e = TypeError (not_primitive_message E)).
    destruct (match x with JNull => Returns [] | _ => ToString_json E x end) as [sx|ex].
    + destruct l as [|y l']; [discriminate|].
      destruct (ToString_json E (JArray (y :: l'))) as [rest|er]; [discriminate|].
      intros [= <-]. apply IHl. reflexivity.
    + intros [= <-]. apply Hx'. reflexivity.
Qed.

Lemma ToString_throws (E : engine) (v : value) (e : exn) :
  ToString E v = Throws e -> e = TypeError (not_primitive_message E).
Proof. destruct v as [j|]; [apply ToString_json_throws | discriminate]. Qed.

Lemma new_Date_throws (E : engine) (v : json) (e : exn) :
  new_Date E v = Throws e -> e = TypeError (not_primitive_message E).
Proof.
  destruct v; cbn [new_Date]; try discriminate;
    match goal with
    | |- context [bind ?m _] => destruct m eqn:Hs
    end; cbn [bind]; try discriminate; intros [= <-];
    apply ToString_json_throws in Hs; exact Hs.
Qed.

(** Whatever [parseMetricData] throws is an [Error] of its own or one of
    two TypeErrors of the runtime. *)
Lemma parse_one_throws (E : engine) (i : nat) (data : json) (e : exn) :
  parse_one E i data = Throws e -> parser_error E e.
Proof.
  unfold parser_error. destruct data as [| | | | |members];
    try (intros [= <-]; right; left; reflexivity);
    try (cbn; intros [= <-]; left; eexists; reflexivity).
  unfold parse_one. rewrite !(Get_field E) by discriminate. cbn [bind].
  generalize (field (JObject members) (js "MetricName")) as name.
  generalize (field (JObject members) (js "Value")) as dValue.
  generalize (field (JObject members) (js "Unit")) as dUnit.
  generalize (field (JObject members) (js "Timestamp")) as dTimestamp.
  generalize (field (JObject members) (js "Dimensions")) as dDimensions.
  generalize (field (JObject members) (js "Values")) as dValues.
  generalize (field (JObject members) (js "Counts")) as dCounts.
  generalize (field (JObject members) (js "StatisticValues")) as dStat.
  intros.
  destruct (truthy name); cbn [negb] in *;
    [|injection H as <-; left; eexists; reflexivity].
  assert (Hname : forall (A : Type) (message : jsstring -> jsstring) (e' : exn),
             (nameText <- ToString E name ;; @Throws A (Error (message nameText)))
             = Throws e' ->
             (exists m, e' = Error m) \/ e' = TypeError (null_read_message E (js "MetricName"))
             \/ e' = TypeError (not_primitive_message E)).
  { intros A message e'. destruct (ToString E name) as [nameText|en] eqn:Hn; cbn [bind].
    - intros [= <-]. left. eexists. reflexivity.
    - intros [= <-]. right. right. eapply ToString_throws; exact Hn. }
  revert H.
  match goal with
  | |- context [bind ?m _] => destruct m as [metric|et] eqn:Hts
  end; cbn [bind].
  2:{ intros [= <-]. right. right.
      destruct dTimestamp as [t|]; [|discriminate].
      destruct (truthy_json t); [|discriminate].
      destruct (new_Date E t) as [d|ed] eqn:Hd; [discriminate|].
      injection Hts as <-. eapply new_Date_throws; exact Hd. }
  destruct (as_array dDimensions) as [ds|].
  - destruct (Nat.ltb 30 (length ds)).
    + cbn [bind].
      destruct (ToString E name) as [nameText|en] eqn:Hn; cbn [bind].
      * intros [= <-]. left. eexists. reflexivity.
      * intros [= <-]. right. right. eapply ToString_throws; exact Hn.
    + cbn [bind]. cbv zeta.
      match goal with
      | |- context [if ?c then _ else Returns _] => destruct c
      end; [|discriminate].
      apply (Hname MetricDatum (fun n => no_data_message n)).
  - cbn [bind]. cbv zeta.
    match goal with
    | |- context [if ?c then _ else Returns _] => destruct c
    end; [|discriminate].
    apply (Hname MetricDatum (fun n => no_data_message n)).
Qed.

Lemma parse_loop_throws (E : engine) (rest : list json) :
  forall (i : nat) (metrics : list MetricDatum) (e : exn),
    parse_loop E i rest metrics = Throws e -> parser_error E e.
Proof.
  induction rest as [|data rest IH]; intros i metrics e; cbn [parse_loop]; [discriminate|].
  destruct (parse_one E i data) as [metric|e1] eqn:Hone; cbn [bind].
  - apply IH.
  - intros [= <-]. eapply parse_one_throws. exact Hone.
Qed.

Lemma parseMetricData_throws (E : engine) (text : jsstring) (e : exn) :
  parseMetricData E text = Throws e -> parser_error E e.
Proof.
  unfold parseMetricData, JSON_parse.
  destruct (json_of_text text) as [[| | | |items|]|]; cbn [try_catch bind];
    try (intros [= <-]; left; eexists; reflexivity).
  destruct (Nat.eqb (length items) 0); [intros [= <-]; left; eexists; reflexivity|].
  destruct (Nat.ltb 1000 (length items)); [intros [= <-]; left; eexists; reflexivity|].
  apply parse_loop_throws.
Qed.

(** A name that is a text is quoted as it is. *)
Lemma check_error_text (E : engine) (data : json) (message : jsstring -> jsstring)
      (name : jsstring) :
  field data (js "MetricName") = Some (JString name) ->
  check_error E data message = Error (message name).
Proof. intro Hname. unfold check_error. rewrite Hname. reflexivity. Qed.

(** A record that reaches the check without a data field is refused by
    it. *)
Lemma parse_one_lacks_data (E : engine) (i : nat) (data : json) :
  reaches_data_check E data ->
  lacks_data data = true ->
  parse_one E i data = Throws (check_error E data no_data_message).
Proof.
  unfold check_error, reaches_data_check, lacks_data. intros (Hname & Hts & Hdims) Hlacks.
  assert (Hd : data <> JNull) by (intro; subst; discriminate).
  apply andb_true_iff in Hlacks as [Hlacks HS]. apply andb_true_iff in Hlacks as [HV HVs].
  apply negb_true_iff in HV, HVs, HS.
  unfold parse_one. rewrite !(Get_field E) by exact Hd.
  revert Hname Hts Hdims HV HVs HS.
  generalize (field data (js "MetricName")) as name.
  generalize (field data (js "Value")) as dValue.
  generalize (field data (js "Unit")) as dUnit.
  generalize (field data (js "Timestamp")) as dTimestamp.
  generalize (field data (js "Dimensions")) as dDimensions.
  generalize (field data (js "Values")) as dValues.
  generalize (field data (js "Counts")) as dCounts.
  generalize (field data (js "StatisticValues")) as dStat.
  intros until name. intros Hname Hts Hdims HV HVs HS.
  cbn [bind]. rewrite Hname. cbn [negb]. unfold when_truthy in Hts.
  assert (Hend : forall metric : MetricDatum,
             Value metric = undefined -> Values metric = undefined ->
             StatisticValues metric = undefined ->
             (let metric := if truthy dValues then set_Values metric dValues else metric in
              let metric := if truthy dCounts then set_Counts metric dCounts else metric in
              let metric := if truthy dStat then set_StatisticValues metric dStat
                            else metric in
              if negb (is_defined (Value metric)) && negb (truthy (Values metric))
                 && negb (truthy (StatisticValues metric))
              then nameText <- ToString E name ;;
                   Throws (Error (no_data_message nameText))
              else Returns metric)
             = Throws (match ToString E name with
                       | Returns nameText => Error (no_data_message nameText)
                       | Throws e => e
                       end)).
  { intros metric H1 H2 H3. cbv zeta. rewrite HVs, HS. run_setters.
    rewrite H1, H2, H3. cbn [is_defined truthy undefined negb andb].
    destruct (ToString E name); reflexivity. }
  cbv zeta in Hend. rewrite HV.
  destruct dTimestamp as [t|];
    [cbn [truthy] in Hts; destruct (truthy_json t); [destruct Hts as [d ->]|]|];
    cbn [bind];
    (destruct (as_array dDimensions) as [ds|];
     [specialize (Hdims ds eq_refl); apply Nat.ltb_ge in Hdims; rewrite Hdims|]);
    cbn [bind]; apply Hend; run_setters; reflexivity.
Qed.

(** A record with more than 30 dimensions is refused for them as soon as
    its name and timestamp have passed. *)
Lemma parse_one_too_many (E : engine) (i : nat) (data : json) (ds : list json) :
  truthy (field data (js "MetricName")) = true ->
  timestamp_usable E data ->
  as_array (field data (js "Dimensions")) = Some ds ->
  30 < length ds ->
  parse_one E i data
  = Throws (check_error E data
              (fun nameText => too_many_dimensions_message nameText (length ds))).
Proof.
  intros Hname Hts Hds Hlen.
  assert (Hd : data <> JNull) by (intro; subst; discriminate).
  unfold parse_one, check_error, too_many_dimensions_message.
  rewrite !(Get_field E) by exact Hd.
  cbn [bind]. rewrite Hname, Hds. cbn [negb].
  apply Nat.ltb_lt in Hlen. rewrite Hlen.
  unfold timestamp_usable, when_truthy in Hts.
  destruct (field data (js "Timestamp")) as [t|]; cbn [truthy] in *;
    [destruct (truthy_json t); [destruct Hts as [d ->]|]|];
    cbn [bind]; destruct (ToString E (field data (js "MetricName"))); reflexivity.
Qed.

(** C3, amended.  A batch with a record that, after field extraction, has
    none of [Value], [Values] and [StatisticValues] makes [parseMetricData]
    throw, an [Error] of its own or a TypeError of the runtime.  When the
    records before it parse and the record itself reaches the check, what is
    thrown comes from the check: its error, with its message, when the name
    of the metric converts to a string, as every name that is a text does;
    and the TypeError of the conversion when the name is an object that has
    none, for the message is built before the error is.  And every record of
    a result that [parseMetricData] returns carries at least one of the
    three. *)
Theorem parseMetricData_requires_data :
  (forall (E : engine) (text : jsstring) (items : list json) (data : json),
      json_of_text text = Some (JArray items) ->
      In data items ->
      lacks_data data = true ->
      exists e, parseMetricData E text = Throws e /\ parser_error E e)
  /\ (forall (E : engine) (text : jsstring) (before after : list json) (data : json)
             (ms : list MetricDatum),
         json_of_text text = Some (JArray (before ++ data :: after)) ->
         length (before ++ data :: after) <= 1000 ->
         Forall2 (built_from E) before ms ->
         reaches_data_check E data ->
         lacks_data data = true ->
         parseMetricData E text = Throws (check_error E data no_data_message)
         /\ (forall name,
                field data (js "MetricName") = Some (JString name) ->
                parseMetricData E text = Throws (Error (no_data_message name)))
         /\ (forall e,
                ToString E (field data (js "MetricName")) = Throws e ->
                parseMetricData E text = Throws (TypeError (not_primitive_message E))))
  /\ (forall (E : engine) (text : jsstring) (out : list MetricDatum),
         parseMetricData E text = Returns out ->
         Forall (fun m => has_data m = true) out).
Proof.
  split; [|split].
  - intros E text items data Hparse Hin Hlacks.
    destruct (@parseMetricData_member_throws E text items data Hparse Hin) as [e He].
    { intros m Hm. apply built_from_has_data in Hm as [_ Hm]. congruence. }
    exists e. split; [exact He|]. eapply parseMetricData_throws. exact He.
  - intros E text before after data ms Hparse Hmax Hbefore Hreach Hlacks.
    assert (Hthrows : parseMetricData E text = Throws (check_error E data no_data_message)).
    { eapply parseMetricData_first_throw; try eassumption.
      apply parse_one_lacks_data; assumption. }
    split; [exact Hthrows|]. split.
    + intros name Hname. rewrite Hthrows.
      rewrite (check_error_text E data no_data_message Hname). reflexivity.
    + intros e He. rewrite Hthrows. unfold check_error. rewrite He.
      f_equal. eapply ToString_throws. exact He.
  - intros E text out Hout.
    apply parseMetricData_iff in Hout as (items & _ & _ & Hall).
    eapply Forall2_Forall_r; [|exact Hall].
    intros data m Hm. apply (built_from_has_data Hm).
Qed.

(** C3 on three batches: a record with a name and a unit only makes the
    batch throw; in second place after a good record it is refused with the
    message of the check; a record with a [Value] is returned and carries
    it. *)
Lemma parseMetricData_requires_data_witness :
  (exists e,
      parseMetricData stand_in
        (json_text "[{'MetricName':'B','Unit':'Count'},{'MetricName':7}]")
      = Throws e /\ parser_error stand_in e)
  /\ parseMetricData stand_in
       (json_text "[{'MetricName':'A','Value':1},{'MetricName':'B','Unit':'Count'}]")
     = Throws (Error (no_data_message (js "B")))
  /\ (exists out,
         parseMetricData stand_in (json_text "[{'MetricName':'A','Value':1}]")
         = Returns out
         /\ Forall (fun m => has_data m = true) out).
Proof.
  destruct parseMetricData_requires_data as (Hthrows & Hcheck & Hcarries).
  split; [|split].
  - eapply (Hthrows stand_in).
    + vm_compute. reflexivity.
    + left. reflexivity.
    + vm_compute. reflexivity.
  - eapply (Hcheck stand_in _
              [JObject [(js "MetricName", JString (js "A"));
                        (js "Value", JNumber {| negative := false; mantissa := 1;
                                                exp10 := 0 |})]]
              []
              (JObject [(js "MetricName", JString (js "B"));
                        (js "Unit", JString (js "Count"))])).
    + vm_compute. reflexivity.
    + simpl. lia.
    + constructor; [|constructor].
      apply (parse_one_iff stand_in 0). vm_compute. reflexivity.
    + split; [reflexivity|]. split; [exact I|]. intros ds. discriminate.
    + reflexivity.
    + reflexivity.
  - eexists. split; [vm_compute; reflexivity|].
    apply (Hcarries stand_in (json_text "[{'MetricName':'A','Value':1}]")).
    vm_compute. reflexivity.
Defined.

(** C3 as stated fails on a record whose name is an object with a
    [toString] member: it has none of the three fields and reaches the
    check, and what is thrown is the TypeError of the runtime, not an error
    of the validation. *)
Lemma name_without_text_not_validated :
  exists data,
    json_of_text (json_text "[{'MetricName':{'toString':1}}]") = Some (JArray [data])
    /\ lacks_data data = true
    /\ reaches_data_check stand_in data
    /\ parseMetricData stand_in (json_text "[{'MetricName':{'toString':1}}]")
       = Throws (TypeError (js "Cannot convert object to primitive value"))
    /\ ~ exists message,
           parseMetricData stand_in (json_text "[{'MetricName':{'toString':1}}]")
           = Throws (Error message).
Proof.
  eexists.
  split; [vm_compute; reflexivity|].
  split; [reflexivity|].
  split; [split; [reflexivity|]; split; [exact I|]; intros ds; discriminate|].
  split; [vm_compute; reflexivity|].
  intros [message H]. vm_compute in H. discriminate.
Qed.

(** ** The dimension limit *)

(** C7.  A record with its required fields, a name and at least one of
    [Value], [Values] and [StatisticValues], whose only optional field is an
    array [Dimensions] is refused when the array has more than 30 entries,
    31 for one, with the error that names the metric and gives their
    number, and is returned, with its dimensions, when it has 30 or
    fewer. *)
Theorem parseMetricData_dimension_limit (E : engine) (text name : jsstring)
      (data : json) (ds : list json) :
  json_of_text text = Some (JArray [data]) ->
  only_Dimensions data name ds ->
  (30 < length ds ->
   parseMetricData E text
   = Throws (Error (too_many_dimensions_message name (length ds))))
  /\ (length ds <= 30 ->
      parseMetricData E text
      = Returns [{| MetricName := Some (JString name);
                    Value := field data (js "Value");
                    Unit := undefined;
                    Timestamp := None;
                    Dimensions := Some ds;
                    Values := when_truthy (field data (js "Values"));
                    Counts := when_truthy (field data (js "Counts"));
                    StatisticValues := when_truthy (field data (js "StatisticValues")) |}]).
Proof.
  intros Hparse (Hname & Hne & Hdata & Hunit & Hts & Hdims).
  assert (Htruthy : truthy (field data (js "MetricName")) = true).
  { rewrite Hname. destruct name; [congruence | reflexivity]. }
  split; intro Hlen.
  - rewrite <- (check_error_text E data
                  (fun nameText => too_many_dimensions_message nameText (length ds)) Hname).
    apply (@parseMetricData_first_throw E text [] [] data []); try assumption.
    + simpl. lia.
    + constructor.
    + apply parse_one_too_many; try assumption.
      * unfold timestamp_usable. rewrite Hts. exact I.
      * rewrite Hdims. reflexivity.
  - rewrite (parseMetricData_single E text Hparse).
    match goal with
    | |- _ = Returns [?m] => assert (Hone : parse_one E 0 data = Returns m)
    end.
    { apply parse_one_iff. unfold built_from.
      cbn [MetricName Value Unit Timestamp Dimensions Values Counts StatisticValues].
      rewrite Hname, Hunit, Hts, Hdims.
      repeat split; try reflexivity.
      - destruct name; [congruence | reflexivity].
      - intros ds' [= <-]. exact Hlen.
      - unfold has_data, lacks_data, when_truthy in *.
        cbn [MetricName Value Unit Timestamp Dimensions Values Counts StatisticValues].
        rewrite !is_defined_if.
        destruct (is_defined (field data (js "Value"))),
                 (truthy (field data (js "Values"))),
                 (truthy (field data (js "StatisticValues"))); try reflexivity; discriminate. }
    rewrite Hone. reflexivity.
Qed.

(** C7 at the two lengths: 31 dimensions are refused, 30 are accepted. *)
Lemma parseMetricData_dimension_limit_witness :
  parseMetricData stand_in (batch_with_dimensions true 31)
  = Throws (Error (js "Metric " ++ dquote ++ js "X" ++ dquote
                     ++ js " has too many dimensions (max 30, got 31)"))
  /\ returns (parseMetricData stand_in (batch_with_dimensions true 30)) = true.
Proof.
  split.
  - destruct (@parseMetricData_dimension_limit stand_in (batch_with_dimensions true 31)
                (js "X")
                (JObject [(js "MetricName", JString (js "X"));
                          (js "Value", JNumber {| negative := false; mantissa := 1;
                                                  exp10 := 0 |});
                          (js "Dimensions", JArray (repeat dimension_d 31))])
                (repeat dimension_d 31)) as [Hmany _].
    + vm_compute. reflexivity.
    + repeat split; try reflexivity. discriminate.
    + rewrite Hmany; [|rewrite repeat_length; lia].
      rewrite repeat_length. reflexivity.
  - destruct (@parseMetricData_dimension_limit stand_in (batch_with_dimensions true 30)
                (js "X")
                (JObject [(js "MetricName", JString (js "X"));
                          (js "Value", JNumber {| negative := false; mantissa := 1;
                                                  exp10 := 0 |});
                          (js "Dimensions", JArray (repeat dimension_d 30))])
                (repeat dimension_d 30)) as [_ Hfew].
    + vm_compute. reflexivity.
    + repeat split; try reflexivity. discriminate.
    + rewrite Hfew; [reflexivity | rewrite repeat_length; lia].
Defined.

(** The data field is required: without one a record with 30 dimensions
    passes the check on their number and is refused by the next. *)
Lemma only_30_Dimensions_refused :
  json_of_text (batch_with_dimensions false 30)
  = Some (JArray [JObject [(js "MetricName", JString (js "X"));
                           (js "Dimensions", JArray (repeat dimension_d 30))]])
  /\ parseMetricData stand_in (batch_with_dimensions false 30)
     = Throws (Error (no_data_message (js "X"))).
Proof. split; vm_compute; reflexivity. Qed.

(** ** Counts *)

Ltac run_single_record E text Hparse name :=
  rewrite (parseMetricData_single E text Hparse);
  destruct name; [congruence|];
  unfold parse_one; cbn; reflexivity.

(** C8, amended.  [Counts] is copied whenever the input holds a truthy
    [Counts], with or without [Values]: every record of a returned result
    has the [Counts] of its input record.  A record with [Counts] and a
    [Value] but no [Values] is returned with its [Counts]; and a record with
    [Values] and [Counts] is returned with both whatever the two arrays
    hold, so their lengths are not compared. *)
Theorem parseMetricData_copies_Counts :
  (forall (E : engine) (text : jsstring) (items : list json) (out : list MetricDatum),
      json_of_text text = Some (JArray items) ->
      parseMetricData E text = Returns out ->
      Forall2 (fun data m => Counts m = when_truthy (field data (js "Counts")))
              items out)
  /\ (forall (E : engine) (text name : jsstring) (v : json) (cs : list json),
         name <> [] ->
         json_of_text text
         = Some (JArray [JObject [(js "MetricName", JString name);
                                  (js "Value", v);
                                  (js "Counts", JArray cs)]]) ->
         parseMetricData E text
         = Returns [{| MetricName := Some (JString name); Value := Some v;
                       Unit := undefined; Timestamp := None; Dimensions := None;
                       Values := undefined; Counts := Some (JArray cs);
                       StatisticValues := undefined |}])
  /\ (forall (E : engine) (text name : jsstring) (vs cs : list json),
         name <> [] ->
         json_of_text text
         = Some (JArray [JObject [(js "MetricName", JString name);
                                  (js "Values", JArray vs);
                                  (js "Counts", JArray cs)]]) ->
         parseMetricData E text
         = Returns [{| MetricName := Some (JString name); Value := undefined;
                       Unit := undefined; Timestamp := None; Dimensions := None;
                       Values := Some (JArray vs); Counts := Some (JArray cs);
                       StatisticValues := undefined |}]).
Proof.
  split; [|split].
  - intros E text items out Hparse Hout.
    apply parseMetricData_iff in Hout as (items' & Hparse' & _ & Hall).
    rewrite Hparse in Hparse'. injection Hparse' as <-.
    eapply Forall2_weaken; [|exact Hall].
    intros data m (_ & _ & _ & _ & _ & _ & _ & _ & HC & _). exact HC.
  - intros E text name v cs Hname Hparse. run_single_record E text Hparse name.
  - intros E text name vs cs Hname Hparse. run_single_record E text Hparse name.
Qed.

(** C8 on a record with three values and two counts. *)
Lemma parseMetricData_copies_Counts_witness :
  exists m,
    parseMetricData stand_in (json_text "[{'MetricName':'X','Values':[1,2,3],'Counts':[4,5]}]")
    = Returns [m]
    /\ Values m = json_of_text (json_text "[1,2,3]")
    /\ Counts m = json_of_text (json_text "[4,5]").
Proof.
  destruct parseMetricData_copies_Counts as (_ & _ & Hboth).
  eexists. split.
  - apply (Hboth stand_in); [|vm_compute; reflexivity]. discriminate.
  - split; vm_compute; reflexivity.
Defined.

(** C8 as stated fails: on a record with [Counts] and without [Values] the
    output record has the [Counts] array. *)
Lemma Counts_without_Values_kept :
  exists data m,
    json_of_text (json_text "[{'MetricName':'X','Value':1,'Counts':[1,2]}]")
    = Some (JArray [data])
    /\ field data (js "Values") = undefined
    /\ field data (js "Counts") = json_of_text (json_text "[1,2]")
    /\ parseMetricData stand_in (json_text "[{'MetricName':'X','Value':1,'Counts':[1,2]}]")
       = Returns [m]
    /\ Counts m = json_of_text (json_text "[1,2]")
    /\ Counts m <> undefined.
Proof.
  do 2 eexists.
  split; [vm_compute; reflexivity|].
  split; [vm_compute; reflexivity|].
  split; [vm_compute; reflexivity|].
  split; [vm_compute; reflexivity|].
  split; [vm_compute; reflexivity | discriminate].
Qed.

(** ** Degenerate data fields *)

(** C10. The check for a data field takes a degenerate field for a field:
    a record with a non-empty name and an empty [Values] array is returned,
    and so is a record whose [Value] is a zero, or any JSON value at all,
    [null] included; only a record where [Value] is [undefined] (and the
    other two fields are missing) is refused. *)
Theorem parseMetricData_degenerate_data :
  (forall (E : engine) (text name : jsstring),
      name <> [] ->
      json_of_text text
      = Some (JArray [JObject [(js "MetricName", JString name);
                               (js "Values", JArray [])]]) ->
      parseMetricData E text
      = Returns [{| MetricName := Some (JString name); Value := undefined;
                    Unit := undefined; Timestamp := None; Dimensions := None;
                    Values := Some (JArray []); Counts := undefined;
                    StatisticValues := undefined |}])
  /\ (forall (E : engine) (text name : jsstring) (zero : number),
         name <> [] ->
         number_is_zero zero = true ->
         json_of_text text
         = Some (JArray [JObject [(js "MetricName", JString name);
                                  (js "Value", JNumber zero)]]) ->
         parseMetricData E text
         = Returns [{| MetricName := Some (JString name);
                       Value := Some (JNumber zero);
                       Unit := undefined; Timestamp := None; Dimensions := None;
                       Values := undefined; Counts := undefined;
                       StatisticValues := undefined |}])
  /\ (forall (E : engine) (text name : jsstring) (v : json),
         name <> [] ->
         json_of_text text
         = Some (JArray [JObject [(js "MetricName", JString name);
                                  (js "Value", v)]]) ->
         parseMetricData E text
         = Returns [{| MetricName := Some (JString name); Value := Some v;
                       Unit := undefined; Timestamp := None; Dimensions := None;
                       Values := undefined; Counts := undefined;
                       StatisticValues := undefined |}])
  /\ (forall (E : engine) (text name : jsstring),
         name <> [] ->
         json_of_text text
         = Some (JArray [JObject [(js "MetricName", JString name)]]) ->
         parseMetricData E text
         = Throws (Error (no_data_message name))).
Proof.
  split; [|split; [|split]].
  - intros E text name Hname Hparse. run_single_record E text Hparse name.
  - intros E text name zero Hname _ Hparse. run_single_record E text Hparse name.
  - intros E text name v Hname Hparse. run_single_record E text Hparse name.
  - intros E text name Hname Hparse. run_single_record E text Hparse name.
Qed.

(** C10 on the two records of the claim, and on a [Value] of [null]. *)
Lemma parseMetricData_degenerate_data_witness :
  returns (parseMetricData stand_in (json_text "[{'MetricName':'X','Values':[]}]")) = true
  /\ returns (parseMetricData stand_in (json_text "[{'MetricName':'X','Value':0}]")) = true
  /\ returns (parseMetricData stand_in (json_text "[{'MetricName':'X','Value':null}]")) = true
  /\ returns (parseMetricData stand_in (json_text "[{'MetricName':'X'}]")) = false.
Proof.
  destruct parseMetricData_degenerate_data as (Hempty & Hzero & Hany & Hnone).
  split; [|split; [|split]].
  - rewrite (Hempty stand_in _ (js "X")); [reflexivity | discriminate |].
    vm_compute. reflexivity.
  - rewrite (Hzero stand_in _ (js "X") {| negative := false; mantissa := 0; exp10 := 0 |});
      [reflexivity | discriminate | reflexivity |].
    vm_compute. reflexivity.
  - rewrite (Hany stand_in _ (js "X") JNull); [reflexivity | discriminate |].
    vm_compute. reflexivity.
  - rewrite (Hnone stand_in _ (js "X")); [reflexivity | discriminate |].
    vm_compute. reflexivity.
Defined.

(* ================================================================== *)
(** * putMetrics                                                       *)
(* ================================================================== *)

(** ** The two blocks *)

(** The [try] block, by the step that ends it. *)
Lemma putMetrics_try_eq (E : engine) (client : CloudWatchClient)
      (namespace text : jsstring) :
  putMetrics_try E client namespace text =
  match validateNamespace namespace with
  | Throws e => ([], rejected (exception e))
  | Returns _ =>
      match parseMetricData E text with
      | Throws e => ([info_line (js "Parsing metric data...")], rejected (exception e))
      | Returns metricData =>
          match client {| Namespace := namespace; MetricData := metricData |} with
          | rejected error => (opening_trace namespace metricData, rejected error)
          | fulfilled _ =>
              match log_metrics E metricData with
              | (lines, Returns _) =>
                  (opening_trace namespace metricData ++ published_line :: lines,
                   fulfilled (success_result (length metricData)))
              | (lines, Throws e) =>
                  (opening_trace namespace metricData ++ published_line :: lines,
                   rejected (exception e))
              end
          end
      end
  end.
Proof.
  unfold putMetrics_try, sync, lift, core_info, client_send, io_ret, opening_trace.
  destruct (validateNamespace namespace) as [[]|e];
    cbn [async_bind app fst snd settled]; [|reflexivity].
  destruct (parseMetricData E text) as [metricData|e];
    cbn [async_bind app fst snd settled]; [|reflexivity].
  destruct (client _) as [[]|error]; cbn [async_bind app fst snd settled]; [|reflexivity].
  destruct (log_metrics E metricData) as [lines [[]|e]];
    cbn [async_bind app fst snd settled].
  - rewrite app_nil_r. reflexivity.
  - reflexivity.
Qed.

(** The [catch] block, on an exception and on a value without a text. *)
Lemma putMetrics_catch_eq (E : engine) (client : CloudWatchClient)
      (namespace text : jsstring) (trace : list event) (e : exn) :
  putMetrics_try E client namespace text = (trace, rejected (exception e)) ->
  putMetrics E client namespace text
  = (trace ++ [failure_line (error_text e)], Returns (failure_result (error_text e))).
Proof.
  intro Htry. unfold putMetrics, io_try_catch. rewrite Htry. reflexivity.
Qed.

Lemma putMetrics_throw_eq (E : engine) (client : CloudWatchClient)
      (namespace text : jsstring) (trace : list event) (thrown : exn) :
  putMetrics_try E client namespace text = (trace, rejected (value_without_text thrown)) ->
  putMetrics E client namespace text = (trace, Throws thrown).
Proof.
  intro Htry. unfold putMetrics, io_try_catch. rewrite Htry.
  cbn. rewrite app_nil_r. reflexivity.
Qed.

Lemma putMetrics_pass_eq (E : engine) (client : CloudWatchClient)
      (namespace text : jsstring) (trace : list event) (r : MetricResult) :
  putMetrics_try E client namespace text = (trace, fulfilled r) ->
  putMetrics E client namespace text = (trace, Returns r).
Proof.
  intro Htry. unfold putMetrics, io_try_catch. rewrite Htry. reflexivity.
Qed.

(** ** What is sent *)

Lemma sent_commands_app (t t' : list event) :
  sent_commands (t ++ t') = sent_commands t ++ sent_commands t'.
Proof.
  induction t as [|[m|m|c] t IH]; cbn [app sent_commands]; rewrite ?IH; reflexivity.
Qed.

Lemma log_metrics_sends_nothing (E : engine) (metricData : list MetricDatum) :
  sent_commands (fst (log_metrics E metricData)) = [].
Proof.
  induction metricData as [|metric rest IH]; cbn [log_metrics]; [reflexivity|].
  unfold lift, core_info.
  destruct (metric_line E metric) as [line|e]; cbn [io_bind]; [|reflexivity].
  destruct (log_metrics E rest) as [lines r]. cbn [fst app sent_commands] in *.
  exact IH.
Qed.

(** Once namespace and batch are accepted, exactly one command goes to the
    backend, whatever happens next: the namespace with all parsed records. *)
Lemma putMetrics_sends_once (E : engine) (client : CloudWatchClient)
      (namespace text : jsstring) (metricData : list MetricDatum) :
  validateNamespace namespace = Returns tt ->
  parseMetricData E text = Returns metricData ->
  sent_commands (fst (putMetrics E client namespace text))
  = [{| Namespace := namespace; MetricData := metricData |}].
Proof.
  intros Hns Hparse.
  pose proof (putMetrics_try_eq E client namespace text) as Htry.
  rewrite Hns, Hparse in Htry.
  pose proof (log_metrics_sends_nothing E metricData) as Hlog.
  destruct (client _) as [[]|e].
  - destruct (log_metrics E metricData) as [lines [[]|e]]; cbn [fst] in Hlog.
    + rewrite (putMetrics_pass_eq _ _ _ _ Htry). cbn [fst].
      rewrite sent_commands_app. cbn [sent_commands opening_trace published_line app].
      rewrite Hlog. reflexivity.
    + rewrite (putMetrics_catch_eq _ _ _ _ Htry). cbn [fst].
      rewrite !sent_commands_app.
      cbn [sent_commands opening_trace published_line failure_line app].
      rewrite Hlog. reflexivity.
  - destruct e as [e|thrown].
    + rewrite (putMetrics_catch_eq _ _ _ _ Htry). cbn [fst].
      rewrite sent_commands_app. reflexivity.
    + rewrite (putMetrics_throw_eq _ _ _ _ Htry). reflexivity.
Qed.

(** When the backend accepts the command and every line of the log can be
    written, the result is a success that counts the records of the input
    array. *)
Lemma putMetrics_accepted (E : engine) (client : CloudWatchClient)
      (namespace text : jsstring) (items : list json) (metricData : list MetricDatum)
      (lines : list event) :
  validateNamespace namespace = Returns tt ->
  json_of_text text = Some (JArray items) ->
  parseMetricData E text = Returns metricData ->
  client {| Namespace := namespace; MetricData := metricData |} = Returns tt ->
  log_metrics E metricData = (lines, Returns tt) ->
  putMetrics E client namespace text
  = (opening_trace namespace metricData ++ published_line :: lines,
     Returns (success_result (length items))).
Proof.
  intros Hns Hitems Hparse Hsend Hlog.
  pose proof (putMetrics_try_eq E client namespace text) as Htry.
  rewrite Hns, Hparse, Hsend, Hlog in Htry.
  rewrite (putMetrics_pass_eq _ _ _ _ Htry).
  apply parseMetricData_iff in Hparse as (items' & Hitems' & _ & Hall).
  rewrite Hitems in Hitems'. injection Hitems' as <-.
  rewrite (Forall2_length Hall). reflexivity.
Qed.

(** ** Logging the records of the interface *)

Lemma ToString_string (E : engine) (v : value) :
  is_string v = true -> exists s, ToString E v = Returns s.
Proof.
  destruct v as [[| | |s| |]|]; try discriminate. intros _. exists s. reflexivity.
Qed.

Lemma dimension_text_returns (E : engine) (d : json) :
  is_dimension d = true -> exists s, dimension_text E d = Returns s.
Proof.
  unfold is_dimension, dimension_text. intro H.
  apply andb_true_iff in H as [Hn Hv].
  assert (Hd : d <> JNull) by (intro; subst; discriminate).
  rewrite !(Get_field E) by exact Hd. cbn [bind].
  destruct (ToString_string E _ Hn) as [n ->].
  destruct (ToString_string E _ Hv) as [v ->].
  cbn [bind]. eexists. reflexivity.
Qed.

Lemma map_outcome_returns {A B} (f : A -> outcome B) (l : list A) :
  Forall (fun x => exists y, f x = Returns y) l ->
  exists ys, map_outcome f l = Returns ys.
Proof.
  induction 1 as [|x l [y Hy] _ [ys Hys]]; cbn [map_outcome].
  - eexists. reflexivity.
  - rewrite Hy, Hys. eexists. reflexivity.
Qed.

Lemma metric_line_conforming (E : engine) (data : json) (m : MetricDatum) :
  conforms data = true -> built_from E data m ->
  exists line, metric_line E m = Returns line.
Proof.
  unfold conforms. intros Hc (HN & _ & HV & HU & _ & HD & _).
  repeat (apply andb_true_iff in Hc as [Hc ?]).
  unfold metric_line. rewrite HN, HV, HU, HD.
  assert (Hdims : exists dims,
             match as_array (field data (js "Dimensions")) with
             | Some ds => parts <- map_outcome (dimension_text E) ds ;;
                          Returns (js " [" ++ join (js ", ") parts ++ js "]")
             | None => Returns []
             end = Returns dims).
  { destruct (field data (js "Dimensions")) as [[| | | |ds|]|]; try discriminate;
      cbn [as_array]; try (eexists; reflexivity).
    destruct (@map_outcome_returns _ _ (dimension_text E) ds) as [parts ->].
    - apply Forall_forall. intros d Hd. apply dimension_text_returns.
      match goal with
      | Hds : optional _ _ = true |- _ =>
          cbn [optional is_array_of] in Hds; rewrite forallb_forall in Hds;
          exact (Hds d Hd)
      end.
    - eexists. reflexivity. }
  destruct Hdims as [dims ->]. cbn [bind].
  assert (Hunit : exists unit,
             (if truthy (when_truthy (field data (js "Unit")))
              then unitText <- ToString E (when_truthy (field data (js "Unit"))) ;;
                   Returns (js " " ++ unitText)
              else Returns []) = Returns unit).
  { unfold when_truthy.
    destruct (field data (js "Unit")) as [[| | |u| |]|]; try discriminate;
      try (eexists; reflexivity).
    destruct u; cbn; eexists; reflexivity. }
  destruct Hunit as [unit ->]. cbn [bind].
  destruct (field data (js "MetricName")) as [[| | |name| |]|]; try discriminate.
  cbn [ToString ToString_json bind].
  destruct (field data (js "Value")) as [[| |n| | |]|]; try discriminate;
    cbn; eexists; reflexivity.
Qed.

Lemma log_metrics_returns (E : engine) (metricData : list MetricDatum) :
  Forall (fun m => exists line, metric_line E m = Returns line) metricData ->
  exists lines, log_metrics E metricData = (lines, Returns tt).
Proof.
  induction 1 as [|m ms [line Hline] _ [lines Hlines]]; cbn [log_metrics].
  - eexists. reflexivity.
  - rewrite Hline, Hlines. eexists. reflexivity.
Qed.

Lemma log_metrics_conforming (E : engine) (items : list json)
      (metricData : list MetricDatum) :
  Forall2 (fun data m => conforms data = true /\ built_from E data m) items metricData ->
  exists lines, log_metrics E metricData = (lines, Returns tt).
Proof.
  intro Hall. apply log_metrics_returns.
  eapply Forall2_Forall_r; [|exact Hall].
  intros data m [Hc Hm]. exact (metric_line_conforming Hc Hm).
Qed.

(** X1. On the batches of C1 the publisher does what C4 says: one command
    with the namespace and the records, and, if the backend accepts it, a
    success that counts the records of the input. *)
Theorem putMetrics_publishes_batch (E : engine) (client : CloudWatchClient)
      (namespace text : jsstring) (items : list json) :
  validateNamespace namespace = Returns tt ->
  json_of_text text = Some (JArray items) ->
  1 <= length items <= 1000 ->
  Forall (fun data => conforms data = true /\ valid_record data = true) items ->
  (forall command, client command = Returns tt) ->
  exists trace metricData,
    putMetrics E client namespace text
    = (trace, Returns (success_result (length items)))
    /\ sent_commands trace = [{| Namespace := namespace; MetricData := metricData |}]
    /\ Forall2 carries_fields items metricData.
Proof.
  intros Hns Hparse Hlen Hall Hclient.
  destruct (conforming_batch_built E Hall) as [metricData Hbuilt].
  assert (Hout : parseMetricData E text = Returns metricData).
  { apply parseMetricData_iff. exists items. repeat split; try assumption; try lia.
    eapply Forall2_weaken; [|exact Hbuilt]. intros ? ? [? _]. assumption. }
  destruct (@log_metrics_conforming E items metricData) as [lines Hlog].
  { eapply Forall2_weaken;
      [|apply (Forall2_and_l (P := fun data => conforms data = true /\ valid_record data = true)
                 Hall Hbuilt)].
    intros data m [[Hc _] [Hm _]]. split; assumption. }
  eexists. exists metricData. split; [|split].
  - exact (putMetrics_accepted E client namespace text Hns Hparse Hout
             (Hclient _) Hlog).
  - rewrite <- (putMetrics_sends_once E client namespace text Hns Hout).
    rewrite (putMetrics_accepted E client namespace text Hns Hparse Hout
               (Hclient _) Hlog).
    reflexivity.
  - eapply Forall2_weaken; [|exact Hbuilt]. intros ? ? [_ ?]. assumption.
Qed.

(** X1 on a batch of three records and a backend that accepts. *)
Lemma putMetrics_publishes_batch_witness :
  exists items trace metricData,
    json_of_text
      (json_text "[{'MetricName':'A','Value':1.5,'Unit':'Count','Dimensions':[{'Name':'Env','Value':'prod'}]},{'MetricName':'B','Values':[1,2],'Counts':[3,4]},{'MetricName':'C','StatisticValues':{'SampleCount':2,'Sum':3,'Minimum':1,'Maximum':2}}]")
    = Some (JArray items)
    /\ putMetrics stand_in accepting (js "MyApp/CI")
         (json_text "[{'MetricName':'A','Value':1.5,'Unit':'Count','Dimensions':[{'Name':'Env','Value':'prod'}]},{'MetricName':'B','Values':[1,2],'Counts':[3,4]},{'MetricName':'C','StatisticValues':{'SampleCount':2,'Sum':3,'Minimum':1,'Maximum':2}}]")
       = (trace, Returns (success_result 3))
    /\ sent_commands trace = [{| Namespace := js "MyApp/CI"; MetricData := metricData |}]
    /\ Forall2 carries_fields items metricData.
Proof.
  eexists.
  assert (Hparse :
    json_of_text
      (json_text "[{'MetricName':'A','Value':1.5,'Unit':'Count','Dimensions':[{'Name':'Env','Value':'prod'}]},{'MetricName':'B','Values':[1,2],'Counts':[3,4]},{'MetricName':'C','StatisticValues':{'SampleCount':2,'Sum':3,'Minimum':1,'Maximum':2}}]")
    = Some (JArray _)) by (vm_compute; reflexivity).
  destruct (putMetrics_publishes_batch stand_in accepting (js "MyApp/CI") _
              (eq_refl : validateNamespace (js "MyApp/CI") = Returns tt) Hparse)
    as (trace & metricData & Hput & Hsent & Hall).
  - simpl. lia.
  - repeat constructor.
  - reflexivity.
  - exists trace, metricData. split; [exact Hparse|]. split; [exact Hput|].
    split; assumption.
Defined.

(** The scenario of C4: one metric [X] with value 1, namespace [Test]. *)
Lemma putMetrics_scenario :
  putMetrics stand_in accepting (js "Test") (json_text "[{'MetricName':'X','Value':1}]")
  = ([info_line (js "Parsing metric data...");
      info_line (js "Publishing 1 metric(s) to namespace " ++ dquote ++ js "Test" ++ dquote);
      sent {| Namespace := js "Test";
              MetricData :=
                [{| MetricName := Some (JString (js "X"));
                    Value := Some (JNumber {| negative := false; mantissa := 1;
                                              exp10 := 0 |});
                    Unit := undefined; Timestamp := None; Dimensions := None;
                    Values := undefined; Counts := undefined;
                    StatisticValues := undefined |}] |};
      published_line;
      info_line (js "  - X: 1")],
     Returns (success_result 1)).
Proof. vm_compute. reflexivity. Qed.

(** C4 fails on a batch whose record has a [null] among its dimensions.
    The namespace and the batch are accepted, the one command is sent, the
    backend accepts it and the line that says so is logged; then writing
    the line of the metric reads [d.Name] on [null], the [catch] block takes
    the TypeError, and the result is a failure. *)
Theorem putMetrics_null_dimension (E : engine) :
  validateNamespace (js "Test") = Returns tt
  /\ parseMetricData E (json_text "[{'MetricName':'X','Value':1,'Dimensions':[null]}]")
     = Returns [metric_with_null_dimension]
  /\ accepting {| Namespace := js "Test"; MetricData := [metric_with_null_dimension] |}
     = Returns tt
  /\ putMetrics E accepting (js "Test")
       (json_text "[{'MetricName':'X','Value':1,'Dimensions':[null]}]")
     = (opening_trace (js "Test") [metric_with_null_dimension]
          ++ [published_line; failure_line (null_read_message E (js "Name"))],
        Returns (failure_result (null_read_message E (js "Name")))).
Proof.
  split; [reflexivity|].
  assert (Hparse :
    parseMetricData E (json_text "[{'MetricName':'X','Value':1,'Dimensions':[null]}]")
    = Returns [metric_with_null_dimension]) by (vm_compute; reflexivity).
  split; [exact Hparse|]. split; [reflexivity|].
  assert (Htry :
    putMetrics_try E accepting (js "Test")
      (json_text "[{'MetricName':'X','Value':1,'Dimensions':[null]}]")
    = (opening_trace (js "Test") [metric_with_null_dimension] ++ [published_line],
       rejected (exception (TypeError (null_read_message E (js "Name")))))).
  { rewrite putMetrics_try_eq, Hparse. reflexivity. }
  rewrite (putMetrics_catch_eq _ _ _ _ Htry).
  rewrite <- app_assoc. reflexivity.
Qed.

(** ** A backend that refuses *)

(** C5, amended.  When the backend rejects the command, [putMetrics]
    returns a failure whose message is the backend's message as it is, with
    nothing before it; the words [Failed to put metrics: ] go before it on
    the line written through [core.error] only. *)
Theorem putMetrics_backend_error (E : engine) (client : CloudWatchClient)
      (namespace text : jsstring) (metricData : list MetricDatum) (e : exn) :
  validateNamespace namespace = Returns tt ->
  parseMetricData E text = Returns metricData ->
  client {| Namespace := namespace; MetricData := metricData |} = Throws e ->
  putMetrics E client namespace text
  = (opening_trace namespace metricData
       ++ [error_line (js "Failed to put metrics: " ++ error_text e)],
     Returns {| success := false; metricsCount := None;
                error := Some (error_text e) |}).
Proof.
  intros Hns Hparse Hsend.
  pose proof (putMetrics_try_eq E client namespace text) as Htry.
  rewrite Hns, Hparse, Hsend in Htry.
  rewrite (putMetrics_catch_eq _ _ _ _ Htry). reflexivity.
Qed.

(** C5 on a backend that answers every command with
    [new Error("AccessDenied")]. *)
Lemma putMetrics_backend_error_witness :
  exists trace,
    putMetrics stand_in (rejecting (js "AccessDenied")) (js "Test")
      (json_text "[{'MetricName':'X','Value':1}]")
    = (trace ++ [error_line (js "Failed to put metrics: AccessDenied")],
       Returns {| success := false; metricsCount := None;
                  error := Some (js "AccessDenied") |}).
Proof.
  eexists.
  eapply (putMetrics_backend_error stand_in (rejecting (js "AccessDenied"))
            (js "Test") (json_text "[{'MetricName':'X','Value':1}]")
            (e := Error (js "AccessDenied"))).
  - reflexivity.
  - vm_compute. reflexivity.
  - reflexivity.
Defined.

Lemma no_proper_prefix (prefix s : jsstring) : s = prefix ++ s -> prefix = [].
Proof.
  intro H. apply (f_equal (@length _)) in H. rewrite length_app in H.
  destruct prefix; [reflexivity | cbn in H; lia].
Qed.

(** C5 as stated fails: the returned message is the backend's message and
    has no prefix. *)
Lemma backend_message_not_prefixed :
  exists trace r,
    putMetrics stand_in (rejecting (js "AccessDenied")) (js "Test")
      (json_text "[{'MetricName':'X','Value':1}]")
    = (trace, Returns r)
    /\ success r = false
    /\ error r = Some (js "AccessDenied")
    /\ ~ prefixed_for_context (js "AccessDenied") (js "AccessDenied").
Proof.
  do 2 eexists.
  split; [vm_compute; reflexivity|].
  split; [reflexivity|].
  split; [reflexivity|].
  intros (prefix & Hne & Heq). apply no_proper_prefix in Heq. contradiction.
Qed.

(** ** Failures before the backend *)

(** C6. When the namespace is refused, or the batch is, [putMetrics]
    returns a failure with the message of the error that refused it, and no
    command reaches the backend. *)
Theorem putMetrics_fails_before_send (E : engine) (client : CloudWatchClient)
      (namespace text : jsstring) :
  returns (validateNamespace namespace) = false
  \/ returns (parseMetricData E text) = false ->
  exists trace e,
    (validateNamespace namespace = Throws e
     \/ validateNamespace namespace = Returns tt /\ parseMetricData E text = Throws e)
    /\ putMetrics E client namespace text
       = (trace, Returns {| success := false; metricsCount := None;
                            error := Some (error_text e) |})
    /\ sent_commands trace = [].
Proof.
  intro Hfails.
  pose proof (putMetrics_try_eq E client namespace text) as Htry.
  destruct (validateNamespace namespace) as [[]|e] eqn:Hns.
  - destruct Hfails as [Hfails|Hfails]; [discriminate|].
    destruct (parseMetricData E text) as [metricData|e] eqn:Hparse; [discriminate|].
    eexists. exists e. split; [right; split; reflexivity|].
    split; [exact (putMetrics_catch_eq _ _ _ _ Htry) | reflexivity].
  - eexists. exists e. split; [left; reflexivity|].
    split; [exact (putMetrics_catch_eq _ _ _ _ Htry) | reflexivity].
Qed.

(** C6 on its scenarios: an empty array, a text that is not JSON, and a
    namespace with a space in it. *)
Lemma putMetrics_fails_before_send_witness :
  (exists trace e,
      (validateNamespace (js "Test") = Throws e
       \/ validateNamespace (js "Test") = Returns tt
          /\ parseMetricData stand_in (js "[]") = Throws e)
      /\ putMetrics stand_in accepting (js "Test") (js "[]")
         = (trace, Returns {| success := false; metricsCount := None;
                              error := Some (error_text e) |})
      /\ sent_commands trace = [])
  /\ putMetrics stand_in accepting (js "Test") (js "[]")
     = ([info_line (js "Parsing metric data...");
         error_line (js "Failed to put metrics: metric-data array cannot be empty")],
        Returns {| success := false; metricsCount := None;
                   error := Some (js "metric-data array cannot be empty") |})
  /\ putMetrics stand_in accepting (js "Test") (js "{not valid")
     = ([info_line (js "Parsing metric data...");
         error_line (js "Failed to put metrics: Failed to parse metric-data JSON: "
                       ++ SyntaxError_message stand_in (js "{not valid"))],
        Returns {| success := false; metricsCount := None;
                   error := Some (js "Failed to parse metric-data JSON: "
                                    ++ SyntaxError_message stand_in (js "{not valid")) |})
  /\ putMetrics stand_in accepting (js "My App") (js "[{not valid")
     = ([error_line (js "Failed to put metrics: Namespace " ++ dquote ++ js "My App" ++ dquote
                       ++ js " contains invalid characters. Only alphanumeric characters, hyphens, underscores, periods, and forward slashes are allowed.")],
        Returns {| success := false; metricsCount := None;
                   error := Some (js "Namespace " ++ dquote ++ js "My App" ++ dquote
                                    ++ js " contains invalid characters. Only alphanumeric characters, hyphens, underscores, periods, and forward slashes are allowed.") |}).
Proof.
  split; [|split; [|split]].
  - apply putMetrics_fails_before_send. right. vm_compute. reflexivity.
  - vm_compute. reflexivity.
  - vm_compute. reflexivity.
  - vm_compute. reflexivity.
Defined.

(** ** What leaves putMetrics *)

Lemma putMetrics_try_returns (E : engine) (client : CloudWatchClient)
      (namespace text : jsstring) (trace : list event) (r : MetricResult) :
  putMetrics_try E client namespace text = (trace, fulfilled r) ->
  exists metricData,
    parseMetricData E text = Returns metricData
    /\ r = success_result (length metricData).
Proof.
  rewrite putMetrics_try_eq.
  destruct (validateNamespace namespace) as [[]|e]; [|discriminate].
  destruct (parseMetricData E text) as [metricData|e]; [|discriminate].
  destruct (client _) as [[]|error]; [|discriminate].
  destruct (log_metrics E metricData) as [lines [[]|e]]; [|discriminate].
  intros [= _ <-]. exists metricData. split; reflexivity.
Qed.

(** In the [try] block a value without a text can only come from the
    backend. *)
Lemma putMetrics_try_without_text (E : engine) (client : CloudWatchClient)
      (namespace text : jsstring) (trace : list event) (thrown : exn) :
  putMetrics_try E client namespace text = (trace, rejected (value_without_text thrown)) ->
  exists metricData,
    validateNamespace namespace = Returns tt
    /\ parseMetricData E text = Returns metricData
    /\ client {| Namespace := namespace; MetricData := metricData |}
       = rejected (value_without_text thrown)
    /\ trace = opening_trace namespace metricData.
Proof.
  rewrite putMetrics_try_eq.
  destruct (validateNamespace namespace) as [[]|e]; [|discriminate].
  destruct (parseMetricData E text) as [metricData|e]; [|discriminate].
  destruct (client _) as [[]|error] eqn:Hsend.
  - destruct (log_metrics E metricData) as [lines [[]|e]]; discriminate.
  - intros [= <- ->]. exists metricData. repeat split; solve [reflexivity | exact Hsend].
Qed.

(** C9, amended.  [putMetrics] returns a result, either a success with a
    count and no error or a failure with an error message and no count, in
    every run but one kind: when the namespace and the batch are accepted
    and the backend rejects the command with a value that has no text, the
    [catch] block itself throws while it converts the value, and
    [putMetrics] rejects with what the conversion throws, the command sent
    and no line written through [core.error].  Every exception of the [try]
    block, be it from the namespace check, the parser, the backend or the
    logging, comes back as the failure with its text. *)
Theorem putMetrics_total :
  (forall (E : engine) (client : CloudWatchClient) (namespace text : jsstring),
      (exists trace r,
          putMetrics E client namespace text = (trace, Returns r)
          /\ ((success r = true
               /\ (exists count, metricsCount r = Some count) /\ error r = None)
              \/ (success r = false
                  /\ metricsCount r = None /\ exists message, error r = Some message)))
      \/ (exists metricData thrown,
             validateNamespace namespace = Returns tt
             /\ parseMetricData E text = Returns metricData
             /\ client {| Namespace := namespace; MetricData := metricData |}
                = rejected (value_without_text thrown)
             /\ putMetrics E client namespace text
                = (opening_trace namespace metricData, Throws thrown)))
  /\ (forall (E : engine) (client : CloudWatchClient) (namespace text : jsstring)
             (trace : list event) (e : exn),
         putMetrics_try E client namespace text = (trace, rejected (exception e)) ->
         putMetrics E client namespace text
         = (trace ++ [error_line (js "Failed to put metrics: " ++ error_text e)],
            Returns {| success := false; metricsCount := None;
                       error := Some (error_text e) |}))
  /\ (forall (E : engine) (client : CloudWatchClient) (namespace text : jsstring),
         (forall command thrown, client command <> rejected (value_without_text thrown)) ->
         returns (snd (putMetrics E client namespace text)) = true).
Proof.
  assert (Hcases :
    forall (E : engine) (client : CloudWatchClient) (namespace text : jsstring),
      (exists trace r,
          putMetrics E client namespace text = (trace, Returns r)
          /\ ((success r = true
               /\ (exists count, metricsCount r = Some count) /\ error r = None)
              \/ (success r = false
                  /\ metricsCount r = None /\ exists message, error r = Some message)))
      \/ (exists metricData thrown,
             validateNamespace namespace = Returns tt
             /\ parseMetricData E text = Returns metricData
             /\ client {| Namespace := namespace; MetricData := metricData |}
                = rejected (value_without_text thrown)
             /\ putMetrics E client namespace text
                = (opening_trace namespace metricData, Throws thrown))).
  { intros E client namespace text.
    destruct (putMetrics_try E client namespace text) as [trace [r|[e|thrown]]] eqn:Htry.
    - left. exists trace, r. split; [exact (putMetrics_pass_eq _ _ _ _ Htry)|].
      apply putMetrics_try_returns in Htry as (metricData & _ & ->).
      left. split; [reflexivity|]. split; [eexists|]; reflexivity.
    - left. eexists. eexists. split; [exact (putMetrics_catch_eq _ _ _ _ Htry)|].
      right. split; [reflexivity|]. split; [|eexists]; reflexivity.
    - right. pose proof (putMetrics_throw_eq _ _ _ _ Htry) as Hput.
      apply putMetrics_try_without_text in Htry as (metricData & Hns & Hparse & Hsend & ->).
      exists metricData, thrown. repeat split; assumption. }
  split; [exact Hcases|]. split.
  - intros E client namespace text trace e Htry.
    exact (putMetrics_catch_eq _ _ _ _ Htry).
  - intros E client namespace text Hclient.
    destruct (Hcases E client namespace text)
      as [(trace & r & -> & _)|(metricData & thrown & _ & _ & Hsend & _)].
    + reflexivity.
    + destruct (Hclient _ _ Hsend).
Qed.

(** C9 on a backend that rejects with a value that is not an [Error] and has
    a text: the text comes back in the failure. *)
Lemma putMetrics_total_witness :
  putMetrics stand_in (fun _ => Throws (NotAnError (js "timeout"))) (js "Test")
    (json_text "[{'MetricName':'X','Value':1}]")
  = ([info_line (js "Parsing metric data...");
      info_line (js "Publishing 1 metric(s) to namespace " ++ dquote ++ js "Test" ++ dquote);
      sent {| Namespace := js "Test";
              MetricData :=
                [{| MetricName := Some (JString (js "X"));
                    Value := Some (JNumber {| negative := false; mantissa := 1;
                                              exp10 := 0 |});
                    Unit := undefined; Timestamp := None; Dimensions := None;
                    Values := undefined; Counts := undefined;
                    StatisticValues := undefined |}] |}]
       ++ [error_line (js "Failed to put metrics: timeout")],
     Returns {| success := false; metricsCount := None; error := Some (js "timeout") |}).
Proof.
  destruct putMetrics_total as (_ & Hcaught & _).
  apply (Hcaught stand_in (fun _ => Throws (NotAnError (js "timeout"))) (js "Test")
           (json_text "[{'MetricName':'X','Value':1}]") _ (NotAnError (js "timeout"))).
  vm_compute. reflexivity.
Defined.

(** C9 as stated fails on a backend that rejects with an object that has no
    primitive value: the command is sent, [String(error)] throws in the
    [catch] block, and [putMetrics] rejects with that TypeError instead of
    returning a result. *)
Lemma rejection_without_text_not_caught :
  rejecting_without_text
    {| Namespace := js "Test";
       MetricData :=
         [{| MetricName := Some (JString (js "X"));
             Value := Some (JNumber {| negative := false; mantissa := 1; exp10 := 0 |});
             Unit := undefined; Timestamp := None; Dimensions := None;
             Values := undefined; Counts := undefined;
             StatisticValues := undefined |}] |}
  = rejected (value_without_text (TypeError (not_primitive_message stand_in)))
  /\ putMetrics stand_in rejecting_without_text (js "Test")
       (json_text "[{'MetricName':'X','Value':1}]")
     = ([info_line (js "Parsing metric data...");
         info_line (js "Publishing 1 metric(s) to namespace "
                      ++ dquote ++ js "Test" ++ dquote);
         sent {| Namespace := js "Test";
                 MetricData :=
                   [{| MetricName := Some (JString (js "X"));
                       Value := Some (JNumber {| negative := false; mantissa := 1;
                                                 exp10 := 0 |});
                       Unit := undefined; Timestamp := None; Dimensions := None;
                       Values := undefined; Counts := undefined;
                       StatisticValues := undefined |}] |}],
        Throws (TypeError (js "Cannot convert object to primitive value")))
  /\ returns (snd (putMetrics stand_in rejecting_without_text (js "Test")
                     (json_text "[{'MetricName':'X','Value':1}]"))) = false.
Proof.
  split; [reflexivity|]. split; vm_compute; reflexivity.
Qed.

(* ================================================================== *)
(** * Further properties of the three functions                        *)
(* ================================================================== *)

(** ** Which error validateNamespace throws *)

(** X3. [validateNamespace] checks in a fixed order and throws the error of
    the first check that fails: a namespace that is empty or all white space
    is called empty; otherwise one of more than 255 code units is refused
    for its length, with the length in the message, whatever its characters
    are; otherwise one with a character outside the set is refused for its
    characters, with the namespace in the message. *)
Theorem validateNamespace_errors (namespace : jsstring) :
  (whitespace_only namespace ->
   validateNamespace namespace = Throws (Error (js "Namespace cannot be empty")))
  /\ (~ whitespace_only namespace -> 255 < length namespace ->
      validateNamespace namespace
      = Throws (Error (js "Namespace exceeds maximum length of 255 characters (got "
                         ++ nat_to_js (length namespace) ++ js ")")))
  /\ (~ whitespace_only namespace -> length namespace <= 255 ->
      ~ in_namespace_charset namespace ->
      validateNamespace namespace
      = Throws (Error (js "Namespace " ++ dquote ++ namespace ++ dquote
                         ++ js " contains invalid characters. "
                         ++ js "Only alphanumeric characters, hyphens, underscores, periods, and forward slashes are allowed."))).
Proof.
  unfold validateNamespace.
  assert (Hempty : negb (truthy_string namespace) || Nat.eqb (length (trim namespace)) 0
                   = true <-> whitespace_only namespace).
  { rewrite orb_true_iff, Nat.eqb_eq, length_zero_iff_nil, trim_nil_iff. split.
    - intros [Hnil|Hws]; [|exact Hws].
      destruct namespace; [constructor | discriminate].
    - intro Hws. right. exact Hws. }
  split; [|split].
  - intro Hws. apply Hempty in Hws. rewrite Hws. reflexivity.
  - intros Hws Hlen.
    destruct (negb (truthy_string namespace) || Nat.eqb (length (trim namespace)) 0)
      eqn:Hfirst; [exfalso; apply Hws, Hempty; reflexivity|].
    apply Nat.ltb_lt in Hlen. rewrite Hlen. reflexivity.
  - intros Hws Hlen Hcs.
    destruct (negb (truthy_string namespace) || Nat.eqb (length (trim namespace)) 0)
      eqn:Hfirst; [exfalso; apply Hws, Hempty; reflexivity|].
    apply Nat.ltb_ge in Hlen. rewrite Hlen.
    destruct (validPattern_test namespace) eqn:Hpat; [|reflexivity].
    apply validPattern_test_iff in Hpat as [_ Hpat]. contradiction.
Qed.

(** X3 on three namespaces: three spaces; 256 times [#]; [My App]. *)
Lemma validateNamespace_errors_witness :
  validateNamespace (js "   ") = Throws (Error (js "Namespace cannot be empty"))
  /\ validateNamespace (repeat 35%N 256)
     = Throws (Error (js "Namespace exceeds maximum length of 255 characters (got 256)"))
  /\ validateNamespace (js "My App")
     = Throws (Error (js "Namespace " ++ dquote ++ js "My App" ++ dquote
                        ++ js " contains invalid characters. "
                        ++ js "Only alphanumeric characters, hyphens, underscores, periods, and forward slashes are allowed.")).
Proof.
  split; [|split].
  - apply (validateNamespace_errors (js "   ")). repeat constructor.
  - pose proof (validateNamespace_errors (repeat 35%N 256)) as (_ & Hlen & _).
    rewrite Hlen.
    + rewrite repeat_length. reflexivity.
    + intro Hws. inversion Hws as [|? ? Hc _]. discriminate.
    + rewrite repeat_length. lia.
  - apply (validateNamespace_errors (js "My App")).
    + intro Hws. inversion Hws as [|? ? Hc _]. discriminate.
    + simpl. lia.
    + intro Hcs. unfold in_namespace_charset in Hcs. rewrite Forall_forall in Hcs.
      specialize (Hcs 32%N). cbn in Hcs. discriminate Hcs. tauto.
Defined.

(** ** Which error parseMetricData throws *)

(** X4. When the records before it parse, an element without a truthy
    [MetricName] stops [parseMetricData] with an error that gives the index
    of the element in the array, counted from 0; an element that is [null]
    stops it with the TypeError of reading [MetricName] from [null]. *)
Theorem parseMetricData_bad_name (E : engine) (text : jsstring)
      (before after : list json) (data : json) (ms : list MetricDatum) :
  json_of_text text = Some (JArray (before ++ data :: after)) ->
  length (before ++ data :: after) <= 1000 ->
  Forall2 (built_from E) before ms ->
  truthy (field data (js "MetricName")) = false ->
  parseMetricData E text
  = Throws (if match data with JNull => true | _ => false end
            then TypeError (null_read_message E (js "MetricName"))
            else Error (missing_name_message (length before))).
Proof.
  intros Hparse Hmax Hbefore Hname.
  eapply parseMetricData_first_throw; try eassumption.
  destruct (match data with JNull => true | _ => false end) eqn:Hnull.
  - destruct data; try discriminate. reflexivity.
  - assert (Hd : data <> JNull) by (intro; subst; discriminate).
    unfold parse_one. rewrite (Get_field E) by exact Hd. cbn [bind].
    rewrite Hname. reflexivity.
Qed.

(** X4 on a batch whose third element has an empty name, and on one whose
    second element is [null]. *)
Lemma parseMetricData_bad_name_witness :
  parseMetricData stand_in
    (json_text "[{'MetricName':'A','Value':1},{'MetricName':'B','Value':2},{'MetricName':'','Value':3},{'Value':4}]")
  = Throws (Error (js "Metric at index 2 is missing required field 'MetricName'"))
  /\ parseMetricData stand_in (json_text "[{'MetricName':'A','Value':1},null]")
     = Throws (TypeError (js "Cannot read properties of null (reading 'MetricName')")).
Proof.
  split.
  - pose proof (@parseMetricData_bad_name stand_in
        (json_text "[{'MetricName':'A','Value':1},{'MetricName':'B','Value':2},{'MetricName':'','Value':3},{'Value':4}]")
        [JObject [(js "MetricName", JString (js "A"));
                  (js "Value", JNumber {| negative := false; mantissa := 1; exp10 := 0 |})];
         JObject [(js "MetricName", JString (js "B"));
                  (js "Value", JNumber {| negative := false; mantissa := 2; exp10 := 0 |})]]
        [JObject [(js "Value", JNumber {| negative := false; mantissa := 4; exp10 := 0 |})]]
        (JObject [(js "MetricName", JString []);
                  (js "Value", JNumber {| negative := false; mantissa := 3; exp10 := 0 |})]))
      as Hbad.
    erewrite Hbad.
    + reflexivity.
    + vm_compute. reflexivity.
    + simpl. lia.
    + constructor; [|constructor; [|constructor]];
        apply (parse_one_iff stand_in 0); vm_compute; reflexivity.
    + reflexivity.
  - pose proof (@parseMetricData_bad_name stand_in
        (json_text "[{'MetricName':'A','Value':1},null]")
        [JObject [(js "MetricName", JString (js "A"));
                  (js "Value", JNumber {| negative := false; mantissa := 1; exp10 := 0 |})]]
        [] JNull) as Hbad.
    erewrite Hbad.
    + reflexivity.
    + vm_compute. reflexivity.
    + simpl. lia.
    + constructor; [|constructor].
      apply (parse_one_iff stand_in 0); vm_compute; reflexivity.
    + reflexivity.
Defined.

(** X5. The check on the number of dimensions comes before the check for
    a data field and does not depend on it: when the records before it
    parse, a record with a truthy name, a usable timestamp or none, and more
    than 30 dimensions stops [parseMetricData], whether or not it has a
    [Value], [Values] or [StatisticValues].  What is thrown is the error
    that names the metric and gives the number of its dimensions when the
    name converts to a string, and the TypeError of the conversion when the
    name is an object that has none. *)
Theorem parseMetricData_too_many_dimensions (E : engine) (text : jsstring)
      (before after : list json) (data : json) (ms : list MetricDatum)
      (ds : list json) :
  json_of_text text = Some (JArray (before ++ data :: after)) ->
  length (before ++ data :: after) <= 1000 ->
  Forall2 (built_from E) before ms ->
  truthy (field data (js "MetricName")) = true ->
  timestamp_usable E data ->
  as_array (field data (js "Dimensions")) = Some ds ->
  30 < length ds ->
  parseMetricData E text
  = Throws (check_error E data
              (fun nameText => too_many_dimensions_message nameText (length ds)))
  /\ (forall nameText,
         ToString E (field data (js "MetricName")) = Returns nameText ->
         parseMetricData E text
         = Throws (Error (too_many_dimensions_message nameText (length ds))))
  /\ (forall e,
         ToString E (field data (js "MetricName")) = Throws e ->
         parseMetricData E text = Throws (TypeError (not_primitive_message E))).
Proof.
  intros Hparse Hmax Hbefore Hname Hts Hds Hlen.
  assert (Hthrows :
    parseMetricData E text
    = Throws (check_error E data
                (fun nameText => too_many_dimensions_message nameText (length ds)))).
  { eapply parseMetricData_first_throw; try eassumption.
    apply parse_one_too_many; assumption. }
  split; [exact Hthrows|]. split.
  - intros nameText Htext. rewrite Hthrows. unfold check_error. rewrite Htext. reflexivity.
  - intros e He. rewrite Hthrows. unfold check_error. rewrite He.
    f_equal. eapply ToString_throws. exact He.
Qed.

(** X5 on a record with a [Value] and 31 dimensions, named by a text and
    named by an object with a [toString] member. *)
Lemma parseMetricData_too_many_dimensions_witness :
  parseMetricData stand_in (batch_with_dimensions true 31)
  = Throws (Error (js "Metric " ++ dquote ++ js "X" ++ dquote
                     ++ js " has too many dimensions (max 30, got 31)"))
  /\ parseMetricData stand_in
       (json_text "[{'MetricName':{'toString':1},'Value':1,'Dimensions':["
        ++ join (js ",") (repeat (json_text "{'Name':'d','Value':'v'}") 31)
        ++ json_text "]}]")
     = Throws (TypeError (js "Cannot convert object to primitive value")).
Proof.
  split.
  - destruct (@parseMetricData_too_many_dimensions stand_in
      (batch_with_dimensions true 31) [] []
      (JObject [(js "MetricName", JString (js "X"));
                (js "Value", JNumber {| negative := false; mantissa := 1; exp10 := 0 |});
                (js "Dimensions", JArray (repeat dimension_d 31))])
      [] (repeat dimension_d 31)) as (_ & Htext & _).
    + vm_compute. reflexivity.
    + simpl. lia.
    + constructor.
    + reflexivity.
    + exact I.
    + reflexivity.
    + rewrite repeat_length. lia.
    + rewrite (Htext (js "X") eq_refl). rewrite repeat_length. reflexivity.
  - destruct (@parseMetricData_too_many_dimensions stand_in
      (json_text "[{'MetricName':{'toString':1},'Value':1,'Dimensions':["
        ++ join (js ",") (repeat (json_text "{'Name':'d','Value':'v'}") 31)
        ++ json_text "]}]") [] []
      (JObject [(js "MetricName",
                 JObject [(js "toString",
                           JNumber {| negative := false; mantissa := 1; exp10 := 0 |})]);
                (js "Value", JNumber {| negative := false; mantissa := 1; exp10 := 0 |});
                (js "Dimensions", JArray (repeat dimension_d 31))])
      [] (repeat dimension_d 31)) as (_ & _ & Hnone).
    + vm_compute. reflexivity.
    + simpl. lia.
    + constructor.
    + reflexivity.
    + exact I.
    + reflexivity.
    + rewrite repeat_length. lia.
    + exact (Hnone _ eq_refl).
Defined.

(** ** What parseMetricData reads and what it returns *)

Lemma built_from_iff (E : engine) (data : json) (m : MetricDatum) :
  built_from E data m <-> accepted E data /\ copied_from E data m.
Proof.
  unfold accepted, reaches_data_check, copied_from, timestamp_of. split.
  - intro Hm. pose proof (built_from_has_data Hm) as [_ Hlacks].
    destruct Hm as (HN & Hname & HV & HU & HT & HD & Hmax & HVs & HC & HS & _).
    rewrite HN in Hname. rewrite HD in Hmax.
    split; [split; [split; [exact Hname|split; [|exact Hmax]]|exact Hlacks]|].
    + destruct (when_truthy (field data (js "Timestamp"))) as [t|]; [|exact I].
      destruct HT as (d & Hd & _). exists d. exact Hd.
    + destruct m.
      cbn [MetricName Value Unit Timestamp Dimensions Values Counts StatisticValues] in *.
      subst. f_equal.
      destruct (when_truthy (field data (js "Timestamp"))) as [t|]; [|exact HT].
      destruct HT as (d & -> & ->). reflexivity.
  - intros [[(Hname & HT & Hmax) Hlacks] ->]. unfold built_from, has_data.
    cbn [MetricName Value Unit Timestamp Dimensions Values Counts StatisticValues].
    repeat split; try assumption.
    + destruct (when_truthy (field data (js "Timestamp"))) as [t|]; [|reflexivity].
      destruct HT as [d Hd]. exists d. rewrite Hd. split; reflexivity.
    + unfold lacks_data in Hlacks. unfold when_truthy. rewrite !is_defined_if.
      destruct (is_defined (field data (js "Value"))),
               (truthy (field data (js "Values"))),
               (truthy (field data (js "StatisticValues"))); try reflexivity; discriminate.
Qed.

Lemma Forall2_split {A B} (P : A -> Prop) (R S : A -> B -> Prop)
      (l : list A) (bs : list B) :
  (forall a b, S a b <-> P a /\ R a b) ->
  Forall2 S l bs <-> Forall P l /\ Forall2 R l bs.
Proof.
  intro HS. split.
  - induction 1 as [|a b l bs Hab _ [IHP IHR]]; [split; constructor|].
    apply HS in Hab as [Ha Hb]. split; constructor; assumption.
  - intros [HP HR]. induction HR as [|a b l bs Hab _ IH]; [constructor|].
    inversion HP; subst. constructor; [apply HS; split; assumption | auto].
Qed.

(** X6. [parseMetricData] returns exactly when the text is a JSON array of
    1 to 1000 elements each of which has a truthy [MetricName], a timestamp
    that is absent, falsy or makes a [Date], at most 30 dimensions when
    [Dimensions] is an array, and a defined [Value] or truthy [Values] or
    [StatisticValues].  The result then has one record per element, in the
    order of the array, holding the name and [Value] of the element, its
    [Unit], [Values], [Counts] and [StatisticValues] when truthy (a falsy one
    is left out), its [Dimensions] when an array (anything else is left
    out, unchecked), and its timestamp as a [Date]. *)
Theorem parseMetricData_returns_exactly (E : engine) (text : jsstring)
      (out : list MetricDatum) :
  parseMetricData E text = Returns out
  <-> exists items,
        json_of_text text = Some (JArray items)
        /\ 1 <= length items <= 1000
        /\ Forall (accepted E) items
        /\ Forall2 (copied_from E) items out.
Proof.
  rewrite parseMetricData_iff. split.
  - intros (items & Hparse & Hlen & Hall). exists items.
    split; [exact Hparse|]. split; [exact Hlen|].
    apply (Forall2_split (accepted E) (copied_from E) (built_from E) items out);
      [|exact Hall].
    intros data m. apply built_from_iff.
  - intros (items & Hparse & Hlen & Hacc & Hcopy). exists items.
    split; [exact Hparse|]. split; [exact Hlen|].
    apply (Forall2_split (accepted E) (copied_from E) (built_from E) items out);
      [|split; assumption].
    intros data m. apply built_from_iff.
Qed.

(** X6 on a record with an empty [Unit], a [Dimensions] that is a string
    and a [Counts] of 0: all three are left out of the output. *)
Lemma parseMetricData_returns_exactly_witness :
  parseMetricData stand_in
    (json_text "[{'MetricName':'X','Value':1,'Unit':'','Dimensions':'none','Counts':0}]")
  = Returns [{| MetricName := Some (JString (js "X"));
                Value := Some (JNumber {| negative := false; mantissa := 1; exp10 := 0 |});
                Unit := undefined; Timestamp := None; Dimensions := None;
                Values := undefined; Counts := undefined;
                StatisticValues := undefined |}].
Proof.
  apply parseMetricData_returns_exactly.
  eexists. split; [vm_compute; reflexivity|].
  split; [simpl; lia|]. split.
  - constructor; [|constructor].
    split; [split; [reflexivity|split; [exact I|intros ds; discriminate]]|reflexivity].
  - constructor; [|constructor]. reflexivity.
Defined.

(** ** Members the loop does not read *)

Lemma parse_one_same_fields (E : engine) (i : nat) (data data' : json) :
  same_metric_fields data data' -> parse_one E i data = parse_one E i data'.
Proof.
  intros (members & members' & -> & -> & Hsame).
  unfold parse_one, Get.
  rewrite !(Hsame (js _)) by (cbn; tauto).
  reflexivity.
Qed.

Lemma parse_loop_same_fields (E : engine) (items items' : list json) :
  Forall2 same_metric_fields items items' ->
  forall i metrics, parse_loop E i items metrics = parse_loop E i items' metrics.
Proof.
  induction 1 as [|data data' items items' Hsame _ IH]; intros i metrics;
    cbn [parse_loop]; [reflexivity|].
  rewrite (parse_one_same_fields E i Hsame).
  destruct (parse_one E i data'); cbn [bind]; [apply IH | reflexivity].
Qed.

(** X7. [parseMetricData] reads eight members of each record and nothing
    else: two batches whose records are, position by position, objects with
    the same [MetricName], [Value], [Unit], [Timestamp], [Dimensions],
    [Values], [Counts] and [StatisticValues] give the same result or the same
    error, whatever other members the records have.  A member the loop does
    not read, such as [StorageResolution], changes nothing and is not
    carried to the output. *)
Theorem parseMetricData_ignores_other_members (E : engine) (text text' : jsstring)
      (items items' : list json) :
  json_of_text text = Some (JArray items) ->
  json_of_text text' = Some (JArray items') ->
  Forall2 same_metric_fields items items' ->
  parseMetricData E text = parseMetricData E text'.
Proof.
  intros Hparse Hparse' Hsame.
  unfold parseMetricData, JSON_parse. rewrite Hparse, Hparse'.
  cbn [try_catch bind]. rewrite (Forall2_length Hsame).
  destruct (Nat.eqb (length items') 0); [reflexivity|].
  destruct (Nat.ltb 1000 (length items')); [reflexivity|].
  apply parse_loop_same_fields. exact Hsame.
Qed.

(** X7 on a record with and without [StorageResolution] and [Note]. *)
Lemma parseMetricData_ignores_other_members_witness :
  parseMetricData stand_in
    (json_text "[{'MetricName':'X','StorageResolution':1,'Value':2,'Note':'hi'}]")
  = parseMetricData stand_in (json_text "[{'Value':2,'MetricName':'X'}]").
Proof.
  eapply parseMetricData_ignores_other_members.
  - vm_compute. reflexivity.
  - vm_compute. reflexivity.
  - constructor; [|constructor].
    do 2 eexists. split; [reflexivity|]. split; [reflexivity|].
    intros k Hk. cbn in Hk.
    repeat (destruct Hk as [<-|Hk]; [vm_compute; reflexivity|]). destruct Hk.
Defined.

(** ** What putMetrics sends and logs *)

(** X8. In every run [putMetrics] hands at most one command to the
    backend, and never a second one after a rejection: exactly one, with the
    namespace and all parsed records, when the namespace validates and the
    batch parses, and none otherwise. *)
Theorem putMetrics_sends_at_most_once (E : engine) (client : CloudWatchClient)
      (namespace text : jsstring) :
  (exists metricData,
      validateNamespace namespace = Returns tt
      /\ parseMetricData E text = Returns metricData
      /\ sent_commands (fst (putMetrics E client namespace text))
         = [{| Namespace := namespace; MetricData := metricData |}])
  \/ ((returns (validateNamespace namespace) = false
       \/ returns (parseMetricData E text) = false)
      /\ sent_commands (fst (putMetrics E client namespace text)) = []).
Proof.
  pose proof (putMetrics_try_eq E client namespace text) as Htry.
  destruct (validateNamespace namespace) as [[]|e] eqn:Hns.
  - destruct (parseMetricData E text) as [metricData|e] eqn:Hparse.
    + left. exists metricData. split; [reflexivity|]. split; [reflexivity|].
      apply putMetrics_sends_once; assumption.
    + right. split; [right; reflexivity|].
      rewrite (putMetrics_catch_eq _ _ _ _ Htry). reflexivity.
  - right. split; [left; reflexivity|].
    rewrite (putMetrics_catch_eq _ _ _ _ Htry). reflexivity.
Qed.

Lemma log_metrics_lines (E : engine) (metricData : list MetricDatum) :
  forall events,
    log_metrics E metricData = (events, Returns tt) ->
    exists lines,
      map_outcome (metric_line E) metricData = Returns lines
      /\ events = map info_line lines.
Proof.
  induction metricData as [|metric rest IH]; intros events; cbn [log_metrics map_outcome].
  - intros [= <-]. exists []. split; reflexivity.
  - unfold lift, core_info.
    destruct (metric_line E metric) as [line|e]; cbn [io_bind]; [|discriminate].
    destruct (log_metrics E rest) as [events' [[]|e]]; cbn [app]; [|discriminate].
    intros [= <-]. destruct (IH events' eq_refl) as (lines & -> & ->).
    exists (line :: lines). split; reflexivity.
Qed.

(** X9. A run of [putMetrics] that reports success sent its one command,
    had it accepted, and logged, after the line that announces the
    publication, exactly one line per record, in the order of the records,
    and no error line; the count it reports is the number of records it
    sent, between 1 and 1000. *)
Theorem putMetrics_success_trace (E : engine) (client : CloudWatchClient)
      (namespace text : jsstring) (trace : list event) (r : MetricResult) :
  putMetrics E client namespace text = (trace, Returns r) ->
  success r = true ->
  exists metricData lines,
    parseMetricData E text = Returns metricData
    /\ client {| Namespace := namespace; MetricData := metricData |} = Returns tt
    /\ map_outcome (metric_line E) metricData = Returns lines
    /\ trace = opening_trace namespace metricData
                 ++ published_line :: map info_line lines
    /\ r = success_result (length metricData)
    /\ 1 <= length metricData <= 1000.
Proof.
  intros Hput Hsuccess.
  pose proof (putMetrics_try_eq E client namespace text) as Htry.
  unfold putMetrics, io_try_catch in Hput.
  destruct (putMetrics_try E client namespace text) as [t [r'|[e|thrown]]];
    [|cbn in Hput; injection Hput as _ <-; discriminate|cbn in Hput; discriminate].
  injection Hput as <- <-.
  destruct (validateNamespace namespace) as [[]|e]; [|discriminate].
  destruct (parseMetricData E text) as [metricData|e] eqn:Hparse; [|discriminate].
  destruct (client _) as [[]|e] eqn:Hsend; [|discriminate].
  destruct (log_metrics E metricData) as [events [[]|e]] eqn:Hlog; [|discriminate].
  injection Htry as -> ->.
  destruct (log_metrics_lines E metricData Hlog) as (lines & Hlines & ->).
  exists metricData, lines. repeat split; try assumption; try reflexivity;
    apply parseMetricData_iff in Hparse as (items & _ & Hlen & Hall);
    rewrite <- (Forall2_length Hall); lia.
Qed.

(** X9 on a batch of two records. *)
Lemma putMetrics_success_trace_witness :
  exists metricData,
    fst (putMetrics stand_in accepting (js "App")
           (json_text "[{'MetricName':'A','Value':1,'Unit':'Count'},{'MetricName':'B','Values':[1]}]"))
    = opening_trace (js "App") metricData
        ++ [published_line; info_line (js "  - A: 1 Count");
            info_line (js "  - B: statistic-set")]
    /\ length metricData = 2.
Proof.
  destruct (putMetrics stand_in accepting (js "App")
              (json_text "[{'MetricName':'A','Value':1,'Unit':'Count'},{'MetricName':'B','Values':[1]}]"))
    as [trace [r|e]] eqn:Hput; [|vm_compute in Hput; discriminate].
  assert (Hsuccess : success r = true) by (vm_compute in Hput; injection Hput as _ <-; reflexivity).
  destruct (putMetrics_success_trace _ _ _ _ Hput Hsuccess)
    as (metricData & lines & Hparse & _ & Hlines & -> & _ & _).
  exists metricData. vm_compute in Hparse. injection Hparse as <-.
  vm_compute in Hlines. injection Hlines as <-. split; reflexivity.
Defined.

Lemma error_lines_app (t t' : list event) :
  error_lines (t ++ t') = error_lines t ++ error_lines t'.
Proof.
  induction t as [|[m|m|c] t IH]; cbn [app error_lines]; rewrite ?IH; reflexivity.
Qed.

Lemma log_metrics_no_error_lines (E : engine) (metricData : list MetricDatum) :
  error_lines (fst (log_metrics E metricData)) = [].
Proof.
  induction metricData as [|metric rest IH]; cbn [log_metrics]; [reflexivity|].
  unfold lift, core_info.
  destruct (metric_line E metric) as [line|e]; cbn [io_bind]; [|reflexivity].
  destruct (log_metrics E rest) as [lines r]. cbn [fst app error_lines] in *.
  exact IH.
Qed.

Lemma putMetrics_try_no_error_lines (E : engine) (client : CloudWatchClient)
      (namespace text : jsstring) :
  error_lines (fst (putMetrics_try E client namespace text)) = [].
Proof.
  rewrite putMetrics_try_eq.
  destruct (validateNamespace namespace) as [[]|e]; [|reflexivity].
  destruct (parseMetricData E text) as [metricData|e]; [|reflexivity].
  destruct (client _) as [[]|e]; [|reflexivity].
  pose proof (log_metrics_no_error_lines E metricData) as Hlog.
  destruct (log_metrics E metricData) as [lines [[]|e]]; cbn [fst] in *;
    rewrite error_lines_app; cbn [error_lines opening_trace published_line app];
    exact Hlog.
Qed.

(** X10. A run of [putMetrics] that reports failure writes exactly one
    line through [core.error], as the last thing it does, and that line is
    [Failed to put metrics: ] followed by the very message the result
    carries; the result has no count. *)
Theorem putMetrics_failure_trace (E : engine) (client : CloudWatchClient)
      (namespace text : jsstring) (trace : list event) (r : MetricResult) :
  putMetrics E client namespace text = (trace, Returns r) ->
  success r = false ->
  exists before message,
    trace = before ++ [error_line (js "Failed to put metrics: " ++ message)]
    /\ error_lines before = []
    /\ r = {| success := false; metricsCount := None; error := Some message |}.
Proof.
  intros Hput Hfail.
  pose proof (putMetrics_try_no_error_lines E client namespace text) as Hnone.
  destruct (putMetrics_try E client namespace text) as [t [r'|[e|thrown]]] eqn:Htry.
  - rewrite (putMetrics_pass_eq _ _ _ _ Htry) in Hput. injection Hput as <- <-.
    apply putMetrics_try_returns in Htry as (metricData & _ & ->). discriminate.
  - rewrite (putMetrics_catch_eq _ _ _ _ Htry) in Hput. injection Hput as <- <-.
    exists t, (error_text e). split; [reflexivity|]. split; [exact Hnone | reflexivity].
  - rewrite (putMetrics_throw_eq _ _ _ _ Htry) in Hput. discriminate.
Qed.

(** X10 on a batch that parses and a backend that rejects. *)
Lemma putMetrics_failure_trace_witness :
  exists before,
    fst (putMetrics stand_in (rejecting (js "Throttled")) (js "App")
           (json_text "[{'MetricName':'A','Value':1}]"))
    = before ++ [error_line (js "Failed to put metrics: Throttled")]
    /\ error_lines before = [].
Proof.
  destruct (putMetrics stand_in (rejecting (js "Throttled")) (js "App")
              (json_text "[{'MetricName':'A','Value':1}]"))
    as [trace [r|e]] eqn:Hput; [|vm_compute in Hput; discriminate].
  assert (Hr : r = failure_result (js "Throttled"))
    by (vm_compute in Hput; injection Hput as _ <-; reflexivity).
  destruct (putMetrics_failure_trace _ _ _ _ Hput) as (before & message & -> & Hnone & Hres).
  - rewrite Hr. reflexivity.
  - exists before. rewrite Hr in Hres. injection Hres as <-. split; [reflexivity | exact Hnone].
Defined.

(* ================================================================== *)
(** * run                                                              *)
(* ================================================================== *)

Lemma outputs_app (t t' : list action) : outputs (t ++ t') = outputs t ++ outputs t'.
Proof.
  induction t as [|[e|n v|m] t IH]; cbn [app outputs]; rewrite ?IH; reflexivity.
Qed.

Lemma failures_app (t t' : list action) : failures (t ++ t') = failures t ++ failures t'.
Proof.
  induction t as [|[e|n v|m] t IH]; cbn [app failures]; rewrite ?IH; reflexivity.
Qed.

Lemma steps_app (t t' : list action) : steps (t ++ t') = steps t ++ steps t'.
Proof.
  induction t as [|[e|n v|m] t IH]; cbn [app steps]; rewrite ?IH; reflexivity.
Qed.

Lemma outputs_step (t : list event) : outputs (map step t) = [].
Proof. induction t; [reflexivity | exact IHt]. Qed.

Lemma failures_step (t : list event) : failures (map step t) = [].
Proof. induction t; [reflexivity | exact IHt]. Qed.

Lemma steps_step (t : list event) : steps (map step t) = t.
Proof. induction t as [|e t IH]; [reflexivity | cbn; rewrite IH; reflexivity]. Qed.

(** [run] once both inputs are read and the client is made, by what
    [putMetrics] answers. *)
Lemma run_with_inputs (E : engine) (H : host) (namespace text : jsstring)
      (client : CloudWatchClient) (trace : list event) (r : MetricResult) :
  getInput H (js "namespace") = Returns namespace ->
  getInput H (js "metric-data") = Returns text ->
  new_CloudWatchClient H = Returns client ->
  putMetrics E client namespace text = (trace, Returns r) ->
  run E H
  = ([step (info_line (js "AWS CloudWatch Put Metrics"));
      step (info_line (js "Namespace: " ++ namespace))]
       ++ map step trace
       ++ (if success r
           then [output_set (js "metrics-count") (count_or_zero (metricsCount r));
                 step (info_line []);
                 step (info_line rule);
                 step (info_line (js "Successfully published "
                                    ++ count_text (metricsCount r) ++ js " metric(s)"));
                 step (info_line (js "Namespace: " ++ namespace));
                 step (info_line rule)]
           else [failed_set (error_or_default (error r))]),
     Returns tt).
Proof.
  intros Hns Htext Hclient Hput.
  unfold run, run_try, act_lift, act_await, info, setOutput.
  rewrite Hns. cbn [act_bind app]. rewrite Htext. cbn [act_bind app].
  rewrite Hclient. cbn [act_bind app]. rewrite Hput. cbn [act_bind fst snd app].
  destruct (success r);
    cbn [negb act_bind app act_try_catch run_catch setFailed error_text];
    rewrite ?app_nil_r; reflexivity.
Qed.



(** X12. When [putMetrics] reports success, [run] sets [metrics-count] to
    the decimal text of the number of elements of the metric-data array,
    which is between 1 and 1000 and so never [0]; that is also the number
    of records in the one command that was sent. *)
Theorem run_reports_count (E : engine) (H : host) (namespace text : jsstring)
      (client : CloudWatchClient) (trace : list event) (r : MetricResult) :
  getInput H (js "namespace") = Returns namespace ->
  getInput H (js "metric-data") = Returns text ->
  new_CloudWatchClient H = Returns client ->
  putMetrics E client namespace text = (trace, Returns r) ->
  success r = true ->
  exists items metricData,
    json_of_text text = Some (JArray items)
    /\ 1 <= length items <= 1000
    /\ outputs (fst (run E H)) = [(js "metrics-count", nat_to_js (length items))]
    /\ failures (fst (run E H)) = []
    /\ sent_commands (steps (fst (run E H)))
       = [{| Namespace := namespace; MetricData := metricData |}]
    /\ length metricData = length items.
Proof.
  intros Hns Htext Hclient Hput Hsuccess.
  rewrite (run_with_inputs E H Hns Htext Hclient Hput). cbn [fst].
  rewrite !outputs_app, !failures_app, !steps_app, outputs_step, failures_step, steps_step.
  rewrite Hsuccess.
  pose proof (putMetrics_try_eq E client namespace text) as Htry.
  destruct (validateNamespace namespace) as [[]|e] eqn:Hvalid.
  2:{ rewrite (putMetrics_catch_eq _ _ _ _ Htry) in Hput. injection Hput as _ <-.
      discriminate. }
  destruct (parseMetricData E text) as [metricData|e] eqn:Hparse.
  2:{ rewrite (putMetrics_catch_eq _ _ _ _ Htry) in Hput. injection Hput as _ <-.
      discriminate. }
  pose proof (putMetrics_sends_once E client namespace text Hvalid Hparse) as Hsent.
  rewrite Hput in Hsent. cbn [fst] in Hsent.
  assert (Hr : r = success_result (length metricData)).
  { unfold putMetrics, io_try_catch in Hput.
    destruct (putMetrics_try E client namespace text) as [t [r'|[e|thrown]]] eqn:Htry'.
    - injection Hput as _ <-.
      destruct (putMetrics_try_returns _ _ _ _ Htry') as (md & Hmd & ->).
      rewrite Hparse in Hmd. injection Hmd as <-. reflexivity.
    - cbn in Hput. injection Hput as _ <-. discriminate.
    - cbn in Hput. discriminate. }
  apply parseMetricData_iff in Hparse as (items & Hitems & Hlen & Hall).
  pose proof (Forall2_length Hall) as Hsame.
  exists items, metricData. subst r.
  cbn [success_result metricsCount count_or_zero outputs failures steps app
       sent_commands].
  rewrite <- Hsame.
  destruct (length items) as [|n] eqn:Hn; [lia|]. cbn [Nat.eqb].
  repeat split; try lia; try assumption.
  rewrite sent_commands_app, Hsent. reflexivity.
Qed.

(** X12 on a batch of three records. *)
Lemma run_reports_count_witness :
  outputs (fst (run stand_in
                  (host_with (js "App")
                     (json_text "[{'MetricName':'A','Value':1},{'MetricName':'B','Value':2},{'MetricName':'C','Value':3}]")
                     accepting)))
  = [(js "metrics-count", js "3")].
Proof.
  destruct (putMetrics stand_in accepting (js "App")
              (json_text "[{'MetricName':'A','Value':1},{'MetricName':'B','Value':2},{'MetricName':'C','Value':3}]"))
    as [trace [r|e]] eqn:Hput; [|vm_compute in Hput; discriminate].
  assert (Hsuccess : success r = true)
    by (vm_compute in Hput; injection Hput as _ <-; reflexivity).
  destruct (@run_reports_count stand_in
              (host_with (js "App")
                 (json_text "[{'MetricName':'A','Value':1},{'MetricName':'B','Value':2},{'MetricName':'C','Value':3}]")
                 accepting)
              _ _ _ _ _ eq_refl eq_refl eq_refl Hput Hsuccess)
    as (items & metricData & Hitems & _ & Hout & _).
  rewrite Hout. vm_compute in Hitems. injection Hitems as <-. reflexivity.
Defined.

(** X13. When [putMetrics] reports failure, [run] sets no output and fails
    the step with the message of the result, the one [putMetrics] has just
    logged behind [Failed to put metrics: ]; only when that message is the
    empty string does it fail the step with [Failed to put metrics]
    instead. *)
Theorem run_reports_failure (E : engine) (H : host) (namespace text : jsstring)
      (client : CloudWatchClient) (trace : list event) (r : MetricResult) :
  getInput H (js "namespace") = Returns namespace ->
  getInput H (js "metric-data") = Returns text ->
  new_CloudWatchClient H = Returns client ->
  putMetrics E client namespace text = (trace, Returns r) ->
  success r = false ->
  exists message,
    error r = Some message
    /\ error_lines (steps (fst (run E H))) = [js "Failed to put metrics: " ++ message]
    /\ failures (fst (run E H))
       = [if truthy_string message then message else js "Failed to put metrics"]
    /\ outputs (fst (run E H)) = [].
Proof.
  intros Hns Htext Hclient Hput Hfail.
  rewrite (run_with_inputs E H Hns Htext Hclient Hput). cbn [fst].
  rewrite !outputs_app, !failures_app, !steps_app, outputs_step, failures_step, steps_step.
  rewrite Hfail.
  pose proof (putMetrics_try_no_error_lines E client namespace text) as Hnone.
  destruct (putMetrics_try E client namespace text) as [t [r'|[e|thrown]]] eqn:Htry.
  - rewrite (putMetrics_pass_eq _ _ _ _ Htry) in Hput. injection Hput as _ <-.
    apply putMetrics_try_returns in Htry as (metricData & _ & ->). discriminate.
  - rewrite (putMetrics_catch_eq _ _ _ _ Htry) in Hput. injection Hput as <- <-.
    exists (error_text e). cbn [fst] in Hnone.
    cbn [failure_result error error_or_default steps outputs failures app error_lines].
    rewrite app_nil_r, error_lines_app, Hnone. repeat split; reflexivity.
  - rewrite (putMetrics_throw_eq _ _ _ _ Htry) in Hput. discriminate.
Qed.

(** X13 on a backend that rejects with a message, and on one that rejects
    with an empty message. *)
Lemma run_reports_failure_witness :
  failures (fst (run stand_in
                   (host_with (js "App") (json_text "[{'MetricName':'A','Value':1}]")
                              (rejecting (js "AccessDenied")))))
  = [js "AccessDenied"]
  /\ failures (fst (run stand_in
                      (host_with (js "App") (json_text "[{'MetricName':'A','Value':1}]")
                                 (rejecting []))))
     = [js "Failed to put metrics"].
Proof.
  split.
  - destruct (putMetrics stand_in (rejecting (js "AccessDenied")) (js "App")
                (json_text "[{'MetricName':'A','Value':1}]"))
      as [trace [r|e]] eqn:Hput; [|vm_compute in Hput; discriminate].
    assert (Hr : r = failure_result (js "AccessDenied"))
      by (vm_compute in Hput; injection Hput as _ <-; reflexivity).
    destruct (@run_reports_failure stand_in
                (host_with (js "App") (json_text "[{'MetricName':'A','Value':1}]")
                           (rejecting (js "AccessDenied")))
                _ _ _ _ _ eq_refl eq_refl eq_refl Hput)
      as (message & Hmessage & _ & Hfail & _).
    + rewrite Hr. reflexivity.
    + rewrite Hfail. rewrite Hr in Hmessage. injection Hmessage as <-. reflexivity.
  - destruct (putMetrics stand_in (rejecting []) (js "App")
                (json_text "[{'MetricName':'A','Value':1}]"))
      as [trace [r|e]] eqn:Hput; [|vm_compute in Hput; discriminate].
    assert (Hr : r = failure_result [])
      by (vm_compute in Hput; injection Hput as _ <-; reflexivity).
    destruct (@run_reports_failure stand_in
                (host_with (js "App") (json_text "[{'MetricName':'A','Value':1}]")
                           (rejecting []))
                _ _ _ _ _ eq_refl eq_refl eq_refl Hput)
      as (message & Hmessage & _ & Hfail & _).
    + rewrite Hr. reflexivity.
    + rewrite Hfail. rewrite Hr in Hmessage. injection Hmessage as <-. reflexivity.
Defined.

(** X14. When a required input cannot be read, [run] fails the step with
    the message of that error and does nothing else: it logs nothing, makes
    no client and sends nothing. *)
Theorem run_missing_input (E : engine) (H : host) (e : exn) :
  getInput H (js "namespace") = Throws e
  \/ (exists namespace, getInput H (js "namespace") = Returns namespace)
     /\ getInput H (js "metric-data") = Throws e ->
  run E H = ([failed_set (error_text e)], Returns tt).
Proof.
  unfold run, run_try, act_try_catch, act_lift.
  intros [Hns | [[namespace Hns] Htext]]; rewrite Hns; cbn [act_bind app].
  - reflexivity.
  - rewrite Htext. reflexivity.
Qed.

(** X14 on a host that has the namespace and lacks the metric data. *)
Lemma run_missing_input_witness :
  run stand_in
    {| getInput := fun name =>
         if jsstring_eqb name (js "namespace") then Returns (js "App")
         else Throws (Error (js "Input required and not supplied: " ++ name));
       new_CloudWatchClient := Returns accepting |}
  = ([failed_set (js "Input required and not supplied: metric-data")], Returns tt).
Proof.
  apply (@run_missing_input stand_in _
           (Error (js "Input required and not supplied: metric-data"))).
  right. split; [exists (js "App"); reflexivity | reflexivity].
Defined.

Lemma validateNamespace_message (namespace : jsstring) (e : exn) :
  validateNamespace namespace = Throws e ->
  exists message, e = Error message /\ truthy_string message = true.
Proof.
  unfold validateNamespace.
  destruct (negb (truthy_string namespace) || Nat.eqb (length (trim namespace)) 0);
    [intros [= <-]; eexists; split; reflexivity|].
  destruct (Nat.ltb 255 (length namespace));
    [intros [= <-]; eexists; split; reflexivity|].
  destruct (negb (validPattern_test namespace)); [|discriminate].
  intros [= <-]. eexists. split; reflexivity.
Qed.

(** X15. A namespace that [validateNamespace] refuses fails the step with
    the message of [validateNamespace], unchanged: [run] logs its two
    opening lines, [putMetrics] logs the failure, the step is failed, and in
    between the batch is not parsed and nothing is sent. *)
Theorem run_refused_namespace (E : engine) (H : host) (namespace text : jsstring)
      (client : CloudWatchClient) (e : exn) :
  getInput H (js "namespace") = Returns namespace ->
  getInput H (js "metric-data") = Returns text ->
  new_CloudWatchClient H = Returns client ->
  validateNamespace namespace = Throws e ->
  run E H
  = ([step (info_line (js "AWS CloudWatch Put Metrics"));
      step (info_line (js "Namespace: " ++ namespace));
      step (error_line (js "Failed to put metrics: " ++ error_text e));
      failed_set (error_text e)],
     Returns tt).
Proof.
  intros Hns Htext Hclient Hvalid.
  pose proof (putMetrics_try_eq E client namespace text) as Htry.
  rewrite Hvalid in Htry.
  rewrite (run_with_inputs E H Hns Htext Hclient (putMetrics_catch_eq _ _ _ _ Htry)).
  destruct (validateNamespace_message _ Hvalid) as (message & -> & Hmessage).
  cbn [failure_result success error error_or_default error_text app map failure_line].
  rewrite Hmessage. reflexivity.
Qed.

(** X15 on a namespace with a space in it. *)
Lemma run_refused_namespace_witness :
  failures (fst (run stand_in (host_with (js "My App") (js "[]") accepting)))
  = [js "Namespace " ++ dquote ++ js "My App" ++ dquote
       ++ js " contains invalid characters. Only alphanumeric characters, hyphens, underscores, periods, and forward slashes are allowed."].
Proof.
  destruct (validateNamespace (js "My App")) as [[]|e] eqn:Hvalid;
    [vm_compute in Hvalid; discriminate|].
  rewrite (@run_refused_namespace stand_in
             (host_with (js "My App") (js "[]") accepting) _ _ _ e
             eq_refl eq_refl eq_refl Hvalid).
  vm_compute in Hvalid. injection Hvalid as <-. reflexivity.
Defined.


(** ** A rejection without a text *)


